(** * Speech-training coach: adapter and controller

    A shallow embedding of [src/openai_client.py] (the class
    [SpeechTrainingAI]) and of [app.py] (the Streamlit controller), with
    the properties of the request/response contract between them.

    Python values are modelled as the program uses them:
    - a [str] is the list of its Unicode code points;
    - the values that [json.loads] can return are the type [pyval];
      numbers are those of CPython 3.11: an [int] is unbounded, a
      [float] is an IEEE binary64, and an [int] of more than 4300 digits
      has no text;
    - an exception is its chain of classes together with [str(e)];
    - the hosted API, the JSON decoder and the range check of
      [st.progress] are libraries: they are fields of [Libs] and of the
      client object [OpenAI], and every definition is parameterised by
      them;
    - the file system, the process environment, [st.session_state], the
      widgets drawn and the calls sent to the API form the [World] that
      the code reads and updates. *)

From Stdlib Require Import ZArith NArith List String Ascii Bool Lia DecimalString DecimalN.
From Stdlib Require Import PrimFloat SpecFloat FloatOps.
From stdpp Require Import base option list gmap.

Set Warnings "-register-all,-inexact-float".

Local Open Scope N_scope.

(** ** Python strings *)

(** A [str] is a sequence of code points. *)
Definition pystr : Type := list N.

(** A [bytes] object. *)
Definition pybytes : Type := list N.

(** Decoder for the UTF-8 literals of this file ([need] continuation
    bytes are still expected for the code point accumulated in [acc]). *)
Fixpoint utf8_go (need : nat) (acc : N) (bs : list N) : pystr :=
  match bs with
  | [] => []
  | b :: bs' =>
      match need with
      | O =>
          if b <? 128 then b :: utf8_go 0 0 bs'
          else if b <? 224 then utf8_go 1 (N.land b 31) bs'
          else if b <? 240 then utf8_go 2 (N.land b 15) bs'
          else utf8_go 3 (N.land b 7) bs'
      | S O => (acc * 64 + N.land b 63) :: utf8_go 0 0 bs'
      | S n => utf8_go n (acc * 64 + N.land b 63) bs'
      end
  end.

(** [u "text"] is the Python literal ["text"]. *)
Definition u (s : string) : pystr :=
  utf8_go 0 0 (List.map N_of_ascii (list_ascii_of_string s)).

(** [uq] reads a literal in which every backquote stands for the double
    quote U+0022 of the source text (no literal of the program contains
    a backquote). *)
Definition uq (s : string) : pystr :=
  List.map (fun c => if c =? 96 then 34 else c) (u s).

Definition nl : pystr := [10].

(** The text of a triple-quoted literal, line by line: every line ends
    with a line feed. *)
Definition py_lines (ls : list pystr) : pystr :=
  concat (List.map (fun l => l ++ nl) ls).

(** [str.isspace] for one code point (the characters CPython's
    [_PyUnicode_IsWhitespace] accepts). *)
Definition py_isspace (c : N) : bool :=
  ((9 <=? c) && (c <=? 13)) || ((28 <=? c) && (c <=? 32))
  || (c =? 133) || (c =? 160) || (c =? 5760)
  || ((8192 <=? c) && (c <=? 8202))
  || (c =? 8232) || (c =? 8233) || (c =? 8239) || (c =? 8287)
  || (c =? 12288).

Fixpoint py_lstrip (s : pystr) : pystr :=
  match s with
  | c :: s' => if py_isspace c then py_lstrip s' else s
  | [] => []
  end.

Definition py_rstrip (s : pystr) : pystr := rev (py_lstrip (rev s)).

(** [s.strip()] *)
Definition py_strip (s : pystr) : pystr := py_rstrip (py_lstrip s).

Definition pystr_eqb (a b : pystr) : bool := bool_decide (a = b).

Fixpoint is_prefix (p s : pystr) : bool :=
  match p, s with
  | [], _ => true
  | a :: p', b :: s' => (a =? b) && is_prefix p' s'
  | _ :: _, [] => false
  end.

(** [p in s] for strings. *)
Fixpoint is_infix (p s : pystr) : bool :=
  is_prefix p s ||
  match s with
  | [] => false
  | _ :: s' => is_infix p s'
  end.

(** Decimal digits of a non-negative integer, as [str(n)] prints them. *)
Definition digits_of_N (n : N) : pystr :=
  List.map N_of_ascii (list_ascii_of_string (NilEmpty.string_of_uint (N.to_uint n))).

(** ** Python values *)

(** The values [json.loads] returns: [None], [bool], [int], [float]
    (IEEE binary64, as in CPython), [str], [list] and [dict] with string
    keys (an association list; a lookup takes the first binding). *)
Inductive pyval : Type :=
| PNone
| PBool (b : bool)
| PInt (z : Z)
| PFloat (f : float)
| PStr (s : pystr)
| PList (l : list pyval)
| PDict (d : list (pystr * pyval)).

(** [type(v).__name__] *)
Definition py_type_name (v : pyval) : pystr :=
  match v with
  | PNone => u "NoneType"
  | PBool _ => u "bool"
  | PInt _ => u "int"
  | PFloat _ => u "float"
  | PStr _ => u "str"
  | PList _ => u "list"
  | PDict _ => u "dict"
  end.

Fixpoint assoc_get (k : pystr) (d : list (pystr * pyval)) : option pyval :=
  match d with
  | [] => None
  | (k', v) :: d' => if pystr_eqb k k' then Some v else assoc_get k d'
  end.

(** [bool(v)] *)
Definition py_truthy (v : pyval) : bool :=
  match v with
  | PNone => false
  | PBool b => b
  | PInt z => negb (z =? 0)%Z
  | PFloat f => negb (PrimFloat.eqb f 0%float)
  | PStr s => negb (bool_decide (s = []))
  | PList l => negb (bool_decide (l = []))
  | PDict d => match d with [] => false | _ :: _ => true end
  end.

(** An f-string keeps its literal parts and the values it formats; the
    text of [format(v, spec)] is not expanded ([fstring_check] below
    says when it has none). *)
Inductive frag : Type :=
| Lit (s : pystr)
| Fmt (v : pyval) (spec : pystr).

Definition text : Type := list frag.

Definition lit (s : pystr) : text := [Lit s].

(** [str(v)] for the values whose text is fixed by a few characters. *)
Definition py_str_simple (v : pyval) : option pystr :=
  match v with
  | PNone => Some (u "None")
  | PBool true => Some (u "True")
  | PBool false => Some (u "False")
  | PInt z =>
      Some (if (z <? 0)%Z then u "-" ++ digits_of_N (Z.abs_N z) else digits_of_N (Z.abs_N z))
  | PStr s => Some s
  | _ => None
  end.

(** The characters of a [text], when all its formatted values are simple
    and formatted with the empty specification. *)
Fixpoint render (t : text) : option pystr :=
  match t with
  | [] => Some []
  | Lit s :: t' => option_map (app s) (render t')
  | Fmt v spec :: t' =>
      match spec, py_str_simple v, render t' with
      | [], Some s, Some r => Some (s ++ r)
      | _, _, _ => None
      end
  end.

(** ** Exceptions and control *)

(** An instance of [Exception]: the names of its classes, most specific
    first, and [str(e)]. *)
Record Exception : Type := mkException {
  exc_mro : list pystr;
  exc_str : pystr
}.

(** [Exception(msg)] *)
Definition Exception_ (msg : pystr) : Exception :=
  mkException [u "Exception"] msg.

Definition ValueError (msg : pystr) : Exception :=
  mkException [u "ValueError"; u "Exception"] msg.

Definition TypeError (msg : pystr) : Exception :=
  mkException [u "TypeError"; u "Exception"] msg.

Definition AttributeError (msg : pystr) : Exception :=
  mkException [u "AttributeError"; u "Exception"] msg.

Definition IndexError (msg : pystr) : Exception :=
  mkException [u "IndexError"; u "LookupError"; u "Exception"] msg.

Definition OverflowError (msg : pystr) : Exception :=
  mkException [u "OverflowError"; u "ArithmeticError"; u "Exception"] msg.

Definition OSError_ (cls : pystr) (errno : pystr) (path : pystr) : Exception :=
  mkException [cls; u "OSError"; u "Exception"] (errno ++ u ": '" ++ path ++ u "'").

Definition FileNotFoundError (path : pystr) : Exception :=
  OSError_ (u "FileNotFoundError") (u "[Errno 2] No such file or directory") path.

Definition FileExistsError (path : pystr) : Exception :=
  OSError_ (u "FileExistsError") (u "[Errno 17] File exists") path.

Definition IsADirectoryError (path : pystr) : Exception :=
  OSError_ (u "IsADirectoryError") (u "[Errno 21] Is a directory") path.

(** [isinstance(e, cls)] *)
Definition isinstance (e : Exception) (cls : pystr) : bool :=
  existsb (pystr_eqb cls) (exc_mro e).

(** Streamlit ends a script run with exceptions that derive from
    [BaseException] only: [except Exception] does not catch them. *)
Inductive ScriptControl : Type :=
| StopException
| RerunException.

Inductive outcome (A : Type) : Type :=
| Ret (a : A)
| Raise (e : Exception)
| Control (c : ScriptControl).

Arguments Ret {A} a.
Arguments Raise {A} e.
Arguments Control {A} c.

(** ** Numbers *)

Definition Z2SF (z : Z) : spec_float :=
  match z with
  | Z0 => S754_zero false
  | Zpos p => S754_finite false p 0
  | Zneg p => S754_finite true p 0
  end.

(** [float(z)], for the integers a double represents exactly (80, 60,
    100 below). *)
Definition float_of_Z (z : Z) : float :=
  SF2Prim (binary_normalize prec emax z 0 false).

(** [a / b] on two [int]s, [b > 0]: the quotient rounded once to the
    nearest double, [OverflowError] when it is out of range. *)
Definition int_truediv (a b : Z) : Exception + float :=
  match SFdiv prec emax (Z2SF a) (Z2SF b) with
  | S754_infinity _ => inl (OverflowError (u "integer division result too large for a float"))
  | r => inr (SF2Prim r)
  end.

(** [v >= n] for an [int] literal [n] that a double represents exactly. *)
Definition py_ge_int (v : pyval) (n : Z) : Exception + bool :=
  match v with
  | PBool b => inr (n <=? Z.b2z b)%Z
  | PInt z => inr (n <=? z)%Z
  | PFloat f => inr (PrimFloat.leb (float_of_Z n) f)
  | _ => inl (TypeError (u "'>=' not supported between instances of '" ++ py_type_name v
                          ++ u "' and 'int'"))
  end.

(** [v / n] for a positive [int] literal [n] that a double represents
    exactly. *)
Definition py_truediv_int (v : pyval) (n : Z) : Exception + float :=
  match v with
  | PBool b => int_truediv (Z.b2z b) n
  | PInt z => int_truediv z n
  | PFloat f => inr (PrimFloat.div f (float_of_Z n))
  | _ => inl (TypeError (u "unsupported operand type(s) for /: '" ++ py_type_name v
                          ++ u "' and 'int'"))
  end.

(** [float(z)]: the nearest double, [OverflowError] when it is out of
    range. *)
Definition int_to_float (z : Z) : Exception + float :=
  match binary_normalize prec emax z 0 false with
  | S754_infinity _ => inl (OverflowError (u "int too large to convert to float"))
  | r => inr (SF2Prim r)
  end.

(** [format(v, ".1f")]: defined on numbers only; an [int] is converted
    to a [float] first. *)
Definition py_format_1f_check (v : pyval) : option Exception :=
  match v with
  | PBool _ | PFloat _ => None
  | PInt z =>
      match int_to_float z with
      | inl e => Some e
      | inr _ => None
      end
  | PStr _ => Some (ValueError (u "Unknown format code 'f' for object of type 'str'"))
  | _ => Some (TypeError (u "unsupported format string passed to " ++ py_type_name v
                           ++ u ".__format__"))
  end.

(** The limit CPython 3.11 puts on the decimal digits of an [int] that
    is converted to text ([sys.int_info.default_max_str_digits]). *)
Definition int_max_str_digits : nat := 4300.

Definition int_digits (z : Z) : nat := length (digits_of_N (Z.abs_N z)).

(** [str(v)]: it fails on an [int] of more digits than the limit, also
    when the [int] is an item of a list or a value of a dict. *)
Fixpoint py_str_check (v : pyval) : option Exception :=
  match v with
  | PInt z =>
      if (int_max_str_digits <? int_digits z)%nat then
        Some (ValueError (u "Exceeds the limit (4300 digits) for integer string conversion; use sys.set_int_max_str_digits() to increase the limit"))
      else None
  | PList l =>
      (fix items (l : list pyval) : option Exception :=
         match l with
         | [] => None
         | x :: l' =>
             match py_str_check x with
             | Some e => Some e
             | None => items l'
             end
         end) l
  | PDict d =>
      (fix items (d : list (pystr * pyval)) : option Exception :=
         match d with
         | [] => None
         | (_, x) :: d' =>
             match py_str_check x with
             | Some e => Some e
             | None => items d'
             end
         end) d
  | _ => None
  end.

(** [format(v, spec)] for the two specifications of the program: the
    empty one, which is [str(v)], and [.1f]. *)
Definition py_format_check (v : pyval) (spec : pystr) : option Exception :=
  match spec with
  | [] => py_str_check v
  | _ :: _ => py_format_1f_check v
  end.

(** The evaluation of an f-string formats its values from left to
    right. *)
Fixpoint fstring_check (t : text) : option Exception :=
  match t with
  | [] => None
  | Lit _ :: t' => fstring_check t'
  | Fmt v spec :: t' =>
      match py_format_check v spec with
      | Some e => Some e
      | None => fstring_check t'
      end
  end.

(** [iter(v)]: the items a [for] loop visits. *)
Definition py_iter (v : pyval) : Exception + list pyval :=
  match v with
  | PStr s => inr (List.map (fun c => PStr [c]) s)
  | PList l => inr l
  | PDict d => inr (List.map (fun kv => PStr (fst kv)) d)
  | _ => inl (TypeError (u "'" ++ py_type_name v ++ u "' object is not iterable"))
  end.

(** [feedback.get(key, default)] *)
Definition py_get (v : pyval) (key : pystr) (default : pyval) : Exception + pyval :=
  match v with
  | PDict d => inr (match assoc_get key d with Some x => x | None => default end)
  | _ => inl (AttributeError (u "'" ++ py_type_name v ++ u "' object has no attribute 'get'"))
  end.

(** ** The hosted API *)

Record ChatMessage : Type := mkChatMessage {
  role : pystr;
  content : pystr
}.

(** The keyword arguments of [client.chat.completions.create]. *)
Record ChatRequest : Type := mkChatRequest {
  chat_model : pystr;
  chat_messages : list ChatMessage;
  chat_temperature : float;
  chat_response_format : option (pystr * pystr)
}.

(** [response.choices[i].message.content], which the API may leave
    [None]. *)
Record Choice : Type := mkChoice {
  message_content : option pystr
}.

Record ChatCompletion : Type := mkChatCompletion {
  choices : list Choice
}.

(** The keyword arguments of [client.audio.transcriptions.create]; [file]
    is the content of the opened audio file. *)
Record TranscriptionRequest : Type := mkTranscriptionRequest {
  tr_model : pystr;
  tr_file : pybytes;
  tr_language : pystr
}.

Record Transcription : Type := mkTranscription {
  transcription_text : pystr
}.

Inductive ApiCall : Type :=
| ChatCompletionsCreate (r : ChatRequest)
| AudioTranscriptionsCreate (r : TranscriptionRequest).

(** The client object. The answer of the service may depend on the calls
    it has received before. *)
Record OpenAI : Type := mkOpenAI {
  chat_completions_create : list ApiCall -> ChatRequest -> Exception + ChatCompletion;
  audio_transcriptions_create :
    list ApiCall -> TranscriptionRequest -> Exception + Transcription
}.

(** An instance of [SpeechTrainingAI]. *)
Record SpeechTrainingAI : Type := mkSpeechTrainingAI {
  api_key : pystr;
  client : OpenAI
}.

(** ** The world of a script run *)

(** [st.session_state]: a field is [None] while its key is absent; the
    question and the transcript hold [None] or a [str]. *)
Record SessionState : Type := mkSessionState {
  ai_client : option SpeechTrainingAI;
  current_question : option (option pystr);
  transcribed_text : option (option pystr);
  feedback : option pyval
}.

(** What the script shows, in the order of the calls. Layout containers
    ([st.columns], [with col:], [st.sidebar], [st.spinner]) are not
    recorded. *)
Inductive UiEvent : Type :=
| st_set_page_config (page_title page_icon layout : pystr)
| st_title (t : text)
| st_header (t : text)
| st_subheader (t : text)
| st_markdown (t : text)
| st_caption (t : text)
| st_write (t : text)
| st_write_value (v : pyval)
| st_info (t : text)
| st_success (t : text)
| st_warning (t : text)
| st_error (t : text)
| st_metric (label : pystr) (value : text)
| st_progress (value : float)
| st_audio (data : pybytes) (format : pystr)
| st_radio (label : pystr) (options : list pystr)
| st_button (label : pystr)
| audio_recorder_widget (neutral_color : pystr).

(** The state of the widgets in one script run. *)
Record Inputs : Type := mkInputs {
  in_training_mode : pystr;
  in_generate_clicked : bool;
  in_audio_bytes : option pybytes;
  in_analyze_clicked : bool
}.

Record World : Type := mkWorld {
  environ : gmap pystr pystr;
  fs_dirs : gset pystr;
  fs_files : gmap pystr pybytes;
  session_state : SessionState;
  ui : list UiEvent;
  api_log : list ApiCall
}.

(** The libraries the program calls. *)
Record Libs : Type := mkLibs {
  (** [OpenAI(api_key=key)] *)
  OpenAI_new : pystr -> OpenAI;
  (** [json.loads(s)] *)
  json_loads : pystr -> Exception + pyval;
  (** [st.progress(value)]: the exception it raises when it rejects the
      value *)
  st_progress_check : float -> option Exception;
  (** the exception Streamlit raises when the named key of
      [st.session_state] is read while absent *)
  st_session_state_missing : pystr -> Exception
}.

(** ** The monad of effects *)

Definition M (A : Type) : Type := World -> outcome A * World.

Definition ret {A} (a : A) : M A := fun w => (Ret a, w).

Definition bind {A B} (m : M A) (k : A -> M B) : M B :=
  fun w =>
    match m w with
    | (Ret a, w') => k a w'
    | (Raise e, w') => (Raise e, w')
    | (Control c, w') => (Control c, w')
    end.

#[global] Instance M_ret : MRet M := @ret.
#[global] Instance M_bind : MBind M := fun A B k m => bind m k.

Definition raise {A} (e : Exception) : M A := fun w => (Raise e, w).

Definition control {A} (c : ScriptControl) : M A := fun w => (Control c, w).

(** [try: body except Exception as e: handler e] *)
Definition try_except {A} (body : M A) (handler : Exception -> M A) : M A :=
  fun w =>
    match body w with
    | (Raise e, w') => handler e w'
    | r => r
    end.

(** [try: body except cls as e: handler e] *)
Definition try_except_cls {A} (cls : pystr) (body : M A) (handler : Exception -> M A) : M A :=
  fun w =>
    match body w with
    | (Raise e, w') => if isinstance e cls then handler e w' else (Raise e, w')
    | r => r
    end.

Definition lift {A} (r : Exception + A) : M A :=
  match r with
  | inl e => raise e
  | inr a => ret a
  end.

(** An f-string: the [text] of its parts, once its values are formatted. *)
Definition fstring (t : text) : M text :=
  match fstring_check t with
  | Some e => raise e
  | None => ret t
  end.

Definition get_world : M World := fun w => (Ret w, w).

Definition with_session_state (s : SessionState) (w : World) : World :=
  mkWorld (environ w) (fs_dirs w) (fs_files w) s (ui w) (api_log w).

Definition with_fs (dirs : gset pystr) (files : gmap pystr pybytes) (w : World) : World :=
  mkWorld (environ w) dirs files (session_state w) (ui w) (api_log w).

Definition add_ui (e : UiEvent) (w : World) : World :=
  mkWorld (environ w) (fs_dirs w) (fs_files w) (session_state w) (ui w ++ [e]) (api_log w).

Definition add_call (c : ApiCall) (w : World) : World :=
  mkWorld (environ w) (fs_dirs w) (fs_files w) (session_state w) (ui w) (api_log w ++ [c]).

Definition set_session_state (s : SessionState) : M unit :=
  fun w => (Ret tt, with_session_state s w).

Definition set_fs (dirs : gset pystr) (files : gmap pystr pybytes) : M unit :=
  fun w => (Ret tt, with_fs dirs files w).

(** A call of a [st.*] function that draws [e]. *)
Definition show (e : UiEvent) : M unit := fun w => (Ret tt, add_ui e w).

Definition log_call (c : ApiCall) : M unit := fun w => (Ret tt, add_call c w).

Definition when (b : bool) (m : M unit) : M unit := if b then m else ret tt.

(** [for x in xs: body x] *)
Fixpoint for_each {A} (xs : list A) (body : A -> M unit) : M unit :=
  match xs with
  | [] => ret tt
  | x :: xs' => bind (body x) (fun _ => for_each xs' body)
  end.

(** *** Calls of the API: the request is recorded, then answered. *)

Definition call_chat_completions_create (c : OpenAI) (req : ChatRequest) : M ChatCompletion :=
  w ← get_world;
  log_call (ChatCompletionsCreate req);;
  lift (chat_completions_create c (api_log w) req).

Definition call_audio_transcriptions_create (c : OpenAI) (req : TranscriptionRequest)
  : M Transcription :=
  w ← get_world;
  log_call (AudioTranscriptionsCreate req);;
  lift (audio_transcriptions_create c (api_log w) req).

(** *** Files: a path is an opaque name, bound to a directory or to the
    content of a regular file. *)

(** What [open(path, "rb")] and reading the file give in a world. *)
Definition read_file (w : World) (path : pystr) : Exception + pybytes :=
  if bool_decide (path ∈ fs_dirs w) then inl (IsADirectoryError path)
  else match fs_files w !! path with
       | Some data => inr data
       | None => inl (FileNotFoundError path)
       end.

(** [open(path, "rb")] followed by reading the file. *)
Definition open_rb (path : pystr) : M pybytes :=
  w ← get_world; lift (read_file w path).

(** [with open(path, "wb") as f: f.write(data)] *)
Definition write_wb (path : pystr) (data : pybytes) : M unit :=
  w ← get_world;
  if bool_decide (path ∈ fs_dirs w) then raise (IsADirectoryError path)
  else set_fs (fs_dirs w) (<[path := data]> (fs_files w)).

(** [Path(path).mkdir(exist_ok=True)] *)
Definition mkdir_exist_ok (path : pystr) : M unit :=
  w ← get_world;
  match fs_files w !! path with
  | Some _ => raise (FileExistsError path)
  | None => set_fs ({[path]} ∪ fs_dirs w) (fs_files w)
  end.

(** [os.remove(path)] *)
Definition os_remove (path : pystr) : M unit :=
  w ← get_world;
  if bool_decide (path ∈ fs_dirs w) then raise (IsADirectoryError path)
  else match fs_files w !! path with
       | Some _ => set_fs (fs_dirs w) (delete path (fs_files w))
       | None => raise (FileNotFoundError path)
       end.

(** [os.getenv(name)] *)
Definition os_getenv (name : pystr) : M (option pystr) :=
  w ← get_world; ret (environ w !! name).

(** * The adapter: [src/openai_client.py] *)

Section Adapter.

Variable L : Libs.

(** [a or b] on two values that are [None] or a [str]. *)
Definition py_or (a b : option pystr) : option pystr :=
  match a with
  | Some (_ :: _) => a
  | _ => b
  end.

(** [SpeechTrainingAI.__init__(self, api_key)] (lines 14-25). *)
Definition SpeechTrainingAI__init__ (api_key : option pystr) : M SpeechTrainingAI :=
  env ← os_getenv (u "OPENAI_API_KEY");
  let self_api_key := py_or api_key env in
  match self_api_key with
  | Some ((_ :: _) as key) => ret (mkSpeechTrainingAI key (OpenAI_new L key))
  | _ => raise (ValueError (u "OpenAI APIキーが設定されていません"))
  end.

(** [transcribe_audio(self, audio_file_path)] (lines 27-46). *)
Definition transcribe_audio (self : SpeechTrainingAI) (audio_file_path : pystr) : M pystr :=
  try_except
    (audio_file ← open_rb audio_file_path;
     transcript ← call_audio_transcriptions_create (client self)
       (mkTranscriptionRequest (u "whisper-1") audio_file (u "ja"));
     ret (transcription_text transcript))
    (fun e => raise (Exception_ (u "音声認識エラー: " ++ exc_str e))).

(** [response.choices[0]] *)
Definition choices_0 (response : ChatCompletion) : M Choice :=
  match choices response with
  | c :: _ => ret c
  | [] => raise (IndexError (u "list index out of range"))
  end.

(** [json.loads(content)]; the decoder rejects [None] itself. *)
Definition py_json_loads (content : option pystr) : M pyval :=
  match content with
  | Some s => lift (json_loads L s)
  | None =>
      raise (TypeError (u "the JSON object must be str, bytes or bytearray, not NoneType"))
  end.

(** [content.strip()] *)
Definition content_strip (content : option pystr) : M pystr :=
  match content with
  | Some s => ret (py_strip s)
  | None => raise (AttributeError (u "'NoneType' object has no attribute 'strip'"))
  end.

(** The f-string [prompt] of [analyze_parrot_response]. *)
Definition analyze_parrot_response_prompt (question user_response : pystr) : pystr :=
  nl ++ py_lines
    [ u "あなたは話し方トレーニングのコーチです。";
      u "以下の「オウム返し訓練」の評価を行ってください。";
      [];
      u "【訓練の目的】";
      u "質問に対し、まずその質問内容を復唱（オウム返し）し、次に話す内容を考える時間（約2秒）を意図的に稼ぐ練習です。";
      [];
      u "【提示された質問】" ]
  ++ question ++ nl ++ py_lines
    [ [];
      u "【ユーザーの回答】" ]
  ++ user_response ++ nl ++ py_lines
    [ [];
      u "【評価項目】";
      u "1. 質問の復唱: 質問内容を適切にオウム返しできているか";
      u "2. 回答の有無: 復唱の後に、自分なりの回答を述べているか";
      u "3. 構成: 「復唱→回答」の流れができているか";
      [];
      u "以下のJSON形式で評価してください：";
      u "{";
      uq "    `has_parrot`: true/false,";
      uq "    `has_answer`: true/false,";
      uq "    `score`: 0-100,";
      uq "    `feedback`: `具体的なフィードバック（日本語、200文字以内）`,";
      uq "    `good_points`: [`良かった点1`, `良かった点2`],";
      uq "    `improvements`: [`改善点1`, `改善点2`]";
      u "}" ].

(** [analyze_parrot_response(question, user_response)] (openai_client.py, lines 48-105). *)
Definition analyze_parrot_response (self : SpeechTrainingAI) (question user_response : pystr) : M pyval :=
  let prompt := analyze_parrot_response_prompt question user_response in
  try_except
    (response ← call_chat_completions_create (client self)
       (mkChatRequest (u "gpt-4")
          [ mkChatMessage (u "system") (u "あなたは話し方トレーニングの専門コーチです。");
            mkChatMessage (u "user") prompt ]
          0.7%float
          (Some (u "type", u "json_object")));
     choice ← choices_0 response;
     result ← py_json_loads (message_content choice);
     ret result)
    (fun e => raise (Exception_ (u "分析エラー: " ++ exc_str e))).

(** The f-string [prompt] of [analyze_live_commentary]. *)
Definition analyze_live_commentary_prompt (topic user_speech : pystr) : pystr :=
  nl ++ py_lines
    [ u "あなたは話し方トレーニングのコーチです。";
      u "以下の「実況トレーニング」の評価を行ってください。";
      [];
      u "【訓練の目的】";
      u "提示された物体を、短い言葉で区切りながら（句点を意識して）連ねていく発話練習です。";
      u "長い言葉を使わず、簡潔に区切って話すことが重要です。";
      [];
      u "【実況対象】" ]
  ++ topic ++ nl ++ py_lines
    [ [];
      u "【ユーザーの発話】" ]
  ++ user_speech ++ nl ++ py_lines
    [ [];
      u "【評価項目】";
      u "1. 句点の意識: 文章を「丸（句点）」で言い切れているか";
      u "2. 簡潔さ: 一文が短く、わかりやすいか";
      u "3. 接続詞の使用: 接続詞で繋げすぎていないか";
      u "4. 具体性: 抽象的ではなく、具体的に表現できているか";
      [];
      u "以下のJSON形式で評価してください：";
      u "{";
      uq "    `sentence_count`: 文の数,";
      uq "    `avg_sentence_length`: 平均文字数,";
      uq "    `score`: 0-100,";
      uq "    `feedback`: `具体的なフィードバック（日本語、200文字以内）`,";
      uq "    `good_points`: [`良かった点1`, `良かった点2`],";
      uq "    `improvements`: [`改善点1`, `改善点2`]";
      u "}" ].

(** [analyze_live_commentary(topic, user_speech)] (lines 107-166). *)
Definition analyze_live_commentary (self : SpeechTrainingAI) (topic user_speech : pystr) : M pyval :=
  let prompt := analyze_live_commentary_prompt topic user_speech in
  try_except
    (response ← call_chat_completions_create (client self)
       (mkChatRequest (u "gpt-4")
          [ mkChatMessage (u "system") (u "あなたは話し方トレーニングの専門コーチです。");
            mkChatMessage (u "user") prompt ]
          0.7%float
          (Some (u "type", u "json_object")));
     choice ← choices_0 response;
     result ← py_json_loads (message_content choice);
     ret result)
    (fun e => raise (Exception_ (u "分析エラー: " ++ exc_str e))).

(** The f-string [prompt] of [analyze_self_questioning]. *)
Definition analyze_self_questioning_prompt (action user_response : pystr) : pystr :=
  nl ++ py_lines
    [ u "あなたは話し方トレーニングのコーチです。";
      u "以下の「自問自答ダイアログ」の評価を行ってください。";
      [];
      u "【訓練の目的】";
      u "提示された日常の行動に対し、「なぜ？」を問いかけ、深掘りした理由を言語化させる練習です。";
      u "思考の引き出しを増やすことが目的です。";
      [];
      u "【提示された行動】" ]
  ++ action ++ nl ++ py_lines
    [ [];
      u "【ユーザーの回答】" ]
  ++ user_response ++ nl ++ py_lines
    [ [];
      u "【評価項目】";
      u "1. 深掘り度: 表面的ではなく、深い理由まで言語化できているか";
      u "2. 具体性: 抽象的ではなく、具体的に説明できているか";
      u "3. 思考の広がり: 複数の視点や理由を述べているか";
      u "4. 言語化力: 自分の考えを言葉にできているか";
      [];
      u "以下のJSON形式で評価してください：";
      u "{";
      uq "    `depth_level`: 1-5（深掘りの深さ）,";
      uq "    `is_specific`: true/false,";
      uq "    `score`: 0-100,";
      uq "    `feedback`: `具体的なフィードバック（日本語、200文字以内）`,";
      uq "    `good_points`: [`良かった点1`, `良かった点2`],";
      uq "    `improvements`: [`改善点1`, `改善点2`]";
      u "}" ].

(** [analyze_self_questioning(action, user_response)] (lines 168-227). *)
Definition analyze_self_questioning (self : SpeechTrainingAI) (action user_response : pystr) : M pyval :=
  let prompt := analyze_self_questioning_prompt action user_response in
  try_except
    (response ← call_chat_completions_create (client self)
       (mkChatRequest (u "gpt-4")
          [ mkChatMessage (u "system") (u "あなたは話し方トレーニングの専門コーチです。");
            mkChatMessage (u "user") prompt ]
          0.7%float
          (Some (u "type", u "json_object")));
     choice ← choices_0 response;
     result ← py_json_loads (message_content choice);
     ret result)
    (fun e => raise (Exception_ (u "分析エラー: " ++ exc_str e))).

(** The f-string [prompt] of [analyze_conclusion_first]. *)
Definition analyze_conclusion_first_prompt (question user_response : pystr) : pystr :=
  nl ++ py_lines
    [ u "あなたは話し方トレーニングのコーチです。";
      u "以下の「結論ファースト訓練」の評価を行ってください。";
      [];
      u "【訓練の目的】";
      u "質問に対し、まず結論を強く言い切る発話練習です。";
      u "冒頭に「パンチワード」または「エッセンスワード」があることが重要です。";
      [];
      u "【提示された質問】" ]
  ++ question ++ nl ++ py_lines
    [ [];
      u "【ユーザーの回答】" ]
  ++ user_response ++ nl ++ py_lines
    [ [];
      u "【評価項目】";
      u "1. 結論ファースト: 冒頭に結論が来ているか";
      u "2. 言い切り: 断定的に、強く言い切れているか";
      u "3. パンチワード: インパクトのある言葉で始まっているか";
      u "4. 明確性: 何を言いたいのかが明確か";
      [];
      u "以下のJSON形式で評価してください：";
      u "{";
      uq "    `has_conclusion_first`: true/false,";
      uq "    `has_punch_word`: true/false,";
      uq "    `assertiveness`: 1-5（言い切りの強さ）,";
      uq "    `score`: 0-100,";
      uq "    `feedback`: `具体的なフィードバック（日本語、200文字以内）`,";
      uq "    `good_points`: [`良かった点1`, `良かった点2`],";
      uq "    `improvements`: [`改善点1`, `改善点2`]";
      u "}" ].

(** [analyze_conclusion_first(question, user_response)] (lines 229-289). *)
Definition analyze_conclusion_first (self : SpeechTrainingAI) (question user_response : pystr) : M pyval :=
  let prompt := analyze_conclusion_first_prompt question user_response in
  try_except
    (response ← call_chat_completions_create (client self)
       (mkChatRequest (u "gpt-4")
          [ mkChatMessage (u "system") (u "あなたは話し方トレーニングの専門コーチです。");
            mkChatMessage (u "user") prompt ]
          0.7%float
          (Some (u "type", u "json_object")));
     choice ← choices_0 response;
     result ← py_json_loads (message_content choice);
     ret result)
    (fun e => raise (Exception_ (u "分析エラー: " ++ exc_str e))).

(** The four templates of [generate_question] (lines 301-348). *)
Definition generate_question_prompt_parrot : pystr :=
  nl ++ py_lines
    [ u "話し方トレーニングの「オウム返し訓練」用の質問を1つ生成してください。";
      u "日常的で答えやすい質問にしてください。";
      [];
      u "例：";
      u "- 今日の朝ごはんは何を食べましたか？";
      u "- 最近ハマっていることは何ですか？";
      u "- 好きな季節とその理由を教えてください";
      [];
      u "質問文のみを出力してください。" ].

Definition generate_question_prompt_commentary : pystr :=
  nl ++ py_lines
    [ u "話し方トレーニングの「実況トレーニング」用のトピックを1つ生成してください。";
      u "身の回りにある具体的な物や場所にしてください。";
      [];
      u "例：";
      u "- 自分のスマートフォン";
      u "- 今いる部屋";
      u "- 自分の手";
      [];
      u "トピック名のみを出力してください。" ].

Definition generate_question_prompt_self_questioning : pystr :=
  nl ++ py_lines
    [ u "話し方トレーニングの「自問自答ダイアログ」用の日常行動を1つ生成してください。";
      u "ユーザーが「なぜそれをするのか」を深掘りできるような行動にしてください。";
      [];
      u "例：";
      u "- 毎朝コーヒーを飲む";
      u "- スマホを頻繁にチェックする";
      u "- 週末に散歩をする";
      [];
      u "「〜をする」という形式で、行動のみを出力してください。" ].

Definition generate_question_prompt_conclusion_first : pystr :=
  nl ++ py_lines
    [ u "話し方トレーニングの「結論ファースト訓練」用の質問を1つ生成してください。";
      u "意見や考えを求める質問にしてください。";
      [];
      u "例：";
      u "- あなたにとって仕事で最も大切なことは何ですか？";
      u "- 今年の目標を一言で表すと？";
      u "- この会議で最も重要な論点は何だと思いますか？";
      [];
      u "質問文のみを出力してください。" ].


(** The [if]/[elif] chain that picks the template (lines 301-348). *)
Definition generate_question_prompt (training_type : pystr) : pystr :=
  if pystr_eqb training_type (u "parrot") then generate_question_prompt_parrot
  else if pystr_eqb training_type (u "commentary") then generate_question_prompt_commentary
  else if pystr_eqb training_type (u "self_questioning")
       then generate_question_prompt_self_questioning
  else generate_question_prompt_conclusion_first.

(** [generate_question(training_type)] (lines 291-363). *)
Definition generate_question (self : SpeechTrainingAI) (training_type : pystr) : M pystr :=
  let prompt := generate_question_prompt training_type in
  try_except
    (response ← call_chat_completions_create (client self)
       (mkChatRequest (u "gpt-4")
          [ mkChatMessage (u "system") (u "あなたは話し方トレーニングの質問生成AIです。");
            mkChatMessage (u "user") prompt ]
          0.9%float
          None);
     choice ← choices_0 response;
     content_strip (message_content choice))
    (fun e => raise (Exception_ (u "質問生成エラー: " ++ exc_str e))).

End Adapter.

(** * The controller: [app.py] *)

Section Controller.

Variable L : Libs.

(** *** [st.session_state] *)

Definition get_session_state : M SessionState :=
  w ← get_world; ret (session_state w).

(** Reading [st.session_state.<name>]. *)
Definition session_attr {A} (name : pystr) (field : SessionState -> option A) : M A :=
  s ← get_session_state;
  match field s with
  | Some a => ret a
  | None => raise (st_session_state_missing L name)
  end.

Definition set_ai_client (c : SpeechTrainingAI) : M unit :=
  s ← get_session_state;
  set_session_state
    (mkSessionState (Some c) (current_question s) (transcribed_text s) (feedback s)).

Definition set_current_question (q : option pystr) : M unit :=
  s ← get_session_state;
  set_session_state
    (mkSessionState (ai_client s) (Some q) (transcribed_text s) (feedback s)).

Definition set_transcribed_text (t : option pystr) : M unit :=
  s ← get_session_state;
  set_session_state
    (mkSessionState (ai_client s) (current_question s) (Some t) (feedback s)).

Definition set_feedback (v : pyval) : M unit :=
  s ← get_session_state;
  set_session_state
    (mkSessionState (ai_client s) (current_question s) (transcribed_text s) (Some v)).

(** [str(v)] for a value that is [None] or a [str]. *)
Definition py_str_opt (v : option pystr) : pystr :=
  match v with
  | Some s => s
  | None => u "None"
  end.

Definition truthy_opt (v : option pystr) : bool :=
  match v with
  | Some (_ :: _) => true
  | _ => false
  end.

(** [st.progress(value)] *)
Definition call_st_progress (value : float) : M unit :=
  match st_progress_check L value with
  | Some e => raise e
  | None => show (st_progress value)
  end.

(** The script up to the definition of its functions (lines 15-40); the
    environment of the world is the one [load_dotenv()] leaves. *)
Definition initialize : M unit :=
  show (st_set_page_config (u "話力鍛錬所") (u "🗣️") (u "wide"));;
  s ← get_session_state;
  when (bool_decide (ai_client s = None))
    (try_except_cls (u "ValueError")
       (c ← SpeechTrainingAI__init__ L None;
        set_ai_client c)
       (fun e =>
          show (st_error (lit (u "⚠️ OpenAI APIキーが設定されていません。.envファイルを確認してください。")));;
          control StopException));;
  s ← get_session_state;
  when (bool_decide (current_question s = None)) (set_current_question None);;
  s ← get_session_state;
  when (bool_decide (transcribed_text s = None)) (set_transcribed_text None);;
  s ← get_session_state;
  when (bool_decide (feedback s = None)) (set_feedback PNone).

Definition default_filename : pystr := u "recorded_audio.wav".

(** [save_audio_file(audio_bytes, filename)] (lines 43-61), for a plain
    file name. *)
Definition save_audio_file (audio_bytes : pybytes) (filename : pystr) : M pystr :=
  let audio_dir := u "audio_files" in
  mkdir_exist_ok audio_dir;;
  let file_path := audio_dir ++ u "/" ++ filename in
  write_wb file_path audio_bytes;;
  ret file_path.

(** The two loops of [display_feedback] over a list of points. *)
Definition write_points (points : pyval) : M unit :=
  if py_truthy points then
    items ← lift (py_iter points);
    for_each items (fun point =>
      line ← fstring [Lit (u "- "); Fmt point []];
      show (st_write line))
  else show (st_write (lit (u "（該当なし）"))).

(** [display_feedback(feedback, training_type)] (lines 64-134). *)
Definition display_feedback (feedback : pyval) (training_type : pystr) : M unit :=
  show (st_subheader (lit (u "📊 評価結果")));;
  score ← lift (py_get feedback (u "score") (PInt 0));
  value ← fstring [Fmt score []; Lit (u "/100")];
  show (st_metric (u "スコア") value);;
  ge80 ← lift (py_ge_int score 80);
  (if ge80 : bool then
     banner ← fstring [Lit (u "素晴らしい！ スコア: "); Fmt score []; Lit (u "/100")];
     show (st_success banner)
   else
     ge60 ← lift (py_ge_int score 60);
     if ge60 : bool then
       banner ← fstring [Lit (u "良い調子です！ スコア: "); Fmt score []; Lit (u "/100")];
       show (st_info banner)
     else
       banner ← fstring [Lit (u "もう少し頑張りましょう！ スコア: "); Fmt score []; Lit (u "/100")];
       show (st_warning banner));;
  ratio ← lift (py_truediv_int score 100);
  call_st_progress ratio;;
  show (st_markdown (lit (u "### 💬 総合フィードバック")));;
  fb ← lift (py_get feedback (u "feedback") (PStr []));
  show (st_write_value fb);;
  show (st_markdown (lit (u "### ✅ 良かった点")));;
  good_points ← lift (py_get feedback (u "good_points") (PList []));
  write_points good_points;;
  show (st_markdown (lit (u "### 📈 改善点")));;
  improvements ← lift (py_get feedback (u "improvements") (PList []));
  write_points improvements;;
  if pystr_eqb training_type (u "parrot") then
    show (st_markdown (lit (u "### 📝 オウム返し分析")));;
    has_parrot ← lift (py_get feedback (u "has_parrot") (PBool false));
    show (st_write (lit (u "質問の復唱: " ++
       (if py_truthy has_parrot then u "✅ できている" else u "❌ できていない"))));;
    has_answer ← lift (py_get feedback (u "has_answer") (PBool false));
    show (st_write (lit (u "回答の提示: " ++
       (if py_truthy has_answer then u "✅ できている" else u "❌ できていない"))))
  else if pystr_eqb training_type (u "commentary") then
    show (st_markdown (lit (u "### 📝 実況分析")));;
    sentence_count ← lift (py_get feedback (u "sentence_count") (PInt 0));
    count ← fstring [Lit (u "文の数: "); Fmt sentence_count []];
    show (st_write count);;
    avg_length ← lift (py_get feedback (u "avg_sentence_length") (PInt 0));
    average ← fstring [Lit (u "平均文字数: "); Fmt avg_length (u ".1f")];
    show (st_write average)
  else ret tt.

(** The instructions [parrot_training] shows (app.py, lines 141-155). *)
Definition parrot_training_instructions : pystr :=
  nl ++ py_lines
    [ u "    ### 訓練の目的";
      u "    質問に対し、まず**その質問内容を復唱（オウム返し）**し、次に話す内容を考える時間（約2秒）を意図的に稼ぐ練習です。";
      [];
      u "    ### やり方";
      u "    1. 下の「新しい質問を生成」ボタンを押して質問を取得";
      u "    2. 質問を読んで理解する";
      u "    3. 録音ボタンを押して、**質問を復唱してから回答**する";
      u "    4. AIがあなたの回答を分析してフィードバックします";
      [];
      u "    ### ポイント";
      u "    - 「〜ですか？」という質問なら、「〜について、ですね」と復唱";
      u "    - 復唱することで、2秒程度の考える時間を確保できる";
      u "    - 復唱の後に、自分の考えを述べる" ]
  ++ u "    ".

(** The instructions [commentary_training] shows (lines 230-246). *)
Definition commentary_training_instructions : pystr :=
  nl ++ py_lines
    [ u "    ### 訓練の目的";
      u "    提示された物体を、**短い言葉で区切りながら（句点を意識して）連ねていく**発話練習です。";
      u "    長い言葉を使わず、簡潔に区切って話すことが重要です。";
      [];
      u "    ### やり方";
      u "    1. 下の「新しいトピックを生成」ボタンを押してトピックを取得";
      u "    2. そのトピック（物や場所）を観察する";
      u "    3. 録音ボタンを押して、**短い文で区切りながら実況**する";
      u "    4. AIがあなたの発話を分析してフィードバックします";
      [];
      u "    ### ポイント";
      u "    - 一文を短くする（目安：10〜15文字程度）";
      u "    - 「〜で、〜で、」のような接続詞で繋げない";
      u "    - 「これは〜です。」「色は〜です。」のように、句点で区切る";
      u "    - 抽象的な表現ではなく、具体的に描写する" ]
  ++ u "    ".

(** The text of the sidebar (lines 335-348). *)
Definition sidebar_about : pystr :=
  nl ++ py_lines
    [ u "        ### 💡 アプリについて";
      [];
      u "        このアプリは、**話し方の課題（言葉が出てこない）** を改善するためのトレーニングツールです。";
      [];
      u "        **主な機能:**";
      u "        - 🦜 オウム返し訓練";
      u "        - 📢 実況トレーニング";
      u "        - 🎤 音声認識";
      u "        - 📊 AIフィードバック";
      [];
      u "        毎日少しずつ練習することで、";
      u "        話す力が向上します！" ]
  ++ u "        ".

(** The handler of the button that submits a recording: the [try]
    statement of [parrot_training] (lines 192-220) and of
    [commentary_training] (lines 283-311), which differ in the analysis
    method called and in the training type passed to
    [display_feedback]. *)
Definition submit_recording
    (analyze : SpeechTrainingAI -> pystr -> pystr -> M pyval)
    (training_type : pystr) (audio_bytes : pybytes) : M unit :=
  try_except
    (audio_path ← save_audio_file audio_bytes default_filename;
     ai ← session_attr (u "ai_client") ai_client;
     text ← transcribe_audio ai audio_path;
     set_transcribed_text (Some text);;
     show (st_success (lit (u "✅ 音声認識完了")));;
     show (st_markdown (lit (u "### 📝 認識されたテキスト")));;
     show (st_write (lit text));;
     ai ← session_attr (u "ai_client") ai_client;
     question ← session_attr (u "current_question") current_question;
     fb ← analyze ai (py_str_opt question) text;
     set_feedback fb;;
     display_feedback fb training_type;;
     os_remove audio_path)
    (fun e => show (st_error (lit (u "エラーが発生しました: " ++ exc_str e)))).

(** [parrot_training()] (lines 137-223). *)
Definition parrot_training (inp : Inputs) : M unit :=
  show (st_header (lit (u "🦜 オウム返し訓練")));;
  show (st_markdown (lit parrot_training_instructions));;
  show (st_button (u "🎲 新しい質問を生成"));;
  when (in_generate_clicked inp)
    (try_except
       (ai ← session_attr (u "ai_client") ai_client;
        question ← generate_question ai (u "parrot");
        set_current_question (Some question);;
        set_transcribed_text None;;
        set_feedback PNone;;
        control RerunException)
       (fun e => show (st_error (lit (u "質問生成エラー: " ++ exc_str e)))));;
  question ← session_attr (u "current_question") current_question;
  if truthy_opt question then
    question ← session_attr (u "current_question") current_question;
    show (st_info (lit (u "**質問:** " ++ py_str_opt question)));;
    show (st_markdown (lit (u "### 🎤 音声を録音")));;
    show (st_write (lit (u "マイクボタンをクリックして録音を開始してください。もう一度クリックすると録音が停止します。")));;
    show (audio_recorder_widget (u "#3498db"));;
    match in_audio_bytes inp with
    | Some ((_ :: _) as audio_bytes) =>
        show (st_audio audio_bytes (u "audio/wav"));;
        show (st_button (u "📊 音声を分析"));;
        when (in_analyze_clicked inp)
          (submit_recording (analyze_parrot_response L) (u "parrot") audio_bytes)
    | _ => ret tt
    end
  else
    show (st_warning (lit (u "「新しい質問を生成」ボタンを押して、トレーニングを開始してください。"))).

(** [commentary_training()] (lines 226-314). *)
Definition commentary_training (inp : Inputs) : M unit :=
  show (st_header (lit (u "📢 実況トレーニング")));;
  show (st_markdown (lit commentary_training_instructions));;
  show (st_button (u "🎲 新しいトピックを生成"));;
  when (in_generate_clicked inp)
    (try_except
       (ai ← session_attr (u "ai_client") ai_client;
        question ← generate_question ai (u "commentary");
        set_current_question (Some question);;
        set_transcribed_text None;;
        set_feedback PNone;;
        control RerunException)
       (fun e => show (st_error (lit (u "トピック生成エラー: " ++ exc_str e)))));;
  question ← session_attr (u "current_question") current_question;
  if truthy_opt question then
    question ← session_attr (u "current_question") current_question;
    show (st_info (lit (u "**実況対象:** " ++ py_str_opt question)));;
    show (st_markdown (lit (u "### 🎤 音声を録音")));;
    show (st_write (lit (u "マイクボタンをクリックして録音を開始してください。もう一度クリックすると録音が停止します。")));;
    show (audio_recorder_widget (u "#27ae60"));;
    match in_audio_bytes inp with
    | Some ((_ :: _) as audio_bytes) =>
        show (st_audio audio_bytes (u "audio/wav"));;
        show (st_button (u "📊 音声を分析"));;
        when (in_analyze_clicked inp)
          (submit_recording (analyze_live_commentary L) (u "commentary") audio_bytes)
    | _ => ret tt
    end
  else
    show (st_warning (lit (u "「新しいトピックを生成」ボタンを押して、トレーニングを開始してください。"))).

(** [main()] (lines 317-357). *)
Definition main (inp : Inputs) : M unit :=
  show (st_title (lit (u "🗣️ 話力鍛錬所")));;
  show (st_markdown (lit (u "### タイプA（言葉が出てこないパターン）向けトレーニング")));;
  show (st_header (lit (u "📋 メニュー")));;
  show (st_radio (u "トレーニングを選択") [u "オウム返し訓練"; u "実況トレーニング"]);;
  show (st_markdown (lit (u "---")));;
  show (st_markdown (lit sidebar_about));;
  show (st_markdown (lit (u "---")));;
  show (st_caption (lit (u "Powered by OpenAI API")));;
  if pystr_eqb (in_training_mode inp) (u "オウム返し訓練") then parrot_training inp
  else commentary_training inp.

(** One run of the script [app.py]. *)
Definition app (inp : Inputs) : M unit :=
  initialize;;
  main inp.

End Controller.

(** * The contract between controller and adapter *)

(** The drill types of the adapter. *)
Inductive drill : Type :=
| ParrotRepeat
| LiveCommentary
| SelfQuestioning
| ConclusionFirst.

(** The tag [generate_question] receives for a drill type. *)
Definition drill_tag (d : drill) : pystr :=
  match d with
  | ParrotRepeat => u "parrot"
  | LiveCommentary => u "commentary"
  | SelfQuestioning => u "self_questioning"
  | ConclusionFirst => u "conclusion_first"
  end.

(** The analysis method of a drill type. *)
Definition analyze (L : Libs) (d : drill)
  : SpeechTrainingAI -> pystr -> pystr -> M pyval :=
  match d with
  | ParrotRepeat => analyze_parrot_response L
  | LiveCommentary => analyze_live_commentary L
  | SelfQuestioning => analyze_self_questioning L
  | ConclusionFirst => analyze_conclusion_first L
  end.

(** The instruction string of the analysis method of a drill type. *)
Definition analysis_prompt (d : drill) : pystr -> pystr -> pystr :=
  match d with
  | ParrotRepeat => analyze_parrot_response_prompt
  | LiveCommentary => analyze_live_commentary_prompt
  | SelfQuestioning => analyze_self_questioning_prompt
  | ConclusionFirst => analyze_conclusion_first_prompt
  end.

(** ** The templates of the analysis methods

    The instruction string of each analysis method, as the lines of its
    f-string (openai_client.py, lines 60-87, 119-148, 180-209 and
    241-271): the rubric of the drill around the prompt and the
    transcript. *)

(** The line that names the drill. *)
Definition rubric_title (d : drill) : pystr :=
  match d with
  | ParrotRepeat => u "以下の「オウム返し訓練」の評価を行ってください。"
  | LiveCommentary => u "以下の「実況トレーニング」の評価を行ってください。"
  | SelfQuestioning => u "以下の「自問自答ダイアログ」の評価を行ってください。"
  | ConclusionFirst => u "以下の「結論ファースト訓練」の評価を行ってください。"
  end.

(** The purpose of the drill. *)
Definition rubric_purpose (d : drill) : list pystr :=
  match d with
  | ParrotRepeat =>
      [ u "質問に対し、まずその質問内容を復唱（オウム返し）し、次に話す内容を考える時間（約2秒）を意図的に稼ぐ練習です。" ]
  | LiveCommentary =>
      [ u "提示された物体を、短い言葉で区切りながら（句点を意識して）連ねていく発話練習です。";
        u "長い言葉を使わず、簡潔に区切って話すことが重要です。" ]
  | SelfQuestioning =>
      [ u "提示された日常の行動に対し、「なぜ？」を問いかけ、深掘りした理由を言語化させる練習です。";
        u "思考の引き出しを増やすことが目的です。" ]
  | ConclusionFirst =>
      [ u "質問に対し、まず結論を強く言い切る発話練習です。";
        u "冒頭に「パンチワード」または「エッセンスワード」があることが重要です。" ]
  end.

(** The heading over the prompt. *)
Definition prompt_heading (d : drill) : pystr :=
  match d with
  | ParrotRepeat => u "【提示された質問】"
  | LiveCommentary => u "【実況対象】"
  | SelfQuestioning => u "【提示された行動】"
  | ConclusionFirst => u "【提示された質問】"
  end.

(** The heading over the transcript. *)
Definition transcript_heading (d : drill) : pystr :=
  match d with
  | ParrotRepeat => u "【ユーザーの回答】"
  | LiveCommentary => u "【ユーザーの発話】"
  | SelfQuestioning => u "【ユーザーの回答】"
  | ConclusionFirst => u "【ユーザーの回答】"
  end.

(** The criteria of the evaluation. *)
Definition rubric_criteria (d : drill) : list pystr :=
  match d with
  | ParrotRepeat =>
      [ u "1. 質問の復唱: 質問内容を適切にオウム返しできているか";
        u "2. 回答の有無: 復唱の後に、自分なりの回答を述べているか";
        u "3. 構成: 「復唱→回答」の流れができているか" ]
  | LiveCommentary =>
      [ u "1. 句点の意識: 文章を「丸（句点）」で言い切れているか";
        u "2. 簡潔さ: 一文が短く、わかりやすいか";
        u "3. 接続詞の使用: 接続詞で繋げすぎていないか";
        u "4. 具体性: 抽象的ではなく、具体的に表現できているか" ]
  | SelfQuestioning =>
      [ u "1. 深掘り度: 表面的ではなく、深い理由まで言語化できているか";
        u "2. 具体性: 抽象的ではなく、具体的に説明できているか";
        u "3. 思考の広がり: 複数の視点や理由を述べているか";
        u "4. 言語化力: 自分の考えを言葉にできているか" ]
  | ConclusionFirst =>
      [ u "1. 結論ファースト: 冒頭に結論が来ているか";
        u "2. 言い切り: 断定的に、強く言い切れているか";
        u "3. パンチワード: インパクトのある言葉で始まっているか";
        u "4. 明確性: 何を言いたいのかが明確か" ]
  end.

(** The fields of the answer that only this drill asks for. *)
Definition rubric_fields (d : drill) : list pystr :=
  match d with
  | ParrotRepeat =>
      [ uq "    `has_parrot`: true/false,";
        uq "    `has_answer`: true/false," ]
  | LiveCommentary =>
      [ uq "    `sentence_count`: 文の数,";
        uq "    `avg_sentence_length`: 平均文字数," ]
  | SelfQuestioning =>
      [ uq "    `depth_level`: 1-5（深掘りの深さ）,";
        uq "    `is_specific`: true/false," ]
  | ConclusionFirst =>
      [ uq "    `has_conclusion_first`: true/false,";
        uq "    `has_punch_word`: true/false,";
        uq "    `assertiveness`: 1-5（言い切りの強さ）," ]
  end.

(** The fields of the answer every drill asks for. *)
Definition common_fields : list pystr :=
  [ uq "    `score`: 0-100,";
    uq "    `feedback`: `具体的なフィードバック（日本語、200文字以内）`,";
    uq "    `good_points`: [`良かった点1`, `良かった点2`],";
    uq "    `improvements`: [`改善点1`, `改善点2`]" ].

(** The text before the prompt. *)
Definition template_head (d : drill) : pystr :=
  nl ++ py_lines
    ([ u "あなたは話し方トレーニングのコーチです。";
       rubric_title d;
       [];
       u "【訓練の目的】" ]
     ++ rubric_purpose d
     ++ [ []; prompt_heading d ]).

(** The text between the prompt and the transcript. *)
Definition template_middle (d : drill) : pystr :=
  nl ++ py_lines [ []; transcript_heading d ].

(** The text after the transcript. *)
Definition template_tail (d : drill) : pystr :=
  nl ++ py_lines
    ([ []; u "【評価項目】" ]
     ++ rubric_criteria d
     ++ [ []; u "以下のJSON形式で評価してください："; u "{" ]
     ++ rubric_fields d
     ++ common_fields
     ++ [ u "}" ]).

(** The template of a drill around a prompt and a transcript. *)
Definition analysis_template (d : drill) (prompt transcript : pystr) : pystr :=
  template_head d ++ prompt ++ template_middle d ++ transcript ++ template_tail d.

(** The template [generate_question] holds for a drill type. *)
Definition generate_question_template (d : drill) : pystr :=
  match d with
  | ParrotRepeat => generate_question_prompt_parrot
  | LiveCommentary => generate_question_prompt_commentary
  | SelfQuestioning => generate_question_prompt_self_questioning
  | ConclusionFirst => generate_question_prompt_conclusion_first
  end.

(** The example lines of each template (openai_client.py, lines 307-309,
    319-321, 331-333 and 343-345). *)
Definition example_markers (d : drill) : list pystr :=
  match d with
  | ParrotRepeat =>
      [ u "- 今日の朝ごはんは何を食べましたか？";
        u "- 最近ハマっていることは何ですか？";
        u "- 好きな季節とその理由を教えてください" ]
  | LiveCommentary =>
      [ u "- 自分のスマートフォン";
        u "- 今いる部屋";
        u "- 自分の手" ]
  | SelfQuestioning =>
      [ u "- 毎朝コーヒーを飲む";
        u "- スマホを頻繁にチェックする";
        u "- 週末に散歩をする" ]
  | ConclusionFirst =>
      [ u "- あなたにとって仕事で最も大切なことは何ですか？";
        u "- 今年の目標を一言で表すと？";
        u "- この会議で最も重要な論点は何だと思いますか？" ]
  end.

(** The request of the four analysis methods for an instruction string. *)
Definition analysis_request (prompt : pystr) : ChatRequest :=
  mkChatRequest (u "gpt-4")
    [ mkChatMessage (u "system") (u "あなたは話し方トレーニングの専門コーチです。");
      mkChatMessage (u "user") prompt ]
    0.7%float
    (Some (u "type", u "json_object")).

(** The request of [generate_question] for a template. *)
Definition question_request (prompt : pystr) : ChatRequest :=
  mkChatRequest (u "gpt-4")
    [ mkChatMessage (u "system") (u "あなたは話し方トレーニングの質問生成AIです。");
      mkChatMessage (u "user") prompt ]
    0.9%float
    None.

(** What the [try] block of an analysis method computes from the answer
    of the service. *)
Definition decoded_completion (L : Libs) (r : Exception + ChatCompletion)
  : Exception + pyval :=
  match r with
  | inl e => inl e
  | inr resp =>
      match choices resp with
      | [] => inl (IndexError (u "list index out of range"))
      | ch :: _ =>
          match message_content ch with
          | None =>
              inl (TypeError (u "the JSON object must be str, bytes or bytearray, not NoneType"))
          | Some c => json_loads L c
          end
      end
  end.

(** What the [try] block of [generate_question] computes from the answer
    of the service. *)
Definition stripped_completion (r : Exception + ChatCompletion) : Exception + pystr :=
  match r with
  | inl e => inl e
  | inr resp =>
      match choices resp with
      | [] => inl (IndexError (u "list index out of range"))
      | ch :: _ =>
          match message_content ch with
          | None => inl (AttributeError (u "'NoneType' object has no attribute 'strip'"))
          | Some c => inr (py_strip c)
          end
      end
  end.

(** A result of a [try] block after [except Exception as e: raise
    Exception(label + str(e))]. *)
Definition relabel {A} (label : pystr) (r : Exception + A) : outcome A :=
  match r with
  | inl e => Raise (Exception_ (label ++ exc_str e))
  | inr a => Ret a
  end.

(** The labels the adapter puts before the message of a fault. *)
Definition transcription_label : pystr := u "音声認識エラー: ".
Definition analysis_label : pystr := u "分析エラー: ".
Definition generation_label : pystr := u "質問生成エラー: ".

(** A Feedback whose [score] is a number within [0,100]. *)
Definition score_in_range (v : pyval) : bool :=
  match v with
  | PDict d =>
      match assoc_get (u "score") d with
      | Some (PInt z) => ((0 <=? z) && (z <=? 100))%Z
      | Some (PFloat f) => PrimFloat.leb 0%float f && PrimFloat.leb f 100%float
      | _ => false
      end
  | _ => false
  end.

Definition is_bool (v : pyval) : bool :=
  match v with PBool _ => true | _ => false end.

Definition is_str (v : pyval) : bool :=
  match v with PStr _ => true | _ => false end.

Definition is_str_list (v : pyval) : bool :=
  match v with PList l => forallb is_str l | _ => false end.

Definition is_score (v : pyval) : bool :=
  match v with PInt z => ((0 <=? z) && (z <=? 100))%Z | _ => false end.

Definition field_is (d : list (pystr * pyval)) (k : pystr) (p : pyval -> bool) : bool :=
  match assoc_get k d with
  | Some v => p v
  | None => false
  end.

(** The shape the specification expects of a parrot-repeat Feedback:
    [has_parrot: bool, has_answer: bool, score: int 0-100,
    feedback: string, good_points: list<string>,
    improvements: list<string>]. *)
Definition parrot_shape (v : pyval) : bool :=
  match v with
  | PDict d =>
      field_is d (u "has_parrot") is_bool && field_is d (u "has_answer") is_bool
      && field_is d (u "score") is_score && field_is d (u "feedback") is_str
      && field_is d (u "good_points") is_str_list
      && field_is d (u "improvements") is_str_list
  | _ => false
  end.

(** The keys [display_feedback] reads, each with the default it passes
    to [get]. *)
Definition feedback_defaults : list (pystr * pyval) :=
  [ (u "score", PInt 0);
    (u "feedback", PStr []);
    (u "good_points", PList []);
    (u "improvements", PList []);
    (u "has_parrot", PBool false);
    (u "has_answer", PBool false);
    (u "sentence_count", PInt 0);
    (u "avg_sentence_length", PInt 0) ].

(** The path of the recording the controller saves. *)
Definition recorded_audio_path : pystr := u "audio_files/recorded_audio.wav".

Definition is_chat_call (c : ApiCall) : bool :=
  match c with ChatCompletionsCreate _ => true | _ => false end.

(** * Test doubles *)

(** A completion with one choice. *)
Definition completion (c : pystr) : ChatCompletion :=
  mkChatCompletion [mkChoice (Some c)].

(** A client that answers every chat request with [chat] and every
    transcription request with [tr]. *)
Definition stub_client (chat : Exception + ChatCompletion) (tr : Exception + Transcription)
  : OpenAI :=
  mkOpenAI (fun _ _ => chat) (fun _ _ => tr).

Definition JSONDecodeError (msg : pystr) : Exception :=
  mkException [u "JSONDecodeError"; u "ValueError"; u "Exception"] msg.

Definition StreamlitAPIException (msg : pystr) : Exception :=
  mkException [u "StreamlitAPIException"; u "Exception"] msg.

Definition APIConnectionError (msg : pystr) : Exception :=
  mkException [u "APIConnectionError"; u "APIError"; u "OpenAIError"; u "Exception"] msg.

(** The answer of the service in the end-to-end scenario, and the record
    [json.loads] makes of it. *)
Definition scenario_json : pystr :=
  uq "{`has_parrot`: true, `has_answer`: true, `score`: 85, `feedback`: `復唱できています。`, `good_points`: [`質問を復唱できた`], `improvements`: [`間を意識する`]}".

Definition scenario_feedback : pyval :=
  PDict [ (u "has_parrot", PBool true);
          (u "has_answer", PBool true);
          (u "score", PInt 85);
          (u "feedback", PStr (u "復唱できています。"));
          (u "good_points", PList [PStr (u "質問を復唱できた")]);
          (u "improvements", PList [PStr (u "間を意識する")]) ].

(** A decoder that knows the texts of the examples below, on which it
    answers as [json.loads] does, and rejects every other text. *)
Definition json_loads_double (s : pystr) : Exception + pyval :=
  if pystr_eqb s (u "{}") then inr (PDict [])
  else if pystr_eqb s (uq "{`score`: 150}") then inr (PDict [(u "score", PInt 150)])
  else if pystr_eqb s (uq "{`score`: 85}") then inr (PDict [(u "score", PInt 85)])
  else if pystr_eqb s (uq "{`score`: `high`}") then inr (PDict [(u "score", PStr (u "high"))])
  else if pystr_eqb s scenario_json then inr scenario_feedback
  else inl (JSONDecodeError (u "Expecting value: line 1 column 1 (char 0)")).

(** Libraries around a given client; [st.progress] accepts the floats of
    [0.0, 1.0]. *)
Definition stub_libs (c : OpenAI) : Libs :=
  mkLibs (fun _ => c) json_loads_double
    (fun f =>
       if PrimFloat.leb 0%float f && PrimFloat.leb f 1%float then None
       else Some (StreamlitAPIException (u "Progress Value has invalid value [0.0, 1.0]")))
    (fun name => AttributeError (u "st.session_state has no attribute " ++ name)).

Definition empty_session : SessionState := mkSessionState None None None None.

(** The session after a question was generated. *)
Definition session_with (ai : SpeechTrainingAI) (question : pystr) : SessionState :=
  mkSessionState (Some ai) (Some (Some question)) (Some None) (Some PNone).

Definition world_of (env : gmap pystr pystr) (s : SessionState) : World :=
  mkWorld env ∅ ∅ s [] [].

Definition demo_ai (c : OpenAI) : SpeechTrainingAI := mkSpeechTrainingAI (u "sk-test") c.

Definition demo_question : pystr := u "今日の朝ごはんは何を食べましたか？".

Definition demo_transcript : pystr := u "朝ごはんは何を食べたか、ですね。パンを食べました。".

Definition demo_audio : pybytes := [82; 73; 70; 70].

(** A service that answers every chat request with the text [c] and
    every transcription request with the demo transcript. *)
Definition client_answering (c : pystr) : OpenAI :=
  stub_client (inr (completion c)) (inr (mkTranscription demo_transcript)).

(** A service that cannot be reached. *)
Definition client_offline : OpenAI :=
  stub_client (inl (APIConnectionError (u "Connection error.")))
              (inl (APIConnectionError (u "Connection error."))).

(** A service whose transcription fails while its chat endpoint answers. *)
Definition client_deaf (c : pystr) : OpenAI :=
  stub_client (inr (completion c)) (inl (APIConnectionError (u "Connection error."))).

Definition world0 : World := world_of ∅ empty_session.

(** * Names used in the statements *)

(** The environment variable that holds the credential. *)
Definition credential_name : pystr := u "OPENAI_API_KEY".

(** The exception of the constructor (openai_client.py, line 23). *)
Definition missing_credential : Exception :=
  ValueError (u "OpenAI APIキーが設定されていません").

(** The message of the script for it (app.py, line 30). *)
Definition missing_credential_message : UiEvent :=
  st_error (lit (u "⚠️ OpenAI APIキーが設定されていません。.envファイルを確認してください。")).

(** The page configuration (app.py, lines 19-23). *)
Definition page_config : UiEvent :=
  st_set_page_config (u "話力鍛錬所") (u "🗣️") (u "wide").

(** The message [submit_recording] shows for a caught exception. *)
Definition submit_error (e : Exception) : UiEvent :=
  st_error (lit (u "エラーが発生しました: " ++ exc_str e)).

(** The world in which the handler calls the analysis method, after a
    transcription that gave [text] in [w2]. *)
Definition before_analysis (text : pystr) (w2 : World) : World :=
  add_ui (st_write (lit text))
    (add_ui (st_markdown (lit (u "### 📝 認識されたテキスト")))
       (add_ui (st_success (lit (u "✅ 音声認識完了")))
          (with_session_state
             (mkSessionState (ai_client (session_state w2))
                (current_question (session_state w2))
                (Some (Some text)) (feedback (session_state w2))) w2))).

(** The world after drawing the events [evs] in turn. *)
Definition add_uis (evs : list UiEvent) (w : World) : World :=
  fold_left (fun w e => add_ui e w) evs w.

(** What [display_feedback] draws for a Feedback without any of the
    fields it reads. *)
Definition default_rendering (training_type : pystr) : list UiEvent :=
  [ st_subheader (lit (u "📊 評価結果"));
    st_metric (u "スコア") [Fmt (PInt 0) []; Lit (u "/100")];
    st_warning [Lit (u "もう少し頑張りましょう！ スコア: "); Fmt (PInt 0) []; Lit (u "/100")];
    st_progress 0%float;
    st_markdown (lit (u "### 💬 総合フィードバック"));
    st_write_value (PStr []);
    st_markdown (lit (u "### ✅ 良かった点"));
    st_write (lit (u "（該当なし）"));
    st_markdown (lit (u "### 📈 改善点"));
    st_write (lit (u "（該当なし）")) ]
  ++ (if pystr_eqb training_type (u "parrot") then
        [ st_markdown (lit (u "### 📝 オウム返し分析"));
          st_write (lit (u "質問の復唱: " ++ u "❌ できていない"));
          st_write (lit (u "回答の提示: " ++ u "❌ できていない")) ]
      else if pystr_eqb training_type (u "commentary") then
        [ st_markdown (lit (u "### 📝 実況分析"));
          st_write [Lit (u "文の数: "); Fmt (PInt 0) []];
          st_write [Lit (u "平均文字数: "); Fmt (PInt 0) (u ".1f")] ]
      else []).

(** What [parrot_training] draws before it runs the handler. *)
Definition parrot_page (question audio : pystr) : list UiEvent :=
  [ st_header (lit (u "🦜 オウム返し訓練"));
    st_markdown (lit parrot_training_instructions);
    st_button (u "🎲 新しい質問を生成");
    st_info (lit (u "**質問:** " ++ question));
    st_markdown (lit (u "### 🎤 音声を録音"));
    st_write (lit (u "マイクボタンをクリックして録音を開始してください。もう一度クリックすると録音が停止します。"));
    audio_recorder_widget (u "#3498db");
    st_audio audio (u "audio/wav");
    st_button (u "📊 音声を分析") ].

(** What [commentary_training] draws before it runs the handler. *)
Definition commentary_page (question audio : pystr) : list UiEvent :=
  [ st_header (lit (u "📢 実況トレーニング"));
    st_markdown (lit commentary_training_instructions);
    st_button (u "🎲 新しいトピックを生成");
    st_info (lit (u "**実況対象:** " ++ question));
    st_markdown (lit (u "### 🎤 音声を録音"));
    st_write (lit (u "マイクボタンをクリックして録音を開始してください。もう一度クリックすると録音が停止します。"));
    audio_recorder_widget (u "#27ae60");
    st_audio audio (u "audio/wav");
    st_button (u "📊 音声を分析") ].

(** A computation whose only effect is to append events to the page. *)
Definition ui_only {A} (m : M A) : Prop :=
  forall w, exists evs, (m w).2 = add_uis evs w.

(** The events drawn by [st.error]. *)
Definition is_st_error (e : UiEvent) : bool :=
  match e with st_error _ => true | _ => false end.

(** [feedback.get(k, default)] on the items of a dict. *)
Definition field (d : list (pystr * pyval)) (k : pystr) (default : pyval) : pyval :=
  match assoc_get k d with
  | Some x => x
  | None => default
  end.

(** The record [d] without its key [k]. *)
Definition without (k : pystr) (d : list (pystr * pyval)) : list (pystr * pyval) :=
  List.filter (fun kv => negb (pystr_eqb k (fst kv))) d.

(** The first of two possible exceptions. *)
Definition first_error (a b : option Exception) : option Exception :=
  match a with
  | Some e => Some e
  | None => b
  end.

Definition error_of {A} (r : Exception + A) : option Exception :=
  match r with
  | inl e => Some e
  | inr _ => None
  end.

(** The outcome of a computation that returns nothing. *)
Definition result_of (e : option Exception) : outcome unit :=
  match e with
  | Some e => Raise e
  | None => Ret tt
  end.

(** The exception [display_feedback] meets in a list of points. *)
Definition points_error (points : pyval) : option Exception :=
  if py_truthy points then
    match py_iter points with
    | inl e => Some e
    | inr items => py_str_check (PList items)
    end
  else None.

(** The exception [display_feedback] meets in the score. *)
Definition score_error (L : Libs) (score : pyval) : option Exception :=
  first_error (py_str_check score)
    (first_error (error_of (py_ge_int score 80))
       match py_truediv_int score 100 with
       | inl e => Some e
       | inr ratio => st_progress_check L ratio
       end).

(** The exception [display_feedback] meets in the fields of one drill. *)
Definition details_error (training_type : pystr) (d : list (pystr * pyval))
  : option Exception :=
  if pystr_eqb training_type (u "parrot") then None
  else if pystr_eqb training_type (u "commentary") then
    first_error (py_str_check (field d (u "sentence_count") (PInt 0)))
      (py_format_1f_check (field d (u "avg_sentence_length") (PInt 0)))
  else None.

(** The first exception [display_feedback] meets in a record. *)
Definition display_error (L : Libs) (training_type : pystr) (d : list (pystr * pyval))
  : option Exception :=
  first_error (score_error L (field d (u "score") (PInt 0)))
    (first_error (points_error (field d (u "good_points") (PList [])))
       (first_error (points_error (field d (u "improvements") (PList [])))
          (details_error training_type d))).

(** A computation with the same outcome in every world. *)
Definition outcome_is {A} (m : M A) (o : outcome A) : Prop := forall w, (m w).1 = o.

(** A computation that returns [a] after drawing the events [evs], in
    every world. *)
Definition runs_to {A} (m : M A) (a : A) (evs : list UiEvent) : Prop :=
  forall w, m w = (Ret a, add_uis evs w).

(** A computation that draws the events [evs] before anything else it
    draws, whatever its outcome. *)
Definition draws_first {A} (m : M A) (evs : list UiEvent) : Prop :=
  forall w, exists more, ui (m w).2 = ui w ++ evs ++ more.

(** The banner [display_feedback] shows for a score below 60. *)
Definition low_score_banner (score : pyval) : UiEvent :=
  st_warning [Lit (u "もう少し頑張りましょう！ スコア: "); Fmt score []; Lit (u "/100")].

(** What [display_feedback] draws first for a score. *)
Definition score_metric (score : pyval) : list UiEvent :=
  [ st_subheader (lit (u "📊 評価結果"));
    st_metric (u "スコア") [Fmt score []; Lit (u "/100")] ].

(** A record with a score that is not a number, and none of the other
    fields. *)
Definition worded_score : list (pystr * pyval) := [(u "score", PStr (u "high"))].

(** *** Worlds of the examples *)

(** What [transcribe_audio] raises when the service cannot be reached. *)
Definition connection_error : Exception :=
  Exception_ (transcription_label ++ u "Connection error.").

Definition deaf_ai : SpeechTrainingAI := demo_ai (client_deaf (u "{}")).

Definition deaf_libs : Libs := stub_libs (client_deaf (u "{}")).

(** A session with a question, served by [client_deaf]. *)
Definition deaf_world : World := world_of ∅ (session_with deaf_ai demo_question).

Definition garbled_ai : SpeechTrainingAI := demo_ai (client_answering (u "not json")).

Definition garbled_libs : Libs := stub_libs (client_answering (u "not json")).

(** A session with a question, served by a service whose completions
    are not JSON. *)
Definition garbled_world : World := world_of ∅ (session_with garbled_ai demo_question).

Definition empty_ai : SpeechTrainingAI := demo_ai (client_answering (u "{}")).

Definition empty_libs : Libs := stub_libs (client_answering (u "{}")).

(** A session with a question, served by a service whose completions
    are the empty JSON object. *)
Definition empty_world : World := world_of ∅ (session_with empty_ai demo_question).

Definition worded_ai : SpeechTrainingAI := demo_ai (client_answering (uq "{`score`: `high`}")).

Definition worded_libs : Libs := stub_libs (client_answering (uq "{`score`: `high`}")).

(** A session with a question, served by a service whose completions
    are a JSON object with a score in words and no other field. *)
Definition worded_world : World := world_of ∅ (session_with worded_ai demo_question).

Definition scenario_ai : SpeechTrainingAI := demo_ai (client_answering scenario_json).

Definition scenario_libs : Libs := stub_libs (client_answering scenario_json).

(** The session of the end-to-end scenario. *)
Definition scenario_world : World := world_of ∅ (session_with scenario_ai demo_question).

(** * Names used in the further properties *)

(** The directory of the recordings. *)
Definition audio_dir : pystr := u "audio_files".

(** The path [save_audio_file] gives a file name. *)
Definition audio_path (filename : pystr) : pystr := audio_dir ++ u "/" ++ filename.

(** A world in which [audio_files] is a regular file. *)
Definition blocked_world : World :=
  mkWorld ∅ ∅ {[ u "audio_files" := [0] ]} empty_session [] [].

(** The request [transcribe_audio] sends for the content of a file. *)
Definition transcription_request (data : pybytes) : TranscriptionRequest :=
  mkTranscriptionRequest (u "whisper-1") data (u "ja").

(** A service whose completions have no choice. *)
Definition client_mute : OpenAI :=
  stub_client (inr (mkChatCompletion [])) (inr (mkTranscription demo_transcript)).

(** A world whose environment holds a credential. *)
Definition world_with_key : World :=
  world_of {[ u "OPENAI_API_KEY" := u "sk-env" ]} empty_session.

(** A session in which the four keys of the script are present. *)
Definition session_ready (s : SessionState) : Prop :=
  is_Some (ai_client s) /\ is_Some (current_question s)
  /\ is_Some (transcribed_text s) /\ is_Some (feedback s).

(** A computation that, run in [w], does not end with an exception. *)
Definition never_raises {A} (m : M A) (w : World) : Prop :=
  forall e, (m w).1 <> Raise e.

(** The [try] statement of the button that generates a prompt
    (app.py, lines 162-168 and 253-259), for the tag passed to
    [generate_question] and the label of the error message. *)
Definition generate_step (L : Libs) (tag error_label : pystr) : M unit :=
  try_except
    (ai ← session_attr L (u "ai_client") ai_client;
     question ← generate_question ai tag;
     set_current_question (Some question);;
     set_transcribed_text None;;
     set_feedback PNone;;
     control RerunException)
    (fun e => show (st_error (lit (error_label ++ exc_str e)))).

(** The part of a page below the button that generates a prompt
    (lines 170-223 and 261-314), for the texts, the colour and the
    analysis method in which the two pages differ. *)
Definition question_section (L : Libs) (info_prefix neutral_color warning : pystr)
    (analyze : SpeechTrainingAI -> pystr -> pystr -> M pyval) (tag : pystr)
    (inp : Inputs) : M unit :=
  question ← session_attr L (u "current_question") current_question;
  if truthy_opt question then
    question ← session_attr L (u "current_question") current_question;
    show (st_info (lit (info_prefix ++ py_str_opt question)));;
    show (st_markdown (lit (u "### 🎤 音声を録音")));;
    show (st_write (lit (u "マイクボタンをクリックして録音を開始してください。もう一度クリックすると録音が停止します。")));;
    show (audio_recorder_widget neutral_color);;
    match in_audio_bytes inp with
    | Some ((_ :: _) as audio_bytes) =>
        show (st_audio audio_bytes (u "audio/wav"));;
        show (st_button (u "📊 音声を分析"));;
        when (in_analyze_clicked inp) (submit_recording L analyze tag audio_bytes)
    | _ => ret tt
    end
  else
    show (st_warning (lit warning)).

(** The two pages, with what distinguishes them. *)
Inductive page : Type :=
| ParrotPage
| CommentaryPage.

Definition page_training (L : Libs) (p : page) : Inputs -> M unit :=
  match p with
  | ParrotPage => parrot_training L
  | CommentaryPage => commentary_training L
  end.

Definition page_drill (p : page) : drill :=
  match p with
  | ParrotPage => ParrotRepeat
  | CommentaryPage => LiveCommentary
  end.

(** What a page draws above the question. *)
Definition page_top (p : page) : list UiEvent :=
  match p with
  | ParrotPage =>
      [ st_header (lit (u "🦜 オウム返し訓練"));
        st_markdown (lit parrot_training_instructions);
        st_button (u "🎲 新しい質問を生成") ]
  | CommentaryPage =>
      [ st_header (lit (u "📢 実況トレーニング"));
        st_markdown (lit commentary_training_instructions);
        st_button (u "🎲 新しいトピックを生成") ]
  end.

(** The label a page puts before the message of a failed generation. *)
Definition page_error_label (p : page) : pystr :=
  match p with
  | ParrotPage => u "質問生成エラー: "
  | CommentaryPage => u "トピック生成エラー: "
  end.

Definition page_info_prefix (p : page) : pystr :=
  match p with
  | ParrotPage => u "**質問:** "
  | CommentaryPage => u "**実況対象:** "
  end.

Definition page_color (p : page) : pystr :=
  match p with
  | ParrotPage => u "#3498db"
  | CommentaryPage => u "#27ae60"
  end.

(** The warning a page shows while it has no question. *)
Definition page_warning (p : page) : pystr :=
  match p with
  | ParrotPage => u "「新しい質問を生成」ボタンを押して、トレーニングを開始してください。"
  | CommentaryPage => u "「新しいトピックを生成」ボタンを押して、トレーニングを開始してください。"
  end.

(** What a page draws for the question and the recorder. *)
Definition page_question (p : page) (question : pystr) : list UiEvent :=
  [ st_info (lit (page_info_prefix p ++ question));
    st_markdown (lit (u "### 🎤 音声を録音"));
    st_write (lit (u "マイクボタンをクリックして録音を開始してください。もう一度クリックすると録音が停止します。"));
    audio_recorder_widget (page_color p) ].

(** What a page draws for a recording. *)
Definition page_audio (audio : pybytes) : list UiEvent :=
  [ st_audio audio (u "audio/wav"); st_button (u "📊 音声を分析") ].

(** The session after a prompt was generated. *)
Definition fresh_session (ai : SpeechTrainingAI) (question : pystr) : SessionState :=
  mkSessionState (Some ai) (Some (Some question)) (Some None) (Some PNone).

(** What [main] draws before the page: the title and the sidebar. *)
Definition main_top : list UiEvent :=
  [ st_title (lit (u "🗣️ 話力鍛錬所"));
    st_markdown (lit (u "### タイプA（言葉が出てこないパターン）向けトレーニング"));
    st_header (lit (u "📋 メニュー"));
    st_radio (u "トレーニングを選択") [u "オウム返し訓練"; u "実況トレーニング"];
    st_markdown (lit (u "---"));
    st_markdown (lit sidebar_about);
    st_markdown (lit (u "---"));
    st_caption (lit (u "Powered by OpenAI API")) ].

(** The page [main] shows for a value of the radio button. *)
Definition selected_page (mode : pystr) : page :=
  if pystr_eqb mode (u "オウム返し訓練") then ParrotPage else CommentaryPage.

(** A session whose question is the empty string. *)
Definition blank_world : World := world_of ∅ (session_with deaf_ai []).

(** A session without question yet, served by a service that cannot be
    reached. *)
Definition offline_world : World :=
  world_of ∅ (mkSessionState (Some (demo_ai client_offline)) (Some None) (Some None)
                (Some PNone)).

(** The banner [display_feedback] shows for an integer score. *)
Definition score_banner (z : Z) : UiEvent :=
  if (80 <=? z)%Z then
    st_success [Lit (u "素晴らしい！ スコア: "); Fmt (PInt z) []; Lit (u "/100")]
  else if (60 <=? z)%Z then
    st_info [Lit (u "良い調子です！ スコア: "); Fmt (PInt z) []; Lit (u "/100")]
  else
    st_warning [Lit (u "もう少し頑張りましょう！ スコア: "); Fmt (PInt z) []; Lit (u "/100")].

(** What [display_feedback] draws first for an integer score. *)
Definition score_head (z : Z) : list UiEvent :=
  score_metric (PInt z) ++ [score_banner z].

(** The bullet of one point. *)
Definition point_bullet (point : pyval) : UiEvent :=
  st_write [Lit (u "- "); Fmt point []].

(** A computation that raises [e] after drawing the events [evs], in
    every world. *)
Definition raises_after {A} (m : M A) (e : Exception) (evs : list UiEvent) : Prop :=
  forall w, m w = (Raise e, add_uis evs w).

(** The message of the limit on the digits of an [int]. *)
Definition digits_limit_error : Exception :=
  ValueError (u "Exceeds the limit (4300 digits) for integer string conversion; use sys.set_int_max_str_digits() to increase the limit").

(** The [int] written as 1 followed by 4300 zeros. *)
Definition ten_pow_4300 : Z :=
  Z.of_N (N.of_uint (Decimal.D1 (Nat.iter 4300 Decimal.D0 Decimal.Nil))).

(** The world in which the handler calls [display_feedback]: the
    analysis request is logged and the Feedback stored. *)
Definition before_display (d : drill) (q : option pystr) (text : pystr) (fb : pyval)
    (w2 : World) : World :=
  let w4 := add_call (ChatCompletionsCreate
                        (analysis_request (analysis_prompt d (py_str_opt q) text)))
              (before_analysis text w2) in
  with_session_state
    (mkSessionState (ai_client (session_state w4)) (current_question (session_state w4))
       (transcribed_text (session_state w4)) (Some fb)) w4.

(** Libraries whose decoder reads every text as the empty list. *)
Definition listy_libs (c : OpenAI) : Libs :=
  mkLibs (fun _ => c) (fun _ => inr (PList []))
    (st_progress_check (stub_libs c)) (st_session_state_missing (stub_libs c)).

(** * Properties of the adapter *)

#[local] Opaque u uq.

(** ** Running the adapter *)

Ltac unfold_monad :=
  unfold mbind, M_bind, bind, try_except, get_world, log_call, show, lift, ret, raise.

Lemma call_chat_run (c : OpenAI) (req : ChatRequest) (w : World) :
  call_chat_completions_create c req w =
  (match chat_completions_create c (api_log w) req with
   | inl e => Raise e
   | inr r => Ret r
   end, add_call (ChatCompletionsCreate req) w).
Proof.
  unfold call_chat_completions_create; unfold_monad.
  destruct (chat_completions_create c (api_log w) req); reflexivity.
Qed.

Lemma call_transcription_run (c : OpenAI) (req : TranscriptionRequest) (w : World) :
  call_audio_transcriptions_create c req w =
  (match audio_transcriptions_create c (api_log w) req with
   | inl e => Raise e
   | inr r => Ret r
   end, add_call (AudioTranscriptionsCreate req) w).
Proof.
  unfold call_audio_transcriptions_create; unfold_monad.
  destruct (audio_transcriptions_create c (api_log w) req); reflexivity.
Qed.

Ltac analysis_run :=
  intros; unfold try_except, mbind, M_bind, bind;
  rewrite call_chat_run; unfold decoded_completion, relabel, analysis_request;
  destruct (chat_completions_create _ _ _) as [e|resp]; [reflexivity|];
  unfold choices_0; destruct (choices resp) as [|ch rest]; [reflexivity|];
  unfold ret at 1; unfold py_json_loads;
  destruct (message_content ch) as [c|]; [|reflexivity];
  unfold lift; destruct (json_loads _ c); reflexivity.

(** Every analysis method sends one request and relabels what the
    [try] block computes. *)
Lemma analyze_run (L : Libs) (d : drill) (self : SpeechTrainingAI)
    (prompt transcript : pystr) (w : World) :
  let req := analysis_request (analysis_prompt d prompt transcript) in
  analyze L d self prompt transcript w =
  (relabel analysis_label
     (decoded_completion L (chat_completions_create (client self) (api_log w) req)),
   add_call (ChatCompletionsCreate req) w).
Proof.
  destruct d; cbv zeta; unfold analyze, analysis_prompt.
  - unfold analyze_parrot_response; analysis_run.
  - unfold analyze_live_commentary; analysis_run.
  - unfold analyze_self_questioning; analysis_run.
  - unfold analyze_conclusion_first; analysis_run.
Qed.

Lemma generate_question_run (self : SpeechTrainingAI) (ty : pystr) (w : World) :
  let req := question_request (generate_question_prompt ty) in
  generate_question self ty w =
  (relabel generation_label
     (stripped_completion (chat_completions_create (client self) (api_log w) req)),
   add_call (ChatCompletionsCreate req) w).
Proof.
  cbv zeta. unfold generate_question, try_except, mbind, M_bind, bind.
  rewrite call_chat_run. unfold stripped_completion, relabel, question_request.
  destruct (chat_completions_create _ _ _) as [e|resp]; [reflexivity|].
  unfold choices_0. destruct (choices resp) as [|ch rest]; [reflexivity|].
  unfold ret at 1. unfold content_strip.
  destruct (message_content ch) as [c|]; reflexivity.
Qed.

Lemma transcribe_audio_run (self : SpeechTrainingAI) (path : pystr) (w : World) :
  transcribe_audio self path w =
  match read_file w path with
  | inl e => (Raise (Exception_ (transcription_label ++ exc_str e)), w)
  | inr data =>
      let req := mkTranscriptionRequest (u "whisper-1") data (u "ja") in
      (relabel transcription_label
         (match audio_transcriptions_create (client self) (api_log w) req with
          | inl e => inl e
          | inr t => inr (transcription_text t)
          end),
       add_call (AudioTranscriptionsCreate req) w)
  end.
Proof.
  unfold transcribe_audio, open_rb, try_except, mbind, M_bind, bind, get_world, lift.
  destruct (read_file w path) as [e|data]; [reflexivity|].
  unfold ret at 1. rewrite call_transcription_run.
  destruct (audio_transcriptions_create _ _ _); reflexivity.
Qed.

(** ** [str.strip] *)

Lemma py_lstrip_spec (s : pystr) :
  exists l, s = l ++ py_lstrip s /\ forallb py_isspace l = true
            /\ (forall c r, py_lstrip s = c :: r -> py_isspace c = false).
Proof.
  induction s as [|c s IH].
  - exists []. repeat split. intros c r H. discriminate H.
  - cbn [py_lstrip]. destruct (py_isspace c) eqn:Hc.
    + destruct IH as (l & Hs & Hl & Hhd).
      exists (c :: l). repeat split.
      * change ((c :: l) ++ py_lstrip s) with (c :: (l ++ py_lstrip s)). f_equal. exact Hs.
      * cbn [forallb]. rewrite Hc, Hl. reflexivity.
      * exact Hhd.
    + exists []. repeat split. intros c' r H. injection H as -> _. exact Hc.
Qed.

Lemma py_strip_spec (s : pystr) :
  exists l r, s = l ++ py_strip s ++ r
              /\ forallb py_isspace l = true /\ forallb py_isspace r = true
              /\ (forall c t, py_strip s = c :: t -> py_isspace c = false)
              /\ (forall t c, py_strip s = t ++ [c] -> py_isspace c = false).
Proof.
  destruct (py_lstrip_spec s) as (l & Hs & Hl & Hhd).
  destruct (py_lstrip_spec (rev (py_lstrip s))) as (r & Hr & Hrs & Hlast).
  assert (Hmid : py_lstrip s = py_strip s ++ rev r).
  { unfold py_strip, py_rstrip. rewrite <- rev_app_distr, <- Hr, rev_involutive. reflexivity. }
  exists l, (rev r). repeat split.
  - rewrite <- Hmid. exact Hs.
  - exact Hl.
  - rewrite forallb_forall in *. intros x Hx. apply Hrs. apply in_rev. exact Hx.
  - intros c t Hc. apply (Hhd c (t ++ rev r)). rewrite Hmid, Hc. reflexivity.
  - intros t c Hc. apply (Hlast c (rev t)).
    unfold py_strip, py_rstrip in Hc.
    rewrite <- (rev_involutive (py_lstrip (rev (py_lstrip s)))), Hc, rev_app_distr.
    reflexivity.
Qed.

(** ** The contract of the adapter *)

(** ** The instruction string *)

(** The f-string of each analysis method is the template of its drill. *)
Lemma analysis_prompt_template (d : drill) (prompt transcript : pystr) :
  analysis_prompt d prompt transcript = analysis_template d prompt transcript.
Proof.
  unfold analysis_template, template_head, template_middle, template_tail.
  destruct d; unfold analysis_prompt;
    [ unfold analyze_parrot_response_prompt | unfold analyze_live_commentary_prompt
    | unfold analyze_self_questioning_prompt | unfold analyze_conclusion_first_prompt ];
    rewrite <- !app_assoc; reflexivity.
Qed.

Lemma is_prefix_app (p s : pystr) : is_prefix p (p ++ s) = true.
Proof.
  induction p as [|c p IH]; [reflexivity|].
  rewrite <- app_comm_cons. cbn [is_prefix]. rewrite N.eqb_refl. exact IH.
Qed.

(** A text is found in every text built around it. *)
Lemma is_infix_app (a p b : pystr) : is_infix p (a ++ p ++ b) = true.
Proof.
  induction a as [|c a IH].
  - rewrite app_nil_l. generalize (is_prefix_app p b).
    destruct (p ++ b); cbn [is_infix]; intros ->; reflexivity.
  - rewrite <- app_comm_cons. cbn [is_infix]. rewrite IH. apply orb_true_r.
Qed.

Lemma template_head_inj (d d' : drill) : template_head d' = template_head d -> d' = d.
Proof.
  destruct d, d'; intros H; try reflexivity; exfalso; vm_compute in H; discriminate H.
Qed.

Lemma template_tail_inj (d d' : drill) : template_tail d' = template_tail d -> d' = d.
Proof.
  destruct d, d'; intros H; try reflexivity; exfalso; vm_compute in H; discriminate H.
Qed.

(** C5. Every analysis method sends one request whose instruction
    string is the template of its drill (the line that names the drill,
    its purpose, its criteria and the fields of its answer) with the
    prompt under the heading of the prompt and the transcript under the
    heading of the transcript, both unchanged; the templates of two
    drills differ before the prompt and after the transcript; and the
    method returns the value decoded from the completion as it is. *)
Theorem analysis_forwards_verbatim (L : Libs) (d : drill) (self : SpeechTrainingAI)
    (prompt transcript : pystr) (w : World) :
  let instruction :=
    template_head d ++ prompt ++ template_middle d ++ transcript ++ template_tail d in
  let req := analysis_request instruction in
  api_log (analyze L d self prompt transcript w).2
    = api_log w ++ [ChatCompletionsCreate req]
  /\ is_infix prompt instruction = true
  /\ is_infix transcript instruction = true
  /\ (forall d', template_head d' = template_head d -> d' = d)
  /\ (forall d', template_tail d' = template_tail d -> d' = d)
  /\ forall resp ch rest c v,
       chat_completions_create (client self) (api_log w) req = inr resp ->
       choices resp = ch :: rest ->
       message_content ch = Some c ->
       json_loads L c = inr v ->
       (analyze L d self prompt transcript w).1 = Ret v.
Proof.
  intros instruction req.
  assert (Hp : analysis_prompt d prompt transcript = instruction)
    by apply analysis_prompt_template.
  rewrite analyze_run. cbv zeta. rewrite Hp. fold req.
  repeat apply conj.
  - reflexivity.
  - apply is_infix_app.
  - subst instruction.
    rewrite (app_assoc (template_head d)), (app_assoc _ (template_middle d)).
    apply is_infix_app.
  - intros d'. apply template_head_inj.
  - intros d'. apply template_tail_inj.
  - intros resp ch rest c v Hresp Hch Hc Hv. cbn [fst].
    rewrite Hresp. unfold decoded_completion. rewrite Hch, Hc, Hv. reflexivity.
Qed.

(** A service that answers [{"score": 85}] to the parrot-repeat analysis. *)
Lemma analysis_forwards_verbatim_witness :
  (analyze (stub_libs (client_answering (uq "{`score`: 85}"))) ParrotRepeat
     (demo_ai (client_answering (uq "{`score`: 85}"))) demo_question demo_transcript world0).1
  = Ret (PDict [(u "score", PInt 85)]).
Proof.
  apply (proj2 (proj2 (proj2 (proj2 (proj2
           (analysis_forwards_verbatim
              (stub_libs (client_answering (uq "{`score`: 85}"))) ParrotRepeat
              (demo_ai (client_answering (uq "{`score`: 85}")))
              demo_question demo_transcript world0)))))
           (completion (uq "{`score`: 85}")) (mkChoice (Some (uq "{`score`: 85}"))) []
           (uq "{`score`: 85}")); vm_compute; reflexivity.
Defined.

(** C1 (as the code has it). The Feedback an analysis method returns is
    exactly the value [json.loads] decodes from the content of the first
    choice of the completion: the adapter neither checks nor clamps the
    score, which is within [0,100] exactly when the decoded value has
    such a score. *)
Theorem analysis_returns_decoded_json (L : Libs) (d : drill) (self : SpeechTrainingAI)
    (prompt transcript : pystr) (w : World) (v : pyval) :
  (analyze L d self prompt transcript w).1 = Ret v ->
  exists resp ch rest c,
    chat_completions_create (client self) (api_log w)
      (analysis_request (analysis_prompt d prompt transcript)) = inr resp
    /\ choices resp = ch :: rest
    /\ message_content ch = Some c
    /\ json_loads L c = inr v.
Proof.
  rewrite analyze_run. cbv zeta. cbn [fst]. unfold decoded_completion, relabel.
  destruct (chat_completions_create _ _ _) as [e|resp]; [discriminate|].
  destruct (choices resp) as [|ch rest] eqn:Hch; [discriminate|].
  destruct (message_content ch) as [c|] eqn:Hc; [|discriminate].
  destruct (json_loads L c) as [e|v'] eqn:Hv; [discriminate|].
  intros [= ->]. exists resp, ch, rest, c. rewrite Hch. auto.
Qed.

(** The record returned for the live-commentary analysis is the decoded
    answer of the service. *)
Lemma analysis_returns_decoded_json_witness :
  exists resp ch rest c,
    chat_completions_create (client_answering (uq "{`score`: 85}")) []
      (analysis_request (analysis_prompt LiveCommentary demo_question demo_transcript))
    = inr resp
    /\ choices resp = ch :: rest
    /\ message_content ch = Some c
    /\ json_loads_double c = inr (PDict [(u "score", PInt 85)]).
Proof.
  apply (analysis_returns_decoded_json
           (stub_libs (client_answering (uq "{`score`: 85}"))) LiveCommentary
           (demo_ai (client_answering (uq "{`score`: 85}")))
           demo_question demo_transcript world0).
  vm_compute. reflexivity.
Defined.

(** C1 (as stated) fails: when the service answers [{"score": 150}],
    [analyze_parrot_response] returns that record, whose score is not
    within [0,100]. *)
Lemma analysis_score_not_checked :
  (analyze_parrot_response (stub_libs (client_answering (uq "{`score`: 150}")))
     (demo_ai (client_answering (uq "{`score`: 150}"))) demo_question demo_transcript
     world0).1
  = Ret (PDict [(u "score", PInt 150)])
  /\ score_in_range (PDict [(u "score", PInt 150)]) = false.
Proof. split; vm_compute; reflexivity. Qed.

Lemma relabel_raise {A} (label : pystr) (r : Exception + A) (e : Exception) :
  relabel label r = Raise e -> exists msg, e = Exception_ (label ++ msg).
Proof.
  destruct r as [e0|a]; cbn [relabel]; [|discriminate].
  intros [= <-]. exists (exc_str e0). reflexivity.
Qed.

(** C7. In [generate_question], [transcribe_audio] and every analysis
    method, an exception raised by the call of the service, by opening
    the audio file or by [json.loads] is caught and raised again as a
    plain [Exception] whose message is the label of the operation
    followed by the message of the original exception; every exception
    that leaves one of these operations has that form. *)
Theorem adapter_faults_relabelled (L : Libs) (self : SpeechTrainingAI) (w : World) :
  (forall ty e,
      chat_completions_create (client self) (api_log w)
        (question_request (generate_question_prompt ty)) = inl e ->
      (generate_question self ty w).1 = Raise (Exception_ (generation_label ++ exc_str e)))
  /\ (forall ty e w',
      generate_question self ty w = (Raise e, w') ->
      exists msg, e = Exception_ (generation_label ++ msg))
  /\ (forall path data e,
      read_file w path = inr data ->
      audio_transcriptions_create (client self) (api_log w)
        (mkTranscriptionRequest (u "whisper-1") data (u "ja")) = inl e ->
      (transcribe_audio self path w).1
        = Raise (Exception_ (transcription_label ++ exc_str e)))
  /\ (forall path e,
      read_file w path = inl e ->
      (transcribe_audio self path w).1
        = Raise (Exception_ (transcription_label ++ exc_str e)))
  /\ (forall path e w',
      transcribe_audio self path w = (Raise e, w') ->
      exists msg, e = Exception_ (transcription_label ++ msg))
  /\ (forall d prompt transcript e,
      chat_completions_create (client self) (api_log w)
        (analysis_request (analysis_prompt d prompt transcript)) = inl e ->
      (analyze L d self prompt transcript w).1
        = Raise (Exception_ (analysis_label ++ exc_str e)))
  /\ (forall d prompt transcript resp ch rest c e,
      chat_completions_create (client self) (api_log w)
        (analysis_request (analysis_prompt d prompt transcript)) = inr resp ->
      choices resp = ch :: rest ->
      message_content ch = Some c ->
      json_loads L c = inl e ->
      (analyze L d self prompt transcript w).1
        = Raise (Exception_ (analysis_label ++ exc_str e)))
  /\ (forall d prompt transcript e w',
      analyze L d self prompt transcript w = (Raise e, w') ->
      exists msg, e = Exception_ (analysis_label ++ msg)).
Proof.
  repeat apply conj.
  - intros ty e He. rewrite generate_question_run. cbv zeta. cbn [fst].
    rewrite He. reflexivity.
  - intros ty e w'. rewrite generate_question_run. cbv zeta.
    intros [= He _]. exact (relabel_raise _ _ _ He).
  - intros path data e Hread He. rewrite transcribe_audio_run, Hread. cbv zeta. cbn [fst].
    rewrite He. reflexivity.
  - intros path e Hread. rewrite transcribe_audio_run, Hread. reflexivity.
  - intros path e w'. rewrite transcribe_audio_run.
    destruct (read_file w path) as [e0|data].
    + intros [= <- _]. exists (exc_str e0). reflexivity.
    + cbv zeta. intros [= He _]. exact (relabel_raise _ _ _ He).
  - intros d prompt transcript e He. rewrite analyze_run. cbv zeta. cbn [fst].
    rewrite He. reflexivity.
  - intros d prompt transcript resp ch rest c e Hresp Hch Hc He.
    rewrite analyze_run. cbv zeta. cbn [fst].
    rewrite Hresp. unfold decoded_completion. rewrite Hch, Hc, He. reflexivity.
  - intros d prompt transcript e w'. rewrite analyze_run. cbv zeta.
    intros [= He _]. exact (relabel_raise _ _ _ He).
Qed.

(** A service that cannot be reached, and a completion that is not
    JSON. *)
Lemma adapter_faults_relabelled_witness :
  (generate_question (demo_ai client_offline) (u "parrot") world0).1
  = Raise (Exception_ (generation_label ++ u "Connection error."))
  /\ (analyze (stub_libs (client_answering (u "not json"))) ParrotRepeat
        (demo_ai (client_answering (u "not json"))) demo_question demo_transcript world0).1
     = Raise (Exception_
                (analysis_label ++ u "Expecting value: line 1 column 1 (char 0)")).
Proof.
  split.
  - apply (proj1 (adapter_faults_relabelled (stub_libs client_offline)
                    (demo_ai client_offline) world0)
             (u "parrot") (APIConnectionError (u "Connection error."))).
    reflexivity.
  - destruct (adapter_faults_relabelled (stub_libs (client_answering (u "not json")))
                (demo_ai (client_answering (u "not json"))) world0)
      as (_ & _ & _ & _ & _ & _ & H & _).
    apply (H ParrotRepeat demo_question demo_transcript
             (completion (u "not json")) (mkChoice (Some (u "not json"))) []
             (u "not json")
             (JSONDecodeError (u "Expecting value: line 1 column 1 (char 0)")));
      vm_compute; reflexivity.
Defined.

Lemma generate_question_prompt_tag (d : drill) :
  generate_question_prompt (drill_tag d) = generate_question_template d.
Proof. destruct d; vm_compute; reflexivity. Qed.

(** C8. For each of the four drill types, [generate_question] sends one
    request whose instruction text is the template of that drill type:
    it contains the example lines of that type, it differs from the
    template of every other type and contains none of their example
    lines. When the service answers, the result is the content of the
    first choice without the white space at its two ends. *)
Theorem generate_question_selects_template (self : SpeechTrainingAI) (d : drill) (w : World) :
  api_log (generate_question self (drill_tag d) w).2
    = api_log w ++ [ChatCompletionsCreate (question_request (generate_question_template d))]
  /\ Forall (fun m => is_infix m (generate_question_template d) = true) (example_markers d)
  /\ (forall d', d' <> d ->
        generate_question_template d' <> generate_question_template d
        /\ Forall (fun m => is_infix m (generate_question_template d) = false)
                  (example_markers d'))
  /\ (forall resp ch rest c,
        chat_completions_create (client self) (api_log w)
          (question_request (generate_question_template d)) = inr resp ->
        choices resp = ch :: rest ->
        message_content ch = Some c ->
        (generate_question self (drill_tag d) w).1 = Ret (py_strip c)
        /\ exists l r,
             c = l ++ py_strip c ++ r
             /\ forallb py_isspace l = true /\ forallb py_isspace r = true
             /\ (forall x t, py_strip c = x :: t -> py_isspace x = false)
             /\ (forall t x, py_strip c = t ++ [x] -> py_isspace x = false)).
Proof.
  rewrite generate_question_run. cbv zeta. rewrite generate_question_prompt_tag.
  repeat apply conj.
  - reflexivity.
  - destruct d; repeat constructor; vm_compute; reflexivity.
  - intros d' Hd. split.
    + intros Heq. apply Hd.
      destruct d, d'; try reflexivity; exfalso;
        apply (f_equal (fun t => nth 20 t 0)) in Heq; vm_compute in Heq; discriminate Heq.
    + destruct d, d'; try (exfalso; apply Hd; reflexivity);
        repeat constructor; vm_compute; reflexivity.
  - intros resp ch rest c Hresp Hch Hc. cbn [fst].
    rewrite Hresp. unfold stripped_completion. rewrite Hch, Hc.
    split; [reflexivity | apply py_strip_spec].
Qed.

(** A topic answered with white space around it. *)
Lemma generate_question_selects_template_witness :
  (generate_question (demo_ai (client_answering (u "  今いる部屋　 ")))
     (drill_tag LiveCommentary) world0).1
  = Ret (u "今いる部屋").
Proof.
  destruct (generate_question_selects_template
              (demo_ai (client_answering (u "  今いる部屋　 "))) LiveCommentary world0)
    as (_ & _ & _ & H).
  destruct (H (completion (u "  今いる部屋　 ")) (mkChoice (Some (u "  今いる部屋　 "))) []
              (u "  今いる部屋　 ") eq_refl eq_refl eq_refl) as [Hret _].
  rewrite Hret. vm_compute. reflexivity.
Defined.

(** C10. For every training type other than ["parrot"], ["commentary"]
    and ["self_questioning"], [generate_question] behaves as for
    ["conclusion_first"]: it sends one request built from the
    conclusion-first template and, when the service answers, returns the
    stripped content; no error rejects the unknown type. *)
Theorem generate_question_unknown_type (self : SpeechTrainingAI) (ty : pystr) (w : World) :
  ty <> u "parrot" -> ty <> u "commentary" -> ty <> u "self_questioning" ->
  generate_question self ty w = generate_question self (u "conclusion_first") w
  /\ api_log (generate_question self ty w).2
     = api_log w ++ [ChatCompletionsCreate
                       (question_request generate_question_prompt_conclusion_first)]
  /\ (forall resp ch rest c,
        chat_completions_create (client self) (api_log w)
          (question_request generate_question_prompt_conclusion_first) = inr resp ->
        choices resp = ch :: rest ->
        message_content ch = Some c ->
        (generate_question self ty w).1 = Ret (py_strip c)).
Proof.
  intros H1 H2 H3.
  assert (Hty : generate_question_prompt ty = generate_question_prompt_conclusion_first).
  { unfold generate_question_prompt, pystr_eqb.
    rewrite !bool_decide_eq_false_2 by assumption. reflexivity. }
  assert (Hcf : generate_question_prompt (u "conclusion_first")
                = generate_question_prompt_conclusion_first).
  { exact (generate_question_prompt_tag ConclusionFirst). }
  rewrite !generate_question_run. cbv zeta. rewrite Hty, Hcf.
  repeat apply conj; [reflexivity | reflexivity |].
  intros resp ch rest c Hresp Hch Hc. cbn [fst].
  rewrite Hresp. unfold stripped_completion. rewrite Hch, Hc. reflexivity.
Qed.

(** An unknown training type. *)
Lemma generate_question_unknown_type_witness :
  generate_question (demo_ai (client_answering (u "今年の目標を一言で表すと？")))
    (u "tongue_twister") world0
  = generate_question (demo_ai (client_answering (u "今年の目標を一言で表すと？")))
      (u "conclusion_first") world0.
Proof.
  apply (generate_question_unknown_type
           (demo_ai (client_answering (u "今年の目標を一言で表すと？")))
           (u "tongue_twister") world0); vm_compute; discriminate.
Defined.

(** * Properties of the controller *)

Lemma session_attr_run {A} (L : Libs) (name : pystr) (field : SessionState -> option A)
    (w : World) :
  session_attr L name field w =
  (match field (session_state w) with
   | Some a => Ret a
   | None => Raise (st_session_state_missing L name)
   end, w).
Proof.
  unfold session_attr, get_session_state, mbind, M_bind, bind, get_world, ret, raise.
  destruct (field (session_state w)); reflexivity.
Qed.

(** A successful [save_audio_file] leaves the recording under
    [recorded_audio_path] and touches nothing but the file system. *)
Lemma save_audio_file_ok (audio : pybytes) (w w1 : World) (path : pystr) :
  save_audio_file audio default_filename w = (Ret path, w1) ->
  path = recorded_audio_path
  /\ read_file w1 path = inr audio
  /\ session_state w1 = session_state w
  /\ ui w1 = ui w
  /\ api_log w1 = api_log w.
Proof.
  unfold save_audio_file, mkdir_exist_ok, write_wb, mbind, M_bind, bind, get_world, set_fs,
    ret, raise.
  destruct (fs_files w !! u "audio_files"); [discriminate|].
  cbn [fs_dirs fs_files with_fs].
  destruct (bool_decide (_ ∈ _)) eqn:Hdir; [discriminate|].
  intros [= <- <-]. split; [vm_compute; reflexivity|]. split.
  - unfold read_file. cbn [fs_dirs fs_files with_fs]. rewrite Hdir.
    rewrite lookup_insert_eq. reflexivity.
  - cbn [session_state ui api_log with_fs]. auto.
Qed.

(** [transcribe_audio] changes nothing but the log of calls, to which it
    adds transcription requests only. *)
Lemma transcribe_audio_effect (self : SpeechTrainingAI) (path : pystr) (w w2 : World)
    (r : outcome pystr) :
  transcribe_audio self path w = (r, w2) ->
  session_state w2 = session_state w
  /\ ui w2 = ui w
  /\ fs_files w2 = fs_files w
  /\ fs_dirs w2 = fs_dirs w
  /\ filter is_chat_call (api_log w2) = filter is_chat_call (api_log w).
Proof.
  rewrite transcribe_audio_run.
  destruct (read_file w path) as [e|data]; cbv zeta; intros [= _ <-].
  - auto.
  - cbn [session_state ui fs_files fs_dirs api_log add_call].
    repeat apply conj; try reflexivity.
    rewrite filter_app. cbn. apply app_nil_r.
Qed.

(** The run of the handler when [transcribe_audio] raises: the handler
    of the [try] statement shows the message and nothing else runs. *)
Lemma submit_recording_transcription_fails (L : Libs)
    (analyze : SpeechTrainingAI -> pystr -> pystr -> M pyval) (training_type : pystr)
    (audio : pybytes) (w w1 w2 : World) (path : pystr) (ai : SpeechTrainingAI)
    (e : Exception) :
  save_audio_file audio default_filename w = (Ret path, w1) ->
  ai_client (session_state w) = Some ai ->
  transcribe_audio ai path w1 = (Raise e, w2) ->
  submit_recording L analyze training_type audio w = (Ret tt, add_ui (submit_error e) w2).
Proof.
  intros Hsave Hai Htr.
  destruct (save_audio_file_ok _ _ _ _ Hsave) as (_ & _ & Hs1 & _).
  unfold submit_recording, try_except, mbind, M_bind, bind.
  rewrite Hsave, session_attr_run, Hs1, Hai, Htr. reflexivity.
Qed.

(** C4. In a run of the handler that submits a recording, when
    [transcribe_audio] raises, the handler ends by showing the error:
    [st.session_state.transcribed_text] keeps the value it had, no
    request of an analysis method is sent, and the run is the same
    whatever the analysis method is, which is never called. *)
Theorem failed_transcription_skips_analysis (L : Libs) (d : drill) (audio : pybytes)
    (w w1 w2 : World) (path : pystr) (ai : SpeechTrainingAI) (e : Exception) :
  save_audio_file audio default_filename w = (Ret path, w1) ->
  ai_client (session_state w) = Some ai ->
  transcribe_audio ai path w1 = (Raise e, w2) ->
  let r := submit_recording L (analyze L d) (drill_tag d) audio w in
  r.1 = Ret tt
  /\ ui r.2 = ui w ++ [submit_error e]
  /\ transcribed_text (session_state r.2) = transcribed_text (session_state w)
  /\ session_state r.2 = session_state w
  /\ filter is_chat_call (api_log r.2) = filter is_chat_call (api_log w)
  /\ (forall other : SpeechTrainingAI -> pystr -> pystr -> M pyval,
        submit_recording L other (drill_tag d) audio w = r).
Proof.
  intros Hsave Hai Htr r. subst r.
  rewrite (submit_recording_transcription_fails L _ _ _ _ _ _ _ _ _ Hsave Hai Htr).
  destruct (save_audio_file_ok _ _ _ _ Hsave) as (_ & _ & Hs1 & Hu1 & Hl1).
  destruct (transcribe_audio_effect _ _ _ _ _ Htr) as (Hs2 & Hu2 & _ & _ & Hl2).
  cbn [fst snd add_ui ui session_state api_log].
  rewrite Hu2, Hu1, Hs2, Hs1, Hl2, Hl1.
  repeat apply conj; try reflexivity.
  intros other. apply (submit_recording_transcription_fails L _ _ _ _ _ _ _ _ _ Hsave Hai Htr).
Qed.

(** The run of the handler with a service whose transcription endpoint
    cannot be reached. *)
Lemma failed_transcription_skips_analysis_witness :
  transcribed_text
    (session_state
       (submit_recording deaf_libs (analyze deaf_libs ParrotRepeat) (drill_tag ParrotRepeat)
          demo_audio deaf_world).2) = Some None
  /\ filter is_chat_call
       (api_log
          (submit_recording deaf_libs (analyze deaf_libs ParrotRepeat)
             (drill_tag ParrotRepeat) demo_audio deaf_world).2) = [].
Proof.
  assert (Hsave : save_audio_file demo_audio default_filename deaf_world
                  = (Ret recorded_audio_path,
                     (save_audio_file demo_audio default_filename deaf_world).2))
    by (vm_compute; reflexivity).
  assert (Htr : transcribe_audio deaf_ai recorded_audio_path
                  (save_audio_file demo_audio default_filename deaf_world).2
                = (Raise connection_error,
                   (transcribe_audio deaf_ai recorded_audio_path
                      (save_audio_file demo_audio default_filename deaf_world).2).2))
    by (vm_compute; reflexivity).
  destruct (failed_transcription_skips_analysis deaf_libs ParrotRepeat demo_audio
              deaf_world _ _ recorded_audio_path deaf_ai connection_error
              Hsave eq_refl Htr) as (_ & _ & Htext & _ & Hlog & _).
  split; [exact Htext | exact Hlog].
Defined.

(** C2 (what the code does where the claim fails). When
    [transcribe_audio] raises, the handler ends without reaching
    [os.remove]: the recording that [save_audio_file] wrote is still in
    the file system after the run. *)
Theorem failed_transcription_leaves_recording (L : Libs) (d : drill) (audio : pybytes)
    (w w1 w2 : World) (path : pystr) (ai : SpeechTrainingAI) (e : Exception) :
  save_audio_file audio default_filename w = (Ret path, w1) ->
  ai_client (session_state w) = Some ai ->
  transcribe_audio ai path w1 = (Raise e, w2) ->
  path = recorded_audio_path
  /\ read_file (submit_recording L (analyze L d) (drill_tag d) audio w).2
       recorded_audio_path = inr audio.
Proof.
  intros Hsave Hai Htr.
  rewrite (submit_recording_transcription_fails L _ _ _ _ _ _ _ _ _ Hsave Hai Htr).
  destruct (save_audio_file_ok _ _ _ _ Hsave) as (-> & Hread & _).
  destruct (transcribe_audio_effect _ _ _ _ _ Htr) as (_ & _ & Hf & Hd & _).
  split; [reflexivity|].
  unfold read_file in *. cbn [snd add_ui fs_dirs fs_files].
  rewrite Hf, Hd. exact Hread.
Qed.

(** The recording is still there after the run with a service whose
    transcription endpoint cannot be reached. *)
Lemma failed_transcription_leaves_recording_witness :
  read_file
    (submit_recording deaf_libs (analyze deaf_libs ParrotRepeat) (drill_tag ParrotRepeat)
       demo_audio deaf_world).2 recorded_audio_path = inr demo_audio.
Proof.
  assert (Hsave : save_audio_file demo_audio default_filename deaf_world
                  = (Ret recorded_audio_path,
                     (save_audio_file demo_audio default_filename deaf_world).2))
    by (vm_compute; reflexivity).
  assert (Htr : transcribe_audio deaf_ai recorded_audio_path
                  (save_audio_file demo_audio default_filename deaf_world).2
                = (Raise connection_error,
                   (transcribe_audio deaf_ai recorded_audio_path
                      (save_audio_file demo_audio default_filename deaf_world).2).2))
    by (vm_compute; reflexivity).
  exact (proj2 (failed_transcription_leaves_recording deaf_libs ParrotRepeat demo_audio
                  deaf_world _ _ recorded_audio_path deaf_ai connection_error
                  Hsave eq_refl Htr)).
Defined.

Lemma set_transcribed_text_run (t : option pystr) (w : World) :
  set_transcribed_text t w =
  (Ret tt,
   with_session_state
     (mkSessionState (ai_client (session_state w)) (current_question (session_state w))
        (Some t) (feedback (session_state w))) w).
Proof. reflexivity. Qed.

(** The run of the handler up to the call of the analysis method. *)
Lemma submit_recording_until_analysis (L : Libs)
    (analyze : SpeechTrainingAI -> pystr -> pystr -> M pyval) (training_type : pystr)
    (audio : pybytes) (w w1 w2 : World) (path text : pystr) (ai : SpeechTrainingAI)
    (q : option pystr) :
  save_audio_file audio default_filename w = (Ret path, w1) ->
  ai_client (session_state w) = Some ai ->
  current_question (session_state w) = Some q ->
  transcribe_audio ai path w1 = (Ret text, w2) ->
  submit_recording L analyze training_type audio w =
  match analyze ai (py_str_opt q) text (before_analysis text w2) with
  | (Ret fb, w4) =>
      match (set_feedback fb;; display_feedback L fb training_type;; os_remove path) w4 with
      | (Raise e, w') => (Ret tt, add_ui (submit_error e) w')
      | r => r
      end
  | (Raise e, w4) => (Ret tt, add_ui (submit_error e) w4)
  | (Control c, w4) => (Control c, w4)
  end.
Proof.
  intros Hsave Hai Hq Htr.
  destruct (save_audio_file_ok _ _ _ _ Hsave) as (_ & _ & Hs1 & _).
  destruct (transcribe_audio_effect _ _ _ _ _ Htr) as (Hs2 & _).
  unfold submit_recording, before_analysis, try_except, mbind, M_bind, bind.
  rewrite Hsave, session_attr_run, Hs1, Hai, Htr, set_transcribed_text_run.
  unfold show. rewrite !session_attr_run.
  cbn [session_state add_ui with_session_state ai_client current_question].
  rewrite Hs2, Hs1, Hai, Hq.
  destruct (analyze ai (py_str_opt q) text _) as [[fb|e|c] w4]; reflexivity.
Qed.

(** C3 (as the code has it). When the content of the completion does not
    parse as JSON, the analysis method raises [Exception] with the label
    of the analysis errors before the message of the decoder, the label
    it uses for a fault of the service; the handler shows that message
    and returns normally; the session is as it was when the analysis
    method was called: the prompt and the feedback of before the run and
    the transcript the run has just stored. *)
Theorem malformed_json_is_reported (L : Libs) (d : drill) (audio : pybytes)
    (w w1 w2 : World) (path text : pystr) (ai : SpeechTrainingAI) (q : option pystr)
    (resp : ChatCompletion) (ch : Choice) (rest : list Choice) (c : pystr)
    (e : Exception) :
  save_audio_file audio default_filename w = (Ret path, w1) ->
  ai_client (session_state w) = Some ai ->
  current_question (session_state w) = Some q ->
  transcribe_audio ai path w1 = (Ret text, w2) ->
  chat_completions_create (client ai) (api_log w2)
    (analysis_request (analysis_prompt d (py_str_opt q) text)) = inr resp ->
  choices resp = ch :: rest ->
  message_content ch = Some c ->
  json_loads L c = inl e ->
  let failure := Exception_ (analysis_label ++ exc_str e) in
  let r := submit_recording L (analyze L d) (drill_tag d) audio w in
  (analyze L d ai (py_str_opt q) text (before_analysis text w2)).1 = Raise failure
  /\ r.1 = Ret tt
  /\ ui r.2 = ui (before_analysis text w2) ++ [submit_error failure]
  /\ session_state r.2 = session_state (before_analysis text w2)
  /\ current_question (session_state r.2) = current_question (session_state w)
  /\ feedback (session_state r.2) = feedback (session_state w)
  /\ transcribed_text (session_state r.2) = Some (Some text).
Proof.
  intros Hsave Hai Hq Htr Hresp Hch Hc He failure r. subst r.
  destruct (save_audio_file_ok _ _ _ _ Hsave) as (_ & _ & Hs1 & _).
  destruct (transcribe_audio_effect _ _ _ _ _ Htr) as (Hs2 & _).
  assert (Hrun : analyze L d ai (py_str_opt q) text (before_analysis text w2)
                 = (Raise failure,
                    add_call (ChatCompletionsCreate
                                (analysis_request (analysis_prompt d (py_str_opt q) text)))
                      (before_analysis text w2))).
  { rewrite analyze_run. cbv zeta.
    change (api_log (before_analysis text w2)) with (api_log w2).
    rewrite Hresp. unfold decoded_completion. rewrite Hch, Hc, He. reflexivity. }
  rewrite (submit_recording_until_analysis L _ _ _ _ _ _ _ _ _ _ Hsave Hai Hq Htr), Hrun.
  cbn [fst snd ui session_state add_ui add_call].
  repeat apply conj; try reflexivity.
  - cbn [before_analysis session_state add_ui with_session_state current_question].
    rewrite Hs2, Hs1. reflexivity.
  - cbn [before_analysis session_state add_ui with_session_state feedback].
    rewrite Hs2, Hs1. reflexivity.
Qed.

(** The run of the handler with a service whose completions are not
    JSON. *)
Lemma malformed_json_is_reported_witness :
  (submit_recording garbled_libs (analyze garbled_libs ParrotRepeat)
     (drill_tag ParrotRepeat) demo_audio garbled_world).1 = Ret tt
  /\ feedback
       (session_state
          (submit_recording garbled_libs (analyze garbled_libs ParrotRepeat)
             (drill_tag ParrotRepeat) demo_audio garbled_world).2) = Some PNone.
Proof.
  assert (Hsave : save_audio_file demo_audio default_filename garbled_world
                  = (Ret recorded_audio_path,
                     (save_audio_file demo_audio default_filename garbled_world).2))
    by (vm_compute; reflexivity).
  assert (Htr : transcribe_audio garbled_ai recorded_audio_path
                  (save_audio_file demo_audio default_filename garbled_world).2
                = (Ret demo_transcript,
                   (transcribe_audio garbled_ai recorded_audio_path
                      (save_audio_file demo_audio default_filename garbled_world).2).2))
    by (vm_compute; reflexivity).
  destruct (malformed_json_is_reported garbled_libs ParrotRepeat demo_audio garbled_world
              _ _ recorded_audio_path demo_transcript garbled_ai (Some demo_question)
              (completion (u "not json")) (mkChoice (Some (u "not json"))) []
              (u "not json")
              (JSONDecodeError (u "Expecting value: line 1 column 1 (char 0)"))
              Hsave eq_refl eq_refl Htr eq_refl eq_refl eq_refl eq_refl)
    as (_ & Hret & _ & _ & _ & Hfb & _).
  split; [exact Hret | exact Hfb].
Defined.

(** C3 (as stated) fails for a completion that parses but has not the
    expected shape: for the content [{}] the analysis method raises
    nothing and returns the empty record, and the handler stores it as
    the feedback of the session and shows no error. *)
Lemma malformed_shape_is_not_reported :
  json_loads empty_libs (u "{}") = inr (PDict [])
  /\ parrot_shape (PDict []) = false
  /\ (analyze_parrot_response empty_libs empty_ai demo_question demo_transcript
        empty_world).1 = Ret (PDict [])
  /\ (submit_recording empty_libs (analyze_parrot_response empty_libs) (u "parrot")
        demo_audio empty_world).1 = Ret tt
  /\ feedback
       (session_state
          (submit_recording empty_libs (analyze_parrot_response empty_libs) (u "parrot")
             demo_audio empty_world).2) = Some (PDict [])
  /\ existsb is_st_error
       (ui (submit_recording empty_libs (analyze_parrot_response empty_libs) (u "parrot")
              demo_audio empty_world).2) = false.
Proof. repeat apply conj; vm_compute; reflexivity. Qed.

(** ** Start of the script *)

Lemma init_run (L : Libs) (api_key : option pystr) (w : World) :
  SpeechTrainingAI__init__ L api_key w =
  (match py_or api_key (environ w !! credential_name) with
   | Some ((_ :: _) as key) => Ret (mkSpeechTrainingAI key (OpenAI_new L key))
   | _ => Raise missing_credential
   end, w).
Proof.
  unfold SpeechTrainingAI__init__, os_getenv, mbind, M_bind, bind, get_world, ret, raise,
    credential_name.
  destruct (py_or api_key (environ w !! u "OPENAI_API_KEY")) as [[|x key]|]; reflexivity.
Qed.

Lemma get_session_state_run (w : World) :
  get_session_state w = (Ret (session_state w), w).
Proof. reflexivity. Qed.

(** C6. Without a non-empty credential, in the argument or in the
    environment, the constructor raises [ValueError]; the script then
    shows the error and stops before [main] draws anything, so that no
    drill can be reached; with a non-empty credential the constructor
    returns a client that holds it. *)
Theorem missing_credential_stops_startup (L : Libs) :
  (forall api_key w,
      truthy_opt api_key = false ->
      truthy_opt (environ w !! credential_name) = false ->
      SpeechTrainingAI__init__ L api_key w = (Raise missing_credential, w))
  /\ (forall inp w,
      ai_client (session_state w) = None ->
      truthy_opt (environ w !! credential_name) = false ->
      app L inp w
      = (Control StopException, add_ui missing_credential_message (add_ui page_config w)))
  /\ (forall api_key w,
      truthy_opt (py_or api_key (environ w !! credential_name)) = true ->
      exists key,
        py_or api_key (environ w !! credential_name) = Some key
        /\ SpeechTrainingAI__init__ L api_key w
           = (Ret (mkSpeechTrainingAI key (OpenAI_new L key)), w)).
Proof.
  repeat apply conj.
  - intros api_key w Hk He. rewrite init_run.
    destruct api_key as [[|x k]|]; try discriminate Hk; cbn [py_or];
      destruct (environ w !! credential_name) as [[|y k']|]; try discriminate He;
      reflexivity.
  - intros inp w Hai He.
    unfold app, initialize, try_except_cls, when, mbind, M_bind, bind, show.
    rewrite get_session_state_run. cbn [session_state add_ui]. rewrite Hai.
    rewrite bool_decide_eq_true_2 by reflexivity.
    rewrite init_run. cbn [py_or environ add_ui].
    destruct (environ w !! credential_name) as [[|y k']|]; try discriminate He;
      reflexivity.
  - intros api_key w Hk. rewrite init_run.
    destruct (py_or api_key (environ w !! credential_name)) as [[|x k]|];
      try discriminate Hk.
    exists (x :: k). split; reflexivity.
Qed.

(** The script started without credential. *)
Lemma missing_credential_stops_startup_witness :
  app (stub_libs client_offline)
    (mkInputs (u "オウム返し訓練") false None false) world0
  = (Control StopException, add_ui missing_credential_message (add_ui page_config world0)).
Proof.
  apply (proj1 (proj2 (missing_credential_stops_startup (stub_libs client_offline))));
    reflexivity.
Defined.

Lemma ui_add_uis (evs : list UiEvent) (w : World) : ui (add_uis evs w) = ui w ++ evs.
Proof.
  revert w. induction evs as [|e evs IH]; intros w.
  - symmetry. apply app_nil_r.
  - cbn [add_uis fold_left]. fold (add_uis evs (add_ui e w)). rewrite IH.
    cbn [ui add_ui]. rewrite <- app_assoc. reflexivity.
Qed.

Lemma add_uis_app (evs1 evs2 : list UiEvent) (w : World) :
  add_uis (evs1 ++ evs2) w = add_uis evs2 (add_uis evs1 w).
Proof. unfold add_uis. apply fold_left_app. Qed.

Lemma add_uis_fs (evs : list UiEvent) (w : World) :
  fs_files (add_uis evs w) = fs_files w /\ fs_dirs (add_uis evs w) = fs_dirs w
  /\ session_state (add_uis evs w) = session_state w.
Proof.
  revert w. induction evs as [|e evs IH]; intros w; [auto|].
  cbn [add_uis fold_left]. fold (add_uis evs (add_ui e w)).
  destruct (IH (add_ui e w)) as (-> & -> & ->). auto.
Qed.

(** ** Code that only draws *)

Lemma ui_only_ret {A} (a : A) : ui_only (ret a).
Proof. intros w. exists []. reflexivity. Qed.

Lemma ui_only_raise {A} (e : Exception) : ui_only (@raise A e).
Proof. intros w. exists []. reflexivity. Qed.

Lemma ui_only_lift {A} (r : Exception + A) : ui_only (lift r).
Proof. destruct r; [apply ui_only_raise | apply ui_only_ret]. Qed.

Lemma ui_only_fstring (t : text) : ui_only (fstring t).
Proof. unfold fstring. destruct (fstring_check t); [apply ui_only_raise | apply ui_only_ret]. Qed.

Lemma ui_only_show (e : UiEvent) : ui_only (show e).
Proof. intros w. exists [e]. reflexivity. Qed.

Lemma ui_only_bind {A B} (m : M A) (k : A -> M B) :
  ui_only m -> (forall a, ui_only (k a)) -> ui_only (m ≫= k).
Proof.
  intros Hm Hk w. unfold mbind, M_bind, bind.
  destruct (Hm w) as [evs1 H1]. destruct (m w) as [[a|e|c] w1]; cbn [snd] in *.
  - destruct (Hk a w1) as [evs2 H2]. exists (evs1 ++ evs2).
    rewrite H2, H1. symmetry. apply add_uis_app.
  - exists evs1. exact H1.
  - exists evs1. exact H1.
Qed.

Lemma ui_only_for_each {A} (xs : list A) (body : A -> M unit) :
  (forall x, ui_only (body x)) -> ui_only (for_each xs body).
Proof.
  intros Hb. induction xs as [|x xs IH]; cbn [for_each].
  - apply ui_only_ret.
  - apply (ui_only_bind (body x) (fun _ => for_each xs body)); auto.
Qed.

Create HintDb ui_only.

#[local] Hint Resolve ui_only_ret ui_only_raise ui_only_lift ui_only_fstring ui_only_show
  ui_only_for_each : ui_only.

Ltac ui_only_step :=
  match goal with
  | |- ui_only (_ ≫= _) => apply ui_only_bind; [|intros ?]
  | |- ui_only (for_each _ _) => apply ui_only_for_each; intros ?
  | |- ui_only (if ?b then _ else _) => destruct b
  | |- ui_only (match ?o with Some _ => _ | None => _ end) => destruct o
  | |- _ => solve [auto with ui_only]
  end.

Lemma write_points_ui_only (points : pyval) : ui_only (write_points points).
Proof. unfold write_points. repeat ui_only_step. Qed.

#[local] Hint Resolve write_points_ui_only : ui_only.

(** [display_feedback] changes nothing but the page. *)
Lemma display_feedback_ui_only (L : Libs) (fb : pyval) (training_type : pystr) :
  ui_only (display_feedback L fb training_type).
Proof. unfold display_feedback, call_st_progress. repeat ui_only_step. Qed.

Lemma ui_only_ui {A} (m : M A) (w : World) :
  ui_only m -> exists evs, (m w).2 = add_uis evs w /\ ui (m w).2 = ui w ++ evs.
Proof.
  intros Hm. destruct (Hm w) as [evs Hevs]. exists evs. split; [exact Hevs|].
  rewrite Hevs. apply ui_add_uis.
Qed.

(** ** Drawing a Feedback *)

Lemma py_get_field (d : list (pystr * pyval)) (k : pystr) (default : pyval) :
  py_get (PDict d) k default = inr (field d k default).
Proof. reflexivity. Qed.

Lemma outcome_show (e : UiEvent) : outcome_is (show e) (Ret tt).
Proof. intros w. reflexivity. Qed.

Lemma outcome_ret {A} (a : A) : outcome_is (ret a) (Ret a).
Proof. intros w. reflexivity. Qed.

Lemma outcome_raise {A} (e : Exception) : outcome_is (@raise A e) (Raise e).
Proof. intros w. reflexivity. Qed.

Lemma outcome_bind {A B} (m : M A) (k : A -> M B) (a : A) (o : outcome B) :
  outcome_is m (Ret a) -> outcome_is (k a) o -> outcome_is (m ≫= k) o.
Proof.
  intros Hm Hk w. unfold mbind, M_bind, bind.
  specialize (Hm w). destruct (m w) as [[a'|e|c] w1]; cbn [fst] in Hm; try discriminate Hm.
  injection Hm as ->. apply Hk.
Qed.

Lemma outcome_bind_raise {A B} (m : M A) (k : A -> M B) (e : Exception) :
  outcome_is m (Raise e) -> outcome_is (m ≫= k) (Raise e).
Proof.
  intros Hm w. unfold mbind, M_bind, bind.
  specialize (Hm w). destruct (m w) as [[a'|e'|c] w1]; cbn [fst] in Hm; try discriminate Hm.
  injection Hm as ->. reflexivity.
Qed.

(** Two steps in sequence stop at the first exception. *)
Lemma outcome_seq {B} (m : M B) (k : B -> M unit) (b : B) (e1 e2 : option Exception) :
  outcome_is m (match e1 with Some e => Raise e | None => Ret b end) ->
  outcome_is (k b) (result_of e2) ->
  outcome_is (m ≫= k) (result_of (first_error e1 e2)).
Proof.
  intros Hm Hk. destruct e1 as [e|]; cbn [first_error result_of].
  - apply outcome_bind_raise. exact Hm.
  - apply (outcome_bind m k b); assumption.
Qed.

Lemma outcome_fstring (t : text) :
  outcome_is (fstring t)
    (match fstring_check t with Some e => Raise e | None => Ret t end).
Proof. intros w. unfold fstring. destruct (fstring_check t); reflexivity. Qed.

(** An f-string with one value fails as the formatting of the value. *)
Lemma fstring_check_fmt (v : pyval) (spec : pystr) (t : text) :
  fstring_check t = None -> fstring_check (Fmt v spec :: t) = py_format_check v spec.
Proof. intros Ht. cbn [fstring_check]. rewrite Ht. destruct (py_format_check v spec); reflexivity. Qed.

Lemma outcome_fstring_str (t1 t2 : list pystr) (v : pyval) :
  let t := List.map Lit t1 ++ Fmt v [] :: List.map Lit t2 in
  outcome_is (fstring t) (match py_str_check v with Some e => Raise e | None => Ret t end).
Proof.
  intros t.
  assert (H : fstring_check t = py_str_check v).
  { subst t. induction t1 as [|l t1 IH]; [|exact IH].
    apply (fstring_check_fmt v []). induction t2 as [|l t2 IH]; [reflexivity | exact IH]. }
  rewrite <- H. apply outcome_fstring.
Qed.

Lemma outcome_lift {A} (r : Exception + A) (a : A) :
  outcome_is (lift r)
    (match error_of r with
     | Some e => Raise e
     | None => Ret (match r with inr x => x | inl _ => a end)
     end).
Proof. intros w. destruct r; reflexivity. Qed.

Lemma first_error_none_r (a : option Exception) : first_error a None = a.
Proof. destruct a; reflexivity. Qed.

(** The loop over the points stops at the first point that has no text. *)
Lemma for_each_points_outcome (items : list pyval) :
  outcome_is
    (for_each items (fun point =>
       line ← fstring [Lit (u "- "); Fmt point []];
       show (st_write line)))
    (result_of (py_str_check (PList items))).
Proof.
  induction items as [|x items IH]; [apply outcome_ret|].
  cbn [for_each].
  change (py_str_check (PList (x :: items)))
    with (first_error (py_str_check x) (py_str_check (PList items))).
  apply (outcome_seq _ _ tt); [|exact IH].
  rewrite <- (first_error_none_r (py_str_check x)).
  apply (outcome_seq _ _ [Lit (u "- "); Fmt x []]); [|apply outcome_show].
  apply (outcome_fstring_str [u "- "] [] x).
Qed.

Lemma write_points_outcome (points : pyval) :
  outcome_is (write_points points) (result_of (points_error points)).
Proof.
  unfold write_points, points_error.
  destruct (py_truthy points); [|apply outcome_show].
  destruct (py_iter points) as [e|items].
  - apply outcome_bind_raise. apply outcome_raise.
  - apply (outcome_bind _ _ items); [apply outcome_ret|]. apply for_each_points_outcome.
Qed.

Lemma py_format_check_1f (v : pyval) : py_format_check v (u ".1f") = py_format_1f_check v.
Proof.
  assert (H : u ".1f" = [46; 49; 102]) by (vm_compute; reflexivity).
  rewrite H. reflexivity.
Qed.

(** [score >= 60] is defined when [score >= 80] is. *)
Lemma py_ge_int_defined (v : pyval) (n m : Z) (b : bool) :
  py_ge_int v n = inr b -> exists b', py_ge_int v m = inr b'.
Proof. destruct v; cbn [py_ge_int]; intros H; try discriminate H; eauto. Qed.

Ltac outcome_step :=
  lazymatch goal with
  | |- outcome_is (show _ ≫= _) _ => apply (outcome_bind _ _ tt); [apply outcome_show|]
  | |- outcome_is (lift (inr ?a) ≫= _) _ => apply (outcome_bind _ _ a); [apply outcome_ret|]
  | |- outcome_is (lift (inl ?e) ≫= _) _ => apply outcome_bind_raise; apply outcome_raise
  | |- outcome_is (show _) _ => apply outcome_show
  | |- outcome_is (ret _) _ => apply outcome_ret
  end.

(** The banner is drawn when the score has a text and compares with 80. *)
Lemma banner_outcome (score : pyval) (ge80 : bool) :
  py_str_check score = None ->
  py_ge_int score 80 = inr ge80 ->
  outcome_is
    (if ge80 then
       banner ← fstring [Lit (u "素晴らしい！ スコア: "); Fmt score []; Lit (u "/100")];
       show (st_success banner)
     else
       ge60 ← lift (py_ge_int score 60);
       if ge60 : bool then
         banner ← fstring [Lit (u "良い調子です！ スコア: "); Fmt score []; Lit (u "/100")];
         show (st_info banner)
       else
         banner ← fstring [Lit (u "もう少し頑張りましょう！ スコア: "); Fmt score []; Lit (u "/100")];
         show (st_warning banner))
    (Ret tt).
Proof.
  intros Hstr H80.
  assert (Hf : forall a, outcome_is (fstring [Lit a; Fmt score []; Lit (u "/100")])
                           (Ret [Lit a; Fmt score []; Lit (u "/100")])).
  { intros a. generalize (outcome_fstring_str [a] [u "/100"] score). cbv zeta.
    rewrite Hstr. exact (fun H => H). }
  destruct ge80.
  - eapply outcome_bind; [apply Hf | apply outcome_show].
  - destruct (py_ge_int_defined score 80 60 false H80) as [ge60 ->].
    outcome_step. destruct ge60; (eapply outcome_bind; [apply Hf | apply outcome_show]).
Qed.

(** The outcome of [display_feedback] on a dict does not depend on the
    world: it is the first exception met in the fields read. *)
Lemma display_feedback_outcome (L : Libs) (d : list (pystr * pyval)) (training_type : pystr) :
  outcome_is (display_feedback L (PDict d) training_type)
    (result_of (display_error L training_type d)).
Proof.
  unfold display_feedback, display_error, score_error, details_error.
  rewrite !py_get_field.
  set (score := field d (u "score") (PInt 0)).
  set (fb := field d (u "feedback") (PStr [])).
  set (good_points := field d (u "good_points") (PList [])).
  set (improvements := field d (u "improvements") (PList [])).
  outcome_step. outcome_step.
  destruct (py_str_check score) as [e|] eqn:Hstr; cbn [first_error].
  { apply outcome_bind_raise.
    generalize (outcome_fstring_str [] [u "/100"] score). cbv zeta. rewrite Hstr.
    exact (fun H => H). }
  eapply outcome_bind.
  { generalize (outcome_fstring_str [] [u "/100"] score). cbv zeta. rewrite Hstr.
    exact (fun H => H). }
  outcome_step.
  destruct (py_ge_int score 80) as [e|ge80] eqn:H80; cbn [error_of first_error];
    [outcome_step|].
  outcome_step.
  apply (outcome_bind _ _ tt); [apply (banner_outcome score ge80 Hstr H80)|].
  destruct (py_truediv_int score 100) as [e|ratio]; [outcome_step|].
  outcome_step.
  unfold call_st_progress.
  destruct (st_progress_check L ratio) as [e|].
  { apply outcome_bind_raise. apply outcome_raise. }
  outcome_step. outcome_step. outcome_step. outcome_step. outcome_step. outcome_step.
  apply (outcome_seq _ _ tt (points_error good_points)); [apply write_points_outcome|].
  outcome_step. outcome_step.
  apply (outcome_seq _ _ tt (points_error improvements)); [apply write_points_outcome|].
  destruct (pystr_eqb training_type (u "parrot")).
  { repeat outcome_step. }
  destruct (pystr_eqb training_type (u "commentary")); [|outcome_step].
  outcome_step. outcome_step.
  eapply outcome_seq; [apply (outcome_fstring_str [u "文の数: "] [])|].
  outcome_step. outcome_step.
  rewrite <- (first_error_none_r (py_format_1f_check _)).
  eapply outcome_seq; [|apply outcome_show].
  rewrite <- py_format_check_1f.
  rewrite <- (fstring_check_fmt _ (u ".1f") [] eq_refl).
  apply (outcome_fstring [Lit (u "平均文字数: "); Fmt _ (u ".1f")]).
Qed.


Lemma runs_to_show (e : UiEvent) : runs_to (show e) tt [e].
Proof. intros w. reflexivity. Qed.

Lemma runs_to_ret {A} (a : A) : runs_to (ret a) a [].
Proof. intros w. reflexivity. Qed.

Lemma runs_to_fstring (t : text) : fstring_check t = None -> runs_to (fstring t) t [].
Proof. intros Ht w. unfold fstring. rewrite Ht. reflexivity. Qed.

Lemma runs_to_bind {A B} (m : M A) (k : A -> M B) (a : A) (b : B) (evs1 evs2 : list UiEvent) :
  runs_to m a evs1 -> runs_to (k a) b evs2 -> runs_to (m ≫= k) b (evs1 ++ evs2).
Proof.
  intros Hm Hk w. unfold mbind, M_bind, bind. rewrite Hm, Hk, add_uis_app. reflexivity.
Qed.

Lemma draws_first_bind {A B} (m : M A) (k : A -> M B) (a : A) (evs1 evs2 : list UiEvent) :
  runs_to m a evs1 -> draws_first (k a) evs2 -> draws_first (m ≫= k) (evs1 ++ evs2).
Proof.
  intros Hm Hk w. unfold mbind, M_bind, bind. rewrite Hm.
  destruct (Hk (add_uis evs1 w)) as [more Hmore]. exists more.
  rewrite Hmore, ui_add_uis, <- !app_assoc. reflexivity.
Qed.

Lemma draws_first_nil {A} (m : M A) : ui_only m -> draws_first m [].
Proof.
  intros Hm w. destruct (ui_only_ui m w Hm) as (evs & _ & Hui). exists evs. exact Hui.
Qed.

Lemma fstring_check_str (t1 t2 : list pystr) (v : pyval) :
  fstring_check (List.map Lit t1 ++ Fmt v [] :: List.map Lit t2) = py_str_check v.
Proof.
  induction t1 as [|l t1 IH]; [|exact IH].
  apply (fstring_check_fmt v []). induction t2 as [|l t2 IH]; [reflexivity | exact IH].
Qed.

(** [display_feedback] first draws the heading and the score it read,
    when the score has a text. *)
Lemma display_feedback_draws_score (L : Libs) (d : list (pystr * pyval))
    (training_type : pystr) :
  py_str_check (field d (u "score") (PInt 0)) = None ->
  draws_first (display_feedback L (PDict d) training_type)
    (score_metric (field d (u "score") (PInt 0))).
Proof.
  intros Hstr. unfold display_feedback. rewrite !py_get_field.
  set (score := field d (u "score") (PInt 0)) in *.
  apply (draws_first_bind _ _ tt [_] [_]); [apply runs_to_show|].
  apply (draws_first_bind _ _ score [] [_]); [apply runs_to_ret|].
  apply (draws_first_bind _ _ [Fmt score []; Lit (u "/100")] [] [_]);
    [apply runs_to_fstring; rewrite <- Hstr; apply (fstring_check_str [] [u "/100"])|].
  rewrite <- (app_nil_r [st_metric _ _]).
  apply (draws_first_bind _ _ tt [_] []); [apply runs_to_show|].
  apply draws_first_nil. unfold call_st_progress. repeat ui_only_step.
Qed.

Ltac run_step :=
  lazymatch goal with
  | |- runs_to (show ?e ≫= _) _ (_ :: ?rest) =>
      apply (runs_to_bind _ _ tt _ [e] rest); [apply runs_to_show | cbv beta]
  | |- runs_to (lift (inr ?a) ≫= _) _ ?evs =>
      apply (runs_to_bind _ _ a _ [] evs); [apply runs_to_ret | cbv beta]
  | |- runs_to (fstring ?t ≫= _) _ ?evs =>
      apply (runs_to_bind _ _ t _ [] evs);
      [apply runs_to_fstring; vm_compute; reflexivity | cbv beta]
  | |- runs_to (show _) _ _ => apply runs_to_show
  | |- runs_to (ret _) _ _ => apply runs_to_ret
  end.

Lemma truediv_0_100 : py_truediv_int (PInt 0) 100 = inr 0%float.
Proof. vm_compute. reflexivity. Qed.

Lemma write_points_none : runs_to (write_points (PList [])) tt [st_write (lit (u "（該当なし）"))].
Proof. unfold write_points. change (py_truthy (PList [])) with false. apply runs_to_show. Qed.

(** The banner of the score 0. *)
Lemma banner_0 :
  runs_to
    (ge60 ← lift (py_ge_int (PInt 0) 60);
     if ge60 : bool then
       banner ← fstring [Lit (u "良い調子です！ スコア: "); Fmt (PInt 0) []; Lit (u "/100")];
       show (st_info banner)
     else
       banner ← fstring [Lit (u "もう少し頑張りましょう！ スコア: "); Fmt (PInt 0) []; Lit (u "/100")];
       show (st_warning banner))
    tt
    [st_warning [Lit (u "もう少し頑張りましょう！ スコア: "); Fmt (PInt 0) []; Lit (u "/100")]].
Proof.
  change (py_ge_int (PInt 0) 60) with (@inr Exception bool false).
  run_step. run_step. run_step.
Qed.

Lemma field_missing (d : list (pystr * pyval)) (k : pystr) (default : pyval) :
  assoc_get k d = None -> field d k default = default.
Proof. intros H. unfold field. rewrite H. reflexivity. Qed.

(** A record without a score is drawn with the score 0 and the banner
    of the low scores, whatever its other fields are. *)
Lemma display_feedback_missing_score (L : Libs) (d : list (pystr * pyval))
    (training_type : pystr) :
  assoc_get (u "score") d = None ->
  draws_first (display_feedback L (PDict d) training_type)
    (score_metric (PInt 0)
     ++ [st_warning [Lit (u "もう少し頑張りましょう！ スコア: "); Fmt (PInt 0) []; Lit (u "/100")]]).
Proof.
  intros Hmiss. unfold display_feedback. rewrite !py_get_field.
  rewrite (field_missing d (u "score") (PInt 0) Hmiss).
  apply (draws_first_bind _ _ tt [_] [_; _]); [apply runs_to_show|].
  apply (draws_first_bind _ _ (PInt 0) [] [_; _]); [apply runs_to_ret|].
  apply (draws_first_bind _ _ [Fmt (PInt 0) []; Lit (u "/100")] [] [_; _]);
    [apply runs_to_fstring; vm_compute; reflexivity|].
  apply (draws_first_bind _ _ tt [_] [_]); [apply runs_to_show|].
  change (py_ge_int (PInt 0) 80) with (@inr Exception bool false).
  apply (draws_first_bind _ _ false [] [_]); [apply runs_to_ret|].
  cbv iota.
  rewrite <- (app_nil_r [st_warning _]).
  apply (draws_first_bind _ _ tt [_] []); [apply banner_0|].
  apply draws_first_nil. unfold call_st_progress. repeat ui_only_step.
Qed.

(** A record with none of the fields read is drawn as the defaults. *)
Lemma display_feedback_empty (L : Libs) (d : list (pystr * pyval)) (training_type : pystr) :
  (forall k, In k (List.map fst feedback_defaults) -> assoc_get k d = None) ->
  st_progress_check L 0%float = None ->
  runs_to (display_feedback L (PDict d) training_type) tt (default_rendering training_type).
Proof.
  intros Hmiss Hprog.
  unfold display_feedback, default_rendering. rewrite !py_get_field.
  rewrite !(field_missing d) by (apply Hmiss; vm_compute; tauto).
  rewrite <- !app_comm_cons.
  run_step. run_step. run_step. run_step.
  change (py_ge_int (PInt 0) 80) with (@inr Exception bool false).
  run_step. cbv iota.
  apply (runs_to_bind _ _ tt _ [_]); [apply banner_0 | cbv beta].
  rewrite truediv_0_100. run_step.
  unfold call_st_progress. rewrite Hprog.
  run_step. run_step. run_step. run_step. run_step. run_step.
  apply (runs_to_bind _ _ tt _ [_]); [apply write_points_none | cbv beta].
  run_step. run_step.
  apply (runs_to_bind _ _ tt _ [_]); [apply write_points_none | cbv beta].
  try rewrite app_nil_l.
  change (py_truthy (PBool false)) with false. cbv iota.
  destruct (pystr_eqb training_type (u "parrot")); [repeat run_step|].
  destruct (pystr_eqb training_type (u "commentary")); [repeat run_step | run_step].
Qed.

(** ** Missing fields *)

Lemma field_cons_default (d : list (pystr * pyval)) (k k' : pystr) (v default : pyval) :
  assoc_get k d = None ->
  field [(k, v)] k' default = default ->
  field ((k, v) :: d) k' default = field d k' default.
Proof.
  unfold field. cbn [assoc_get]. unfold pystr_eqb.
  destruct (bool_decide (k' = k)) eqn:E; [|reflexivity].
  apply bool_decide_eq_true in E. subst k'. intros -> ->. reflexivity.
Qed.

(** A field that is missing is read as the field that holds its
    default. *)
Lemma display_feedback_default_binding (L : Libs) (d : list (pystr * pyval))
    (training_type k : pystr) (v : pyval) :
  In (k, v) feedback_defaults ->
  assoc_get k d = None ->
  display_feedback L (PDict ((k, v) :: d)) training_type
  = display_feedback L (PDict d) training_type.
Proof.
  intros Hin Hmiss. unfold display_feedback. rewrite !py_get_field.
  unfold feedback_defaults in Hin. cbn [In] in Hin.
  repeat (destruct Hin as [Hin|Hin];
          [injection Hin as <- <-;
           rewrite !(field_cons_default d) by first [exact Hmiss | vm_compute; reflexivity];
           reflexivity|]).
  destruct Hin.
Qed.

Lemma pystr_eqb_true (a b : pystr) : pystr_eqb a b = true -> a = b.
Proof. apply bool_decide_eq_true_1. Qed.

Lemma pystr_eqb_false (a b : pystr) : pystr_eqb a b = false -> a <> b.
Proof. apply bool_decide_eq_false_1. Qed.

Lemma pystr_eqb_neq (a b : pystr) : a <> b -> pystr_eqb a b = false.
Proof. apply bool_decide_eq_false_2. Qed.

Lemma assoc_get_without (d : list (pystr * pyval)) (k k' : pystr) :
  assoc_get k' (without k d) = if pystr_eqb k k' then None else assoc_get k' d.
Proof.
  induction d as [|[k0 v0] d IH].
  - destruct (pystr_eqb k k'); reflexivity.
  - unfold without. cbn [List.filter fst].
    change (List.filter _ d) with (without k d).
    destruct (pystr_eqb k k0) eqn:E0; cbn [negb assoc_get].
    + apply pystr_eqb_true in E0. subst k0. rewrite IH.
      destruct (pystr_eqb k k') eqn:E; [reflexivity|].
      apply pystr_eqb_false in E. rewrite (pystr_eqb_neq k' k) by congruence. reflexivity.
    + apply pystr_eqb_false in E0.
      destruct (pystr_eqb k' k0) eqn:E1; [|exact IH].
      apply pystr_eqb_true in E1. subst k0.
      rewrite (pystr_eqb_neq k k') by congruence. reflexivity.
Qed.

Lemma field_without (d : list (pystr * pyval)) (k k' : pystr) (default : pyval) :
  field (without k d) k' default
  = if pystr_eqb k k' then default else field d k' default.
Proof.
  unfold field. rewrite assoc_get_without. destruct (pystr_eqb k k'); reflexivity.
Qed.

Lemma first_error_is_none (a b : option Exception) :
  first_error a b = None <-> a = None /\ b = None.
Proof. destruct a; cbn [first_error]; split; [discriminate | intros [H _]; discriminate H | auto | tauto]. Qed.

Lemma score_error_0 (L : Libs) : st_progress_check L 0%float = None -> score_error L (PInt 0) = None.
Proof.
  intros H. unfold score_error.
  change (py_str_check (PInt 0)) with (@None Exception).
  change (py_ge_int (PInt 0) 80) with (@inr Exception bool false).
  rewrite truediv_0_100. exact H.
Qed.

(** Without one of its fields, a record that is drawn without an
    exception is drawn without an exception. *)
Lemma display_error_without (L : Libs) (d : list (pystr * pyval)) (training_type k : pystr) :
  st_progress_check L 0%float = None ->
  display_error L training_type d = None ->
  display_error L training_type (without k d) = None.
Proof.
  intros Hprog. unfold display_error, details_error. rewrite !field_without.
  rewrite !first_error_is_none. intros (Hs & Hg & Hi & Hd).
  repeat apply conj.
  - destruct (pystr_eqb k (u "score")); [apply score_error_0; exact Hprog | exact Hs].
  - destruct (pystr_eqb k (u "good_points")); [reflexivity | exact Hg].
  - destruct (pystr_eqb k (u "improvements")); [reflexivity | exact Hi].
  - destruct (pystr_eqb training_type (u "parrot")); [reflexivity|].
    destruct (pystr_eqb training_type (u "commentary")); [|reflexivity].
    apply first_error_is_none in Hd as [Hc Ha]. apply first_error_is_none. split.
    + destruct (pystr_eqb k (u "sentence_count")); [vm_compute; reflexivity | exact Hc].
    + destruct (pystr_eqb k (u "avg_sentence_length")); [vm_compute; reflexivity | exact Ha].
Qed.

(** C9 (as the code has it). [display_feedback] reads every field of
    the Feedback with [get] and a default, so that a missing field is
    read as the field that holds its default. The score drawn is the one
    of the record; when the score is missing, whatever the other fields
    are, the page reads [0/100] under the heading, with the banner of
    the low scores. The exceptions of [display_feedback] come from the
    fields that are present: its outcome is the first exception met in
    the values read (a score that has no text, does not compare with an
    [int], does not divide or that [st.progress] rejects; points that
    cannot be iterated or have no text; an average that is not a number
    of the range of a [float]), so that a record drawn without an
    exception is drawn without an exception when a field is taken from
    it, and a record with none of the fields is drawn as the defaults,
    as soon as [st.progress] accepts 0.0. *)
Theorem display_feedback_uses_defaults (L : Libs) (d : list (pystr * pyval))
    (training_type : pystr) (w : World) :
  let run := display_feedback L (PDict d) training_type w in
  (forall k v, In (k, v) feedback_defaults -> assoc_get k d = None ->
     display_feedback L (PDict ((k, v) :: d)) training_type w = run)
  /\ (py_str_check (field d (u "score") (PInt 0)) = None ->
      exists more,
        ui run.2 = ui w ++ score_metric (field d (u "score") (PInt 0)) ++ more)
  /\ (assoc_get (u "score") d = None ->
      (exists more,
         ui run.2 = ui w ++ (score_metric (PInt 0) ++ [low_score_banner (PInt 0)]) ++ more)
      /\ render [Fmt (PInt 0) []; Lit (u "/100")] = Some (u "0/100"))
  /\ run.1 = result_of (display_error L training_type d)
  /\ (st_progress_check L 0%float = None ->
      run.1 = Ret tt ->
      forall k w',
        (display_feedback L (PDict (without k d)) training_type w').1 = Ret tt)
  /\ (st_progress_check L 0%float = None ->
      (forall k, In k (List.map fst feedback_defaults) -> assoc_get k d = None) ->
      run.1 = Ret tt /\ ui run.2 = ui w ++ default_rendering training_type).
Proof.
  intros run. subst run. repeat apply conj.
  - intros k v Hin Hmiss.
    rewrite (display_feedback_default_binding L d training_type k v Hin Hmiss). reflexivity.
  - intros Hstr. apply (display_feedback_draws_score L d training_type Hstr w).
  - intros Hmiss. split; [|vm_compute; reflexivity].
    apply (display_feedback_missing_score L d training_type Hmiss w).
  - apply display_feedback_outcome.
  - intros Hprog Hret k w'.
    rewrite display_feedback_outcome in Hret.
    rewrite display_feedback_outcome.
    rewrite (display_error_without L d training_type k Hprog); [reflexivity|].
    destruct (display_error L training_type d); [discriminate Hret | reflexivity].
  - intros Hprog Hmiss. rewrite (display_feedback_empty L d training_type Hmiss Hprog w).
    split; [reflexivity|]. cbn [snd]. apply ui_add_uis.
Qed.

(** A record with a score and one list of points, from which the score
    is taken, and a record without any of the fields read. *)
Lemma display_feedback_uses_defaults_witness :
  (display_feedback empty_libs
     (PDict (without (u "score")
               [(u "score", PInt 70); (u "good_points", PList [PStr (u "声が大きい")])]))
     (u "commentary") empty_world).1 = Ret tt
  /\ ui (display_feedback empty_libs (PDict [(u "comment", PStr (u "ok"))]) (u "parrot")
           empty_world).2
     = ui empty_world ++ default_rendering (u "parrot").
Proof.
  split.
  - apply (proj1 (proj2 (proj2 (proj2 (proj2
             (display_feedback_uses_defaults empty_libs
                [(u "score", PInt 70); (u "good_points", PList [PStr (u "声が大きい")])]
                (u "commentary") empty_world)))))).
    + vm_compute. reflexivity.
    + vm_compute. reflexivity.
  - apply (proj2 (proj2 (proj2 (proj2 (proj2
             (display_feedback_uses_defaults empty_libs
                [(u "comment", PStr (u "ok"))] (u "parrot") empty_world)))))).
    + vm_compute. reflexivity.
    + intros k Hk. vm_compute in Hk.
      repeat (destruct Hk as [<- | Hk]; [vm_compute; reflexivity|]). destruct Hk.
Defined.

(** C9 (as stated) fails for a record whose score is not a number: the
    completion [{"score": "high"}] parses, the record lacks every other
    field, and [display_feedback] raises [TypeError] at the comparison
    of the score with 80; the handler shows the message of the
    exception as an error. *)
Lemma worded_score_is_an_error :
  json_loads worded_libs (uq "{`score`: `high`}") = inr (PDict worded_score)
  /\ forallb (fun k => match assoc_get k worded_score with None => true | Some _ => false end)
       [u "has_parrot"; u "has_answer"; u "feedback"; u "good_points"; u "improvements"]
     = true
  /\ (display_feedback worded_libs (PDict worded_score) (u "parrot") worded_world).1
     = Raise (TypeError (u "'>=' not supported between instances of 'str' and 'int'"))
  /\ (submit_recording worded_libs (analyze_parrot_response worded_libs) (u "parrot")
        demo_audio worded_world).1 = Ret tt
  /\ feedback
       (session_state
          (submit_recording worded_libs (analyze_parrot_response worded_libs) (u "parrot")
             demo_audio worded_world).2) = Some (PDict worded_score)
  /\ existsb is_st_error
       (ui (submit_recording worded_libs (analyze_parrot_response worded_libs) (u "parrot")
              demo_audio worded_world).2) = true
  /\ last (ui (submit_recording worded_libs (analyze_parrot_response worded_libs)
                 (u "parrot") demo_audio worded_world).2)
     = Some (submit_error
               (TypeError (u "'>=' not supported between instances of 'str' and 'int'"))).
Proof. repeat apply conj; vm_compute; reflexivity. Qed.

(** The sibling path: when transcription, analysis and drawing all
    succeed, the handler reaches [os.remove] and the recording is gone
    after the run. *)
Lemma submit_recording_success_removes (L : Libs) (d : drill) (audio : pybytes)
    (w w1 w2 : World) (path text : pystr) (ai : SpeechTrainingAI) (q : option pystr)
    (resp : ChatCompletion) (ch : Choice) (rest : list Choice) (c : pystr) (fb : pyval) :
  save_audio_file audio default_filename w = (Ret path, w1) ->
  ai_client (session_state w) = Some ai ->
  current_question (session_state w) = Some q ->
  transcribe_audio ai path w1 = (Ret text, w2) ->
  chat_completions_create (client ai) (api_log w2)
    (analysis_request (analysis_prompt d (py_str_opt q) text)) = inr resp ->
  choices resp = ch :: rest ->
  message_content ch = Some c ->
  json_loads L c = inr fb ->
  (forall w0, (display_feedback L fb (drill_tag d) w0).1 = Ret tt) ->
  (submit_recording L (analyze L d) (drill_tag d) audio w).1 = Ret tt
  /\ fs_files (submit_recording L (analyze L d) (drill_tag d) audio w).2
       !! recorded_audio_path = None
  /\ feedback (session_state (submit_recording L (analyze L d) (drill_tag d) audio w).2)
     = Some fb.
Proof.
  intros Hsave Hai Hq Htr Hresp Hch Hc Hfb Hshow.
  destruct (save_audio_file_ok _ _ _ _ Hsave) as (-> & Hread & Hs1 & _).
  destruct (transcribe_audio_effect _ _ _ _ _ Htr) as (Hs2 & _ & Hf2 & Hd2 & _).
  rewrite (submit_recording_until_analysis L _ _ _ _ _ _ _ _ _ _ Hsave Hai Hq Htr).
  rewrite analyze_run. cbv zeta.
  change (api_log (before_analysis text w2)) with (api_log w2).
  rewrite Hresp. unfold decoded_completion. rewrite Hch, Hc, Hfb. cbn [relabel].
  unfold mbind, M_bind, bind.
  change (set_feedback fb ?w0) with
    (Ret tt, with_session_state
               (mkSessionState (ai_client (session_state w0))
                  (current_question (session_state w0))
                  (transcribed_text (session_state w0)) (Some fb)) w0).
  set (w5 := with_session_state _ _).
  specialize (Hshow w5).
  destruct (display_feedback_ui_only L fb (drill_tag d) w5) as [evs Hevs].
  destruct (display_feedback L fb (drill_tag d) w5) as [o w6].
  cbn [fst snd] in Hshow, Hevs. subst o w6.
  destruct (add_uis_fs evs w5) as (Hf6 & Hd6 & Hs6).
  assert (Hread6 : read_file (add_uis evs w5) recorded_audio_path = inr audio).
  { unfold read_file in *. rewrite Hf6, Hd6. subst w5.
    cbn [fs_files fs_dirs with_session_state add_call before_analysis add_ui].
    rewrite Hf2, Hd2. exact Hread. }
  unfold os_remove, mbind, M_bind, bind, get_world, set_fs, raise.
  unfold read_file in Hread6.
  destruct (bool_decide (recorded_audio_path ∈ fs_dirs (add_uis evs w5)));
    [discriminate Hread6|].
  destruct (fs_files (add_uis evs w5) !! recorded_audio_path); [|discriminate Hread6].
  cbn [fst snd fs_files with_fs session_state].
  repeat apply conj; [reflexivity | apply lookup_delete_eq |].
  rewrite Hs6. reflexivity.
Qed.

(** ** The pages run the handler *)

(** With a question in the session and a recording, a click on the
    analysis button makes [parrot_training] run the handler with
    [analyze_parrot_response]. *)
Lemma parrot_training_submits (L : Libs) (mode : pystr) (x : N) (question : pystr)
    (a : N) (audio : pybytes) (w : World) :
  current_question (session_state w) = Some (Some (x :: question)) ->
  parrot_training L (mkInputs mode false (Some (a :: audio)) true) w
  = submit_recording L (analyze L ParrotRepeat) (drill_tag ParrotRepeat) (a :: audio)
      (add_uis (parrot_page (x :: question) (a :: audio)) w).
Proof.
  intros Hq.
  unfold parrot_training, when, mbind, M_bind, bind, show.
  cbn [in_generate_clicked in_audio_bytes in_analyze_clicked].
  unfold ret at 1. rewrite session_attr_run.
  cbn [session_state add_ui]. rewrite Hq. cbn [truthy_opt].
  rewrite session_attr_run. cbn [session_state add_ui]. rewrite Hq. reflexivity.
Qed.

(** The same for [commentary_training] and [analyze_live_commentary]. *)
Lemma commentary_training_submits (L : Libs) (mode : pystr) (x : N) (question : pystr)
    (a : N) (audio : pybytes) (w : World) :
  current_question (session_state w) = Some (Some (x :: question)) ->
  commentary_training L (mkInputs mode false (Some (a :: audio)) true) w
  = submit_recording L (analyze L LiveCommentary) (drill_tag LiveCommentary) (a :: audio)
      (add_uis (commentary_page (x :: question) (a :: audio)) w).
Proof.
  intros Hq.
  unfold commentary_training, when, mbind, M_bind, bind, show.
  cbn [in_generate_clicked in_audio_bytes in_analyze_clicked].
  unfold ret at 1. rewrite session_attr_run.
  cbn [session_state add_ui]. rewrite Hq. cbn [truthy_opt].
  rewrite session_attr_run. cbn [session_state add_ui]. rewrite Hq. reflexivity.
Qed.

(** ** The end-to-end scenario *)

(** Drill parrot-repeat, with the question and the transcript of the
    scenario and a service that answers [scenario_json]: the page shows
    the score 85 and both flags as achieved, the feedback is stored and
    the recording is removed. *)
Example end_to_end_parrot :
  (parrot_training scenario_libs (mkInputs (u "オウム返し訓練") false (Some demo_audio) true)
     scenario_world).1 = Ret tt
  /\ In (st_metric (u "スコア") [Fmt (PInt 85) []; Lit (u "/100")])
        (ui (parrot_training scenario_libs
               (mkInputs (u "オウム返し訓練") false (Some demo_audio) true)
               scenario_world).2)
  /\ In (st_write (lit (u "質問の復唱: ✅ できている")))
        (ui (parrot_training scenario_libs
               (mkInputs (u "オウム返し訓練") false (Some demo_audio) true)
               scenario_world).2)
  /\ In (st_write (lit (u "回答の提示: ✅ できている")))
        (ui (parrot_training scenario_libs
               (mkInputs (u "オウム返し訓練") false (Some demo_audio) true)
               scenario_world).2)
  /\ feedback
       (session_state
          (parrot_training scenario_libs
             (mkInputs (u "オウム返し訓練") false (Some demo_audio) true)
             scenario_world).2) = Some scenario_feedback
  /\ fs_files
       (parrot_training scenario_libs
          (mkInputs (u "オウム返し訓練") false (Some demo_audio) true)
          scenario_world).2 !! recorded_audio_path = None.
Proof.
  repeat apply conj; try (vm_compute; reflexivity);
    vm_compute; repeat (first [left; reflexivity | right]).
Qed.

(** * Further properties *)

(** ** Files *)

Lemma audio_path_not_dir (filename : pystr) : audio_path filename <> audio_dir.
Proof.
  unfold audio_path. intros H. apply (f_equal (@length N)) in H.
  rewrite !length_app in H.
  assert (Hl : length (u "/") = 1%nat) by (vm_compute; reflexivity).
  rewrite Hl in H. lia.
Qed.

Lemma audio_path_in_dirs (filename : pystr) (dirs : gset pystr) :
  audio_path filename ∈ {[audio_dir]} ∪ dirs <-> audio_path filename ∈ dirs.
Proof.
  rewrite elem_of_union, elem_of_singleton.
  pose proof (audio_path_not_dir filename) as Hne. tauto.
Qed.

Lemma save_audio_file_run (audio : pybytes) (filename : pystr) (w : World) :
  save_audio_file audio filename w =
  match fs_files w !! audio_dir with
  | Some _ => (Raise (FileExistsError audio_dir), w)
  | None =>
      if bool_decide (audio_path filename ∈ fs_dirs w)
      then (Raise (IsADirectoryError (audio_path filename)),
            with_fs ({[audio_dir]} ∪ fs_dirs w) (fs_files w) w)
      else (Ret (audio_path filename),
            with_fs ({[audio_dir]} ∪ fs_dirs w)
              (<[audio_path filename := audio]> (fs_files w)) w)
  end.
Proof.
  unfold save_audio_file, mkdir_exist_ok, write_wb, mbind, M_bind, bind, get_world, set_fs,
    ret, raise.
  fold audio_dir. fold (audio_path filename).
  destruct (fs_files w !! audio_dir); [reflexivity|].
  cbn [fs_dirs fs_files with_fs].
  assert (Hiff : bool_decide (audio_path filename ∈ ({[audio_dir]} ∪ fs_dirs w : gset pystr))
                 = bool_decide (audio_path filename ∈ fs_dirs w)).
  { apply bool_decide_ext, audio_path_in_dirs. }
  rewrite Hiff. destruct (bool_decide (audio_path filename ∈ fs_dirs w)); reflexivity.
Qed.

Lemma add_uis_api_log (evs : list UiEvent) (w : World) :
  api_log (add_uis evs w) = api_log w.
Proof.
  revert w. induction evs as [|ev evs IH]; intros w; [reflexivity|].
  cbn [add_uis fold_left]. fold (add_uis evs (add_ui ev w)). rewrite IH. reflexivity.
Qed.

(** What a successful [save_audio_file] leaves alone. *)
Lemma save_audio_file_round_trip_frame (audio : pybytes) (w w1 : World) (path : pystr) :
  save_audio_file audio default_filename w = (Ret path, w1) ->
  (forall other, other <> path -> fs_files w1 !! other = fs_files w !! other)
  /\ session_state w1 = session_state w
  /\ api_log w1 = api_log w.
Proof.
  rewrite save_audio_file_run.
  destruct (fs_files w !! audio_dir); [discriminate|].
  destruct (bool_decide (audio_path default_filename ∈ fs_dirs w)); [discriminate|].
  intros [= <- <-]. cbn [fs_files with_fs session_state api_log].
  split; [intros other Hother; apply lookup_insert_ne; congruence | auto].
Qed.





(** X3. A second recording replaces the first: saving again under the
    same name leaves the world that saving the second recording alone
    leaves. *)
Theorem save_audio_file_overwrites (first second : pybytes) (filename path : pystr)
    (w w1 : World) :
  save_audio_file first filename w = (Ret path, w1) ->
  save_audio_file second filename w1 = save_audio_file second filename w.
Proof.
  rewrite !save_audio_file_run.
  destruct (fs_files w !! audio_dir) eqn:Hfile; [discriminate|].
  destruct (bool_decide (audio_path filename ∈ fs_dirs w)) eqn:Hdir; [discriminate|].
  intros [= _ <-]. cbn [fs_dirs fs_files with_fs].
  rewrite lookup_insert_ne by apply audio_path_not_dir. rewrite Hfile.
  assert (Hnot : bool_decide (audio_path filename
                                ∈ ({[audio_dir]} ∪ fs_dirs w : gset pystr)) = false).
  { apply bool_decide_eq_false. apply bool_decide_eq_false in Hdir.
    rewrite audio_path_in_dirs. exact Hdir. }
  rewrite Hnot. unfold with_fs. cbn [environ fs_dirs fs_files session_state ui api_log].
  rewrite insert_insert_eq.
  rewrite (assoc_L (∪)), (idemp_L (∪)). reflexivity.
Qed.

Lemma save_audio_file_overwrites_witness :
  save_audio_file [1; 2] default_filename
    (save_audio_file demo_audio default_filename world0).2
  = save_audio_file [1; 2] default_filename world0.
Proof.
  apply (save_audio_file_overwrites demo_audio [1; 2] default_filename
           recorded_audio_path world0).
  vm_compute. reflexivity.
Defined.

(** ** The adapter *)

(** X4. [transcribe_audio] on a path that names no file raises the
    labelled [FileNotFoundError] message without sending any request:
    the world is unchanged. *)
Theorem transcribe_audio_missing_file (self : SpeechTrainingAI) (path : pystr) (w : World) :
  path ∉ fs_dirs w ->
  fs_files w !! path = None ->
  transcribe_audio self path w
  = (Raise (Exception_ (transcription_label ++ u "[Errno 2] No such file or directory"
                          ++ u ": '" ++ path ++ u "'")), w).
Proof.
  intros Hdir Hfile. rewrite transcribe_audio_run. unfold read_file.
  rewrite bool_decide_eq_false_2 by assumption. rewrite Hfile. reflexivity.
Qed.

Lemma transcribe_audio_missing_file_witness :
  api_log (transcribe_audio (demo_ai (client_answering (u "{}"))) recorded_audio_path
             world0).2 = [].
Proof.
  rewrite (transcribe_audio_missing_file (demo_ai (client_answering (u "{}")))
             recorded_audio_path world0); [reflexivity | | reflexivity].
  vm_compute. discriminate.
Defined.

(** X5. When the file exists and the service answers, [transcribe_audio]
    returns the recognised text as it is, after exactly one request that
    carries the content of the file, the model [whisper-1] and the
    language [ja]; nothing but the log of calls changes. *)
Theorem transcribe_audio_success (self : SpeechTrainingAI) (path : pystr) (data : pybytes)
    (t : Transcription) (w : World) :
  read_file w path = inr data ->
  audio_transcriptions_create (client self) (api_log w) (transcription_request data)
    = inr t ->
  transcribe_audio self path w
  = (Ret (transcription_text t),
     add_call (AudioTranscriptionsCreate (transcription_request data)) w).
Proof.
  intros Hread Ht. rewrite transcribe_audio_run, Hread. cbv zeta.
  fold (transcription_request data). rewrite Ht. reflexivity.
Qed.

Lemma transcribe_audio_success_witness :
  (transcribe_audio (demo_ai (client_answering (u "{}"))) recorded_audio_path
     (save_audio_file demo_audio default_filename world0).2).1 = Ret demo_transcript.
Proof.
  rewrite (transcribe_audio_success (demo_ai (client_answering (u "{}")))
             recorded_audio_path demo_audio (mkTranscription demo_transcript)
             (save_audio_file demo_audio default_filename world0).2);
    [reflexivity | vm_compute; reflexivity | reflexivity].
Defined.

(** X6. An analysis method and [generate_question] send exactly one
    request, whatever the service answers (no second attempt after a
    fault), and change nothing else in the world. *)
Theorem adapter_sends_one_request (L : Libs) (self : SpeechTrainingAI) (w : World) :
  (forall d prompt transcript,
      (analyze L d self prompt transcript w).2
      = add_call (ChatCompletionsCreate
                    (analysis_request (analysis_prompt d prompt transcript))) w)
  /\ (forall training_type,
      (generate_question self training_type w).2
      = add_call (ChatCompletionsCreate
                    (question_request (generate_question_prompt training_type))) w).
Proof.
  split.
  - intros d prompt transcript. rewrite analyze_run. reflexivity.
  - intros training_type. rewrite generate_question_run. reflexivity.
Qed.

(** X7. A completion without choices, or whose first choice has no
    content, is reported like any other fault: the analysis methods and
    [generate_question] raise their labelled [Exception] with the
    message of the [IndexError], [TypeError] or [AttributeError] met,
    and [json.loads] has no say. *)
Theorem empty_completion_is_a_fault (L : Libs) (self : SpeechTrainingAI) (w : World) :
  (forall d prompt transcript rest,
      (chat_completions_create (client self) (api_log w)
         (analysis_request (analysis_prompt d prompt transcript))
       = inr (mkChatCompletion []) ->
       (analyze L d self prompt transcript w).1
       = Raise (Exception_ (analysis_label ++ u "list index out of range")))
      /\ (chat_completions_create (client self) (api_log w)
            (analysis_request (analysis_prompt d prompt transcript))
          = inr (mkChatCompletion (mkChoice None :: rest)) ->
          (analyze L d self prompt transcript w).1
          = Raise (Exception_
                     (analysis_label
                      ++ u "the JSON object must be str, bytes or bytearray, not NoneType"))))
  /\ (forall training_type rest,
      (chat_completions_create (client self) (api_log w)
         (question_request (generate_question_prompt training_type))
       = inr (mkChatCompletion []) ->
       (generate_question self training_type w).1
       = Raise (Exception_ (generation_label ++ u "list index out of range")))
      /\ (chat_completions_create (client self) (api_log w)
            (question_request (generate_question_prompt training_type))
          = inr (mkChatCompletion (mkChoice None :: rest)) ->
          (generate_question self training_type w).1
          = Raise (Exception_
                     (generation_label
                      ++ u "'NoneType' object has no attribute 'strip'")))).
Proof.
  split.
  - intros d prompt transcript rest. rewrite analyze_run. cbv zeta. cbn [fst].
    split; intros ->; reflexivity.
  - intros training_type rest. rewrite generate_question_run. cbv zeta. cbn [fst].
    split; intros ->; reflexivity.
Qed.

Lemma empty_completion_is_a_fault_witness :
  (generate_question (demo_ai client_mute) (u "parrot") world0).1
  = Raise (Exception_ (generation_label ++ u "list index out of range")).
Proof.
  apply (proj1 (proj2 (empty_completion_is_a_fault (stub_libs client_mute)
                         (demo_ai client_mute) world0) (u "parrot") [])).
  reflexivity.
Defined.

(** X8. The constructor prefers its argument: a non-empty [api_key]
    makes the client whatever the environment holds, and an argument
    that is [None] or empty leaves the choice to [OPENAI_API_KEY]. *)
Theorem init_prefers_argument (L : Libs) (w : World) :
  (forall c key,
      SpeechTrainingAI__init__ L (Some (c :: key)) w
      = (Ret (mkSpeechTrainingAI (c :: key) (OpenAI_new L (c :: key))), w))
  /\ (forall api_key (c : N) (key : pystr),
      truthy_opt api_key = false ->
      (environ w !! credential_name : option pystr) = Some (c :: key) ->
      SpeechTrainingAI__init__ L api_key w
      = (Ret (mkSpeechTrainingAI (c :: key) (OpenAI_new L (c :: key))), w)).
Proof.
  split.
  - intros c key. rewrite init_run. reflexivity.
  - intros api_key c key Hk He. rewrite init_run.
    destruct api_key as [[|x k]|]; try discriminate Hk; cbn [py_or]; rewrite He; reflexivity.
Qed.

Lemma init_prefers_argument_witness :
  api_key <$> match (SpeechTrainingAI__init__ (stub_libs client_offline) (Some [])
                       world_with_key).1 with
              | Ret ai => Some ai
              | _ => None
              end
  = Some (u "sk-env").
Proof.
  assert (Hkey : exists c key, u "sk-env" = c :: key) by (vm_compute; eauto).
  destruct Hkey as (c & key & Hkey).
  rewrite (proj2 (init_prefers_argument (stub_libs client_offline) world_with_key)
             (Some []) c key eq_refl).
  - cbn [fst fmap option_fmap option_map api_key]. rewrite Hkey. reflexivity.
  - rewrite <- Hkey. vm_compute. reflexivity.
Defined.

Lemma py_lstrip_all_space (s : pystr) : forallb py_isspace s = true -> py_lstrip s = [].
Proof.
  induction s as [|c s IH]; [reflexivity|].
  cbn [forallb py_lstrip]. intros [Hc Hs]%andb_true_iff. rewrite Hc. auto.
Qed.

(** X9. For a completion made of white space only, [generate_question]
    returns the empty string. *)
Theorem generate_question_blank_completion (self : SpeechTrainingAI) (training_type : pystr)
    (w : World) (resp : ChatCompletion) (ch : Choice) (rest : list Choice) (c : pystr) :
  chat_completions_create (client self) (api_log w)
    (question_request (generate_question_prompt training_type)) = inr resp ->
  choices resp = ch :: rest ->
  message_content ch = Some c ->
  forallb py_isspace c = true ->
  (generate_question self training_type w).1 = Ret [].
Proof.
  intros Hresp Hch Hc Hspace. rewrite generate_question_run. cbv zeta. cbn [fst].
  rewrite Hresp. unfold stripped_completion. rewrite Hch, Hc. cbn [relabel].
  unfold py_strip, py_rstrip. rewrite (py_lstrip_all_space c Hspace). reflexivity.
Qed.

Lemma generate_question_blank_completion_witness :
  (generate_question (demo_ai (client_answering (u "  　 "))) (u "parrot") world0).1
  = Ret [].
Proof.
  apply (generate_question_blank_completion (demo_ai (client_answering (u "  　 ")))
           (u "parrot") world0 (completion (u "  　 ")) (mkChoice (Some (u "  　 "))) []
           (u "  　 ")); reflexivity.
Defined.

(** ** The start of the script, again *)

(** What a run of [initialize] leaves. *)
Lemma initialize_effect (L : Libs) (w w' : World) (r : outcome unit) :
  initialize L w = (r, w') ->
  (r = Ret tt \/ r = Control StopException)
  /\ (r = Ret tt ->
      session_ready (session_state w')
      /\ (forall ai, ai_client (session_state w) = Some ai ->
                     ai_client (session_state w') = Some ai)
      /\ (forall q, current_question (session_state w) = Some q ->
                    current_question (session_state w') = Some q)
      /\ (forall t, transcribed_text (session_state w) = Some t ->
                    transcribed_text (session_state w') = Some t)
      /\ (forall f, feedback (session_state w) = Some f ->
                    feedback (session_state w') = Some f))
  /\ fs_files w' = fs_files w
  /\ fs_dirs w' = fs_dirs w
  /\ api_log w' = api_log w.
Proof.
  destruct w as [env dirs files [a q t f] evs log].
  unfold initialize, try_except_cls, when, mbind, M_bind, bind, show.
  rewrite !get_session_state_run. cbn [session_state add_ui ai_client].
  destruct a as [ai|].
  - rewrite bool_decide_eq_false_2 by discriminate. unfold ret at 1.
    rewrite !get_session_state_run. cbn [session_state current_question].
    destruct q, t, f; intros [= <- <-];
      (split; [left; reflexivity|]); (split; [|split; [|split]; reflexivity]);
      intros _; unfold session_ready; cbn; repeat split; eauto; discriminate.
  - rewrite bool_decide_eq_true_2 by reflexivity. rewrite init_run.
    cbn [py_or environ add_ui].
    destruct (env !! credential_name) as [[|c key]|].
    + intros [= <- <-].
      split; [right; reflexivity|]. split; [discriminate|]. repeat split.
    + unfold set_ai_client, mbind, M_bind, bind. rewrite !get_session_state_run.
      cbn [session_state set_session_state with_session_state current_question
             transcribed_text feedback ai_client].
      destruct q, t, f; intros [= <- <-];
        (split; [left; reflexivity|]); (split; [|split; [|split]; reflexivity]);
        intros _; unfold session_ready; cbn; repeat split; eauto; discriminate.
    + intros [= <- <-].
      split; [right; reflexivity|]. split; [discriminate|]. repeat split.
Qed.

(** X10. When [initialize] returns, the four keys of the session are
    present and every key that was present has kept its value; it ends
    in no other way than by returning or by stopping the script, and it
    touches neither the files nor the log of calls. *)
Theorem initialize_establishes_session (L : Libs) (w w' : World) (r : outcome unit) :
  initialize L w = (r, w') ->
  (r = Ret tt \/ r = Control StopException)
  /\ (r = Ret tt ->
      session_ready (session_state w')
      /\ (forall ai, ai_client (session_state w) = Some ai ->
                     ai_client (session_state w') = Some ai)
      /\ (forall q, current_question (session_state w) = Some q ->
                    current_question (session_state w') = Some q)
      /\ (forall t, transcribed_text (session_state w) = Some t ->
                    transcribed_text (session_state w') = Some t)
      /\ (forall f, feedback (session_state w) = Some f ->
                    feedback (session_state w') = Some f))
  /\ fs_files w' = fs_files w
  /\ fs_dirs w' = fs_dirs w
  /\ api_log w' = api_log w.
Proof. apply initialize_effect. Qed.

Lemma initialize_establishes_session_witness :
  session_ready (session_state (initialize (stub_libs client_offline) world_with_key).2).
Proof.
  apply (proj1 (proj2 (initialize_establishes_session (stub_libs client_offline)
                         world_with_key
                         (initialize (stub_libs client_offline) world_with_key).2 (Ret tt)
                         ltac:(vm_compute; reflexivity))) eq_refl).
Defined.

(** X11. On a session that holds the four keys, [initialize] draws the
    page configuration and does nothing else: no client is built, the
    credential is not looked up again, and the session is untouched. *)
Theorem initialize_keeps_session (L : Libs) (w : World) :
  session_ready (session_state w) ->
  initialize L w = (Ret tt, add_ui page_config w).
Proof.
  intros ([ai Ha] & [q Hq] & [t Ht] & [f Hf]).
  unfold initialize, when, mbind, M_bind, bind, show.
  rewrite !get_session_state_run. cbn [session_state add_ui]. rewrite Ha.
  rewrite bool_decide_eq_false_2 by discriminate. unfold ret at 1.
  rewrite !get_session_state_run. cbn [session_state add_ui]. rewrite Hq.
  rewrite bool_decide_eq_false_2 by discriminate. unfold ret at 1.
  rewrite !get_session_state_run. cbn [session_state add_ui]. rewrite Ht.
  rewrite bool_decide_eq_false_2 by discriminate. unfold ret at 1.
  rewrite !get_session_state_run. cbn [session_state add_ui]. rewrite Hf.
  rewrite bool_decide_eq_false_2 by discriminate. reflexivity.
Qed.

Lemma initialize_keeps_session_witness :
  initialize (stub_libs client_offline) deaf_world = (Ret tt, add_ui page_config deaf_world).
Proof.
  apply (initialize_keeps_session (stub_libs client_offline) deaf_world).
  unfold session_ready. cbn. repeat split; eauto.
Defined.

(** ** The pages *)

(** A page is its top, the step of the generation button and the
    section of the question. *)
Lemma page_training_parts (L : Libs) (p : page) (inp : Inputs) (w : World) :
  page_training L p inp w =
  match (if in_generate_clicked inp
         then generate_step L (drill_tag (page_drill p)) (page_error_label p)
                (add_uis (page_top p) w)
         else (Ret tt, add_uis (page_top p) w)) with
  | (Ret _, w1) =>
      question_section L (page_info_prefix p) (page_color p) (page_warning p)
        (analyze L (page_drill p)) (drill_tag (page_drill p)) inp w1
  | (Raise e, w1) => (Raise e, w1)
  | (Control c, w1) => (Control c, w1)
  end.
Proof.
  destruct p; cbn [page_training page_drill page_top page_error_label page_info_prefix
                     page_color page_warning drill_tag analyze];
    [unfold parrot_training | unfold commentary_training];
    unfold when, mbind at 1 2 3 4, M_bind at 1 2 3 4, bind at 1 2 3 4, show at 1 2 3;
    destruct (in_generate_clicked inp); reflexivity.
Qed.

Lemma generate_step_run (L : Libs) (tag error_label : pystr) (w : World) :
  generate_step L tag error_label w =
  match ai_client (session_state w) with
  | None =>
      (Ret tt,
       add_ui (st_error (lit (error_label
                              ++ exc_str (st_session_state_missing L (u "ai_client"))))) w)
  | Some ai =>
      let req := question_request (generate_question_prompt tag) in
      match stripped_completion (chat_completions_create (client ai) (api_log w) req) with
      | inl e =>
          (Ret tt,
           add_ui (st_error (lit (error_label ++ generation_label ++ exc_str e)))
             (add_call (ChatCompletionsCreate req) w))
      | inr question =>
          (Control RerunException,
           with_session_state (fresh_session ai question)
             (add_call (ChatCompletionsCreate req) w))
      end
  end.
Proof.
  unfold generate_step, try_except, mbind, M_bind, bind. rewrite session_attr_run.
  destruct (ai_client (session_state w)) as [ai|] eqn:Hai; [|reflexivity].
  rewrite generate_question_run. cbv zeta.
  destruct (stripped_completion _) as [e|question]; [reflexivity|].
  cbn [relabel]. unfold set_current_question, set_transcribed_text, set_feedback,
    mbind, M_bind, bind.
  rewrite !get_session_state_run.
  cbn [set_session_state with_session_state session_state add_call ai_client
         current_question transcribed_text feedback].
  rewrite Hai. reflexivity.
Qed.

Lemma question_section_run (L : Libs) (info_prefix neutral_color warning : pystr)
    (analyze : SpeechTrainingAI -> pystr -> pystr -> M pyval) (tag : pystr)
    (inp : Inputs) (w : World) (q : option pystr) :
  current_question (session_state w) = Some q ->
  question_section L info_prefix neutral_color warning analyze tag inp w =
  if truthy_opt q then
    let w1 := add_uis [ st_info (lit (info_prefix ++ py_str_opt q));
                        st_markdown (lit (u "### 🎤 音声を録音"));
                        st_write (lit (u "マイクボタンをクリックして録音を開始してください。もう一度クリックすると録音が停止します。"));
                        audio_recorder_widget neutral_color ] w in
    match in_audio_bytes inp with
    | Some ((_ :: _) as audio) =>
        if in_analyze_clicked inp
        then submit_recording L analyze tag audio (add_uis (page_audio audio) w1)
        else (Ret tt, add_uis (page_audio audio) w1)
    | _ => (Ret tt, w1)
    end
  else (Ret tt, add_ui (st_warning (lit warning)) w).
Proof.
  intros Hq. unfold question_section, mbind, M_bind, bind.
  rewrite session_attr_run, Hq. destruct (truthy_opt q); [|reflexivity].
  rewrite session_attr_run, Hq. unfold show, when.
  destruct (in_audio_bytes inp) as [[|a audio]|]; try reflexivity.
  destruct (in_analyze_clicked inp); reflexivity.
Qed.

Lemma try_except_show_never_raises {A} (body : M A) (f : Exception -> M A) (w : World) :
  (forall e w', never_raises (f e) w') -> never_raises (try_except body f) w.
Proof.
  intros Hf e. unfold try_except. destruct (body w) as [[a|e'|c] w']; cbn [fst];
    try discriminate. apply Hf.
Qed.

Lemma show_never_raises (ev : UiEvent) (w : World) : never_raises (show ev) w.
Proof. intros e. discriminate. Qed.

Lemma submit_recording_never_raises (L : Libs)
    (analyze : SpeechTrainingAI -> pystr -> pystr -> M pyval) (tag : pystr)
    (audio : pybytes) (w : World) :
  never_raises (submit_recording L analyze tag audio) w.
Proof.
  unfold submit_recording. apply try_except_show_never_raises.
  intros e w'. apply show_never_raises.
Qed.

Lemma question_section_never_raises (L : Libs) (info_prefix neutral_color warning : pystr)
    (analyze : SpeechTrainingAI -> pystr -> pystr -> M pyval) (tag : pystr)
    (inp : Inputs) (w : World) :
  is_Some (current_question (session_state w)) ->
  never_raises (question_section L info_prefix neutral_color warning analyze tag inp) w.
Proof.
  intros [q Hq] e. rewrite (question_section_run _ _ _ _ _ _ _ _ q Hq).
  destruct (truthy_opt q); [|discriminate]. cbv zeta.
  destruct (in_audio_bytes inp) as [[|a audio]|]; try discriminate.
  destruct (in_analyze_clicked inp); [|discriminate].
  apply submit_recording_never_raises.
Qed.

(** A page whose session holds the key of the question ends without an
    exception. *)
Lemma page_training_never_raises (L : Libs) (p : page) (inp : Inputs) (w : World) :
  is_Some (current_question (session_state w)) ->
  never_raises (page_training L p inp) w.
Proof.
  intros Hq e. rewrite page_training_parts.
  assert (Hs : forall evs, session_state (add_uis evs w) = session_state w)
    by (intros evs; apply add_uis_fs).
  destruct (in_generate_clicked inp).
  - rewrite generate_step_run. rewrite Hs.
    destruct (ai_client (session_state w)) as [ai|].
    + cbv zeta. destruct (stripped_completion _) as [e'|question]; [|discriminate].
      apply question_section_never_raises.
      cbn [session_state add_ui add_call]. rewrite Hs. exact Hq.
    + apply question_section_never_raises.
      cbn [session_state add_ui]. rewrite Hs. exact Hq.
  - apply question_section_never_raises. rewrite Hs. exact Hq.
Qed.

Lemma main_run (L : Libs) (inp : Inputs) (w : World) :
  main L inp w
  = page_training L (selected_page (in_training_mode inp)) inp (add_uis main_top w).
Proof.
  unfold main, selected_page, mbind, M_bind, bind, show.
  destruct (pystr_eqb (in_training_mode inp) (u "オウム返し訓練")); reflexivity.
Qed.

(** X12. A run of the script never ends with an exception that nothing
    catches, whatever the service, the decoder, [st.progress] and the
    widgets do: every fault ends as a message on the page, or stops the
    script for want of a credential. *)
Theorem app_never_raises (L : Libs) (inp : Inputs) (w : World) (e : Exception) :
  (app L inp w).1 <> Raise e.
Proof.
  unfold app, mbind, M_bind, bind.
  destruct (initialize L w) as [r w1] eqn:Hinit.
  destruct (initialize_effect L w w1 r Hinit) as ([-> | ->] & Hready & _);
    [|discriminate].
  destruct (Hready eq_refl) as ((_ & Hq & _) & _).
  rewrite main_run.
  apply page_training_never_raises.
  assert (Hs : session_state (add_uis main_top w1) = session_state w1)
    by apply add_uis_fs.
  rewrite Hs. exact Hq.
Qed.

Example script_run_offline :
  (app (stub_libs client_offline)
     (mkInputs (u "オウム返し訓練") true (Some demo_audio) true) world_with_key).1 = Ret tt.
Proof. vm_compute. reflexivity. Qed.

(** X13. While the session holds no question ([None], or the empty
    string), a page on which the generation button is not clicked draws
    its top and the warning that asks for a prompt, and nothing else:
    no recorder, and no handler even if a recording and a click on the
    analysis button come with the run. *)
Theorem page_without_question (L : Libs) (p : page) (inp : Inputs) (w : World)
    (q : option pystr) :
  in_generate_clicked inp = false ->
  current_question (session_state w) = Some q ->
  truthy_opt q = false ->
  page_training L p inp w
  = (Ret tt, add_uis (page_top p ++ [st_warning (lit (page_warning p))]) w).
Proof.
  intros Hgen Hq Hfalse. rewrite page_training_parts, Hgen.
  rewrite (question_section_run _ _ _ _ _ _ _ _ q)
    by (rewrite <- Hq; f_equal; apply add_uis_fs).
  rewrite Hfalse, add_uis_app. reflexivity.
Qed.

Lemma page_without_question_witness :
  api_log (page_training deaf_libs ParrotPage
             (mkInputs (u "オウム返し訓練") false (Some demo_audio) true) blank_world).2 = [].
Proof.
  rewrite (page_without_question deaf_libs ParrotPage
             (mkInputs (u "オウム返し訓練") false (Some demo_audio) true) blank_world
             (Some [])); reflexivity.
Defined.

(** X14. A page runs the handler of a recording only with a question, a
    non-empty recording and a click on the analysis button: without a
    click on either button, or without a recording, the run returns and
    changes nothing but the page. *)
Theorem page_only_draws (L : Libs) (p : page) (inp : Inputs) (w : World) :
  in_generate_clicked inp = false ->
  is_Some (current_question (session_state w)) ->
  in_analyze_clicked inp = false \/ in_audio_bytes inp = None \/ in_audio_bytes inp = Some [] ->
  exists evs, page_training L p inp w = (Ret tt, add_uis evs w).
Proof.
  intros Hgen [q Hq] Hidle. rewrite page_training_parts, Hgen.
  rewrite (question_section_run _ _ _ _ _ _ _ _ q)
    by (rewrite <- Hq; f_equal; apply add_uis_fs).
  destruct (truthy_opt q).
  - cbv zeta. destruct (in_audio_bytes inp) as [[|a audio]|] eqn:Haudio.
    + eexists. rewrite <- add_uis_app. reflexivity.
    + destruct Hidle as [-> | [Hn | Hn]]; try discriminate Hn.
      eexists. rewrite <- !add_uis_app. reflexivity.
    + eexists. rewrite <- add_uis_app. reflexivity.
  - exists (page_top p ++ [st_warning (lit (page_warning p))]).
    rewrite add_uis_app. reflexivity.
Qed.

Lemma page_only_draws_witness :
  exists evs,
    page_training deaf_libs CommentaryPage
      (mkInputs (u "実況トレーニング") false (Some demo_audio) false) deaf_world
    = (Ret tt, add_uis evs deaf_world).
Proof.
  apply (page_only_draws deaf_libs CommentaryPage
           (mkInputs (u "実況トレーニング") false (Some demo_audio) false) deaf_world).
  - reflexivity.
  - cbn. eauto.
  - left. reflexivity.
Defined.

(** X15. When the generation button is clicked and the service answers,
    the page asks for a new run right after its top: the session then
    holds the stripped answer as the question, no transcript and no
    feedback, and one request built from the template of the page's
    drill has been sent. *)
Theorem page_generates_prompt (L : Libs) (p : page) (inp : Inputs) (w : World)
    (ai : SpeechTrainingAI) (resp : ChatCompletion) (ch : Choice) (rest : list Choice)
    (c : pystr) :
  in_generate_clicked inp = true ->
  ai_client (session_state w) = Some ai ->
  chat_completions_create (client ai) (api_log w)
    (question_request (generate_question_template (page_drill p))) = inr resp ->
  choices resp = ch :: rest ->
  message_content ch = Some c ->
  page_training L p inp w
  = (Control RerunException,
     with_session_state (fresh_session ai (py_strip c))
       (add_call (ChatCompletionsCreate
                    (question_request (generate_question_template (page_drill p))))
          (add_uis (page_top p) w))).
Proof.
  intros Hgen Hai Hresp Hch Hc. rewrite page_training_parts, Hgen, generate_step_run.
  assert (Hs : session_state (add_uis (page_top p) w) = session_state w)
    by apply add_uis_fs.
  assert (Hl : api_log (add_uis (page_top p) w) = api_log w) by (destruct p; reflexivity).
  rewrite Hs, Hai. cbv zeta. rewrite generate_question_prompt_tag, Hl, Hresp.
  unfold stripped_completion. rewrite Hch, Hc. reflexivity.
Qed.

Lemma page_generates_prompt_witness :
  current_question
    (session_state
       (page_training (stub_libs (client_answering (u " 今いる部屋 "))) CommentaryPage
          (mkInputs (u "実況トレーニング") true None false)
          (world_of ∅ (session_with (demo_ai (client_answering (u " 今いる部屋 ")))
                         demo_question))).2)
  = Some (Some (u "今いる部屋")).
Proof.
  rewrite (page_generates_prompt (stub_libs (client_answering (u " 今いる部屋 ")))
             CommentaryPage (mkInputs (u "実況トレーニング") true None false)
             (world_of ∅ (session_with (demo_ai (client_answering (u " 今いる部屋 ")))
                            demo_question))
             (demo_ai (client_answering (u " 今いる部屋 ")))
             (completion (u " 今いる部屋 ")) (mkChoice (Some (u " 今いる部屋 "))) []
             (u " 今いる部屋 ") eq_refl eq_refl eq_refl eq_refl eq_refl).
  vm_compute. reflexivity.
Defined.

(** X16. When the generation button is clicked and the service fails,
    the page shows the message of the fault behind two labels, its own
    and the one [generate_question] has already put, leaves the session
    as it was and goes on with the section of the question. *)
Theorem page_generation_fails (L : Libs) (p : page) (inp : Inputs) (w : World)
    (ai : SpeechTrainingAI) (e : Exception) :
  in_generate_clicked inp = true ->
  ai_client (session_state w) = Some ai ->
  chat_completions_create (client ai) (api_log w)
    (question_request (generate_question_template (page_drill p))) = inl e ->
  let shown := st_error (lit (page_error_label p ++ generation_label ++ exc_str e)) in
  let w1 := add_ui shown
              (add_call (ChatCompletionsCreate
                           (question_request (generate_question_template (page_drill p))))
                 (add_uis (page_top p) w)) in
  session_state w1 = session_state w
  /\ page_training L p inp w
     = question_section L (page_info_prefix p) (page_color p) (page_warning p)
         (analyze L (page_drill p)) (drill_tag (page_drill p)) inp w1.
Proof.
  intros Hgen Hai Hresp shown w1. subst shown w1.
  assert (Hs : session_state (add_uis (page_top p) w) = session_state w)
    by apply add_uis_fs.
  assert (Hl : api_log (add_uis (page_top p) w) = api_log w) by (destruct p; reflexivity).
  split; [exact Hs|].
  rewrite page_training_parts, Hgen, generate_step_run.
  rewrite Hs, Hai. cbv zeta. rewrite generate_question_prompt_tag, Hl, Hresp.
  reflexivity.
Qed.

Lemma page_generation_fails_witness :
  ui (page_training (stub_libs client_offline) ParrotPage
        (mkInputs (u "オウム返し訓練") true None false) offline_world).2
  = page_top ParrotPage
    ++ [ st_error (lit (u "質問生成エラー: " ++ u "質問生成エラー: " ++ u "Connection error."));
         st_warning (lit (page_warning ParrotPage)) ].
Proof.
  rewrite (proj2 (page_generation_fails (stub_libs client_offline) ParrotPage
                    (mkInputs (u "オウム返し訓練") true None false) offline_world
                    (demo_ai client_offline) (APIConnectionError (u "Connection error."))
                    eq_refl eq_refl eq_refl)).
  vm_compute. reflexivity.
Defined.

(** ** [display_feedback], again *)

Lemma raises_after_raise {A} (e : Exception) : raises_after (@raise A e) e [].
Proof. intros w. reflexivity. Qed.

Lemma raises_after_first {A B} (m : M A) (k : A -> M B) (e : Exception) (evs : list UiEvent) :
  raises_after m e evs -> raises_after (m ≫= k) e evs.
Proof. intros Hm w. unfold mbind, M_bind, bind. rewrite Hm. reflexivity. Qed.

Lemma raises_after_bind {A B} (m : M A) (k : A -> M B) (a : A) (e : Exception)
    (evs1 evs2 : list UiEvent) :
  runs_to m a evs1 -> raises_after (k a) e evs2 -> raises_after (m ≫= k) e (evs1 ++ evs2).
Proof.
  intros Hm Hk w. unfold mbind, M_bind, bind. rewrite Hm, Hk, add_uis_app. reflexivity.
Qed.

(** X17. [display_feedback] changes nothing but the page, whatever the
    Feedback is and whether it returns or raises: the session, the
    files and the log of calls are as before, and what was on the page
    stays before what it draws. *)
Theorem display_feedback_only_draws (L : Libs) (fb : pyval) (training_type : pystr)
    (w : World) :
  exists evs,
    (display_feedback L fb training_type w).2 = add_uis evs w
    /\ ui (display_feedback L fb training_type w).2 = ui w ++ evs
    /\ session_state (display_feedback L fb training_type w).2 = session_state w
    /\ fs_files (display_feedback L fb training_type w).2 = fs_files w
    /\ fs_dirs (display_feedback L fb training_type w).2 = fs_dirs w
    /\ api_log (display_feedback L fb training_type w).2 = api_log w.
Proof.
  destruct (ui_only_ui (display_feedback L fb training_type) w
              (display_feedback_ui_only L fb training_type)) as (evs & Hw & Hui).
  exists evs. rewrite Hui, Hw.
  destruct (add_uis_fs evs w) as (Hf & Hd & Hs).
  pose proof (add_uis_api_log evs w). auto 10.
Qed.

(** X18. A Feedback that is not a JSON object (a list, a string, a
    number, [null]) makes [display_feedback] raise [AttributeError]
    right after the heading of the results. *)
Theorem display_feedback_not_a_dict (L : Libs) (fb : pyval) (training_type : pystr)
    (w : World) :
  (forall d, fb <> PDict d) ->
  display_feedback L fb training_type w
  = (Raise (AttributeError (u "'" ++ py_type_name fb ++ u "' object has no attribute 'get'")),
     add_ui (st_subheader (lit (u "📊 評価結果"))) w).
Proof.
  intros Hnot. unfold display_feedback, mbind, M_bind, bind, show.
  destruct fb; try reflexivity. exfalso. apply (Hnot d). reflexivity.
Qed.

Lemma display_feedback_not_a_dict_witness :
  (display_feedback empty_libs (PList []) (u "parrot") empty_world).1
  = Raise (AttributeError (u "'list' object has no attribute 'get'")).
Proof.
  rewrite (display_feedback_not_a_dict empty_libs (PList []) (u "parrot") empty_world);
    [vm_compute; reflexivity | discriminate].
Defined.

Lemma field_present (d : list (pystr * pyval)) (k : pystr) (default v : pyval) :
  assoc_get k d = Some v -> field d k default = v.
Proof. intros H. unfold field. rewrite H. reflexivity. Qed.

(** The banner of an integer score that has a text. *)
Lemma banner_int (z : Z) :
  py_str_check (PInt z) = None ->
  runs_to
    (if (80 <=? z)%Z then
       banner ← fstring [Lit (u "素晴らしい！ スコア: "); Fmt (PInt z) []; Lit (u "/100")];
       show (st_success banner)
     else
       ge60 ← lift (py_ge_int (PInt z) 60);
       if ge60 : bool then
         banner ← fstring [Lit (u "良い調子です！ スコア: "); Fmt (PInt z) []; Lit (u "/100")];
         show (st_info banner)
       else
         banner ← fstring [Lit (u "もう少し頑張りましょう！ スコア: "); Fmt (PInt z) []; Lit (u "/100")];
         show (st_warning banner))
    tt [score_banner z].
Proof.
  intros Hstr.
  assert (Hf : forall a, runs_to (fstring [Lit a; Fmt (PInt z) []; Lit (u "/100")])
                           [Lit a; Fmt (PInt z) []; Lit (u "/100")] []).
  { intros a. apply runs_to_fstring. rewrite <- Hstr.
    apply (fstring_check_str [a] [u "/100"]). }
  unfold score_banner. destruct (80 <=? z)%Z.
  - apply (runs_to_bind _ _ _ _ [] [_] (Hf _)). apply runs_to_show.
  - cbn [py_ge_int].
    apply (runs_to_bind _ _ (60 <=? z)%Z _ [] [_]); [apply runs_to_ret|].
    destruct (60 <=? z)%Z;
      (apply (runs_to_bind _ _ _ _ [] [_] (Hf _)); apply runs_to_show).
Qed.

(** The run of [display_feedback] up to the banner, for an integer
    score that has a text. *)
Lemma display_feedback_int_score (L : Libs) (d : list (pystr * pyval)) (z : Z)
    (training_type : pystr) :
  assoc_get (u "score") d = Some (PInt z) ->
  py_str_check (PInt z) = None ->
  exists rest : float -> M unit,
    (forall ratio, ui_only (rest ratio))
    /\ forall w,
         display_feedback L (PDict d) training_type w
         = (ratio ← lift (int_truediv z 100); rest ratio) (add_uis (score_head z) w).
Proof.
  intros Hscore Hstr. unfold display_feedback.
  rewrite !py_get_field, (field_present d (u "score") (PInt 0) (PInt z) Hscore).
  match goal with
  | |- context [call_st_progress L _ ≫= ?k] =>
      exists (fun ratio => call_st_progress L ratio ≫= k)
  end.
  split.
  { intros ratio. unfold call_st_progress. repeat ui_only_step. }
  intros w.
  unfold score_head, score_metric. rewrite add_uis_app.
  unfold mbind at 1 2 3 4 5 6, M_bind at 1 2 3 4 5 6, bind at 1 2 3 4 5 6.
  unfold show at 1, lift at 1, ret at 1.
  rewrite (runs_to_fstring [Fmt (PInt z) []; Lit (u "/100")]);
    [|rewrite <- Hstr; apply (fstring_check_str [] [u "/100"])].
  unfold show at 1. cbn [py_ge_int]. unfold lift at 1, ret at 1.
  rewrite (banner_int z Hstr). reflexivity.
Qed.

(** X19. For a Feedback whose score is an integer that has a text (at
    most 4300 digits), [display_feedback] first draws the heading, the
    score over 100 and one banner: the success banner from 80 on, the
    information banner from 60 to 79 and the warning banner below 60;
    this holds whether or not the rest of the Feedback can be drawn. *)
Theorem display_feedback_banner (L : Libs) (d : list (pystr * pyval)) (z : Z)
    (training_type : pystr) (w : World) :
  assoc_get (u "score") d = Some (PInt z) ->
  py_str_check (PInt z) = None ->
  (exists rest, ui (display_feedback L (PDict d) training_type w).2
                = ui w ++ score_head z ++ rest)
  /\ ((80 <= z)%Z ->
      score_banner z
      = st_success [Lit (u "素晴らしい！ スコア: "); Fmt (PInt z) []; Lit (u "/100")])
  /\ ((60 <= z < 80)%Z ->
      score_banner z
      = st_info [Lit (u "良い調子です！ スコア: "); Fmt (PInt z) []; Lit (u "/100")])
  /\ ((z < 60)%Z ->
      score_banner z
      = st_warning [Lit (u "もう少し頑張りましょう！ スコア: "); Fmt (PInt z) []; Lit (u "/100")]).
Proof.
  intros Hscore Hstr. split.
  - destruct (display_feedback_int_score L d z training_type Hscore Hstr)
      as (rest & Hrest & ->).
    assert (Hui : ui_only (ratio ← lift (int_truediv z 100); rest ratio))
      by (apply ui_only_bind; [apply ui_only_lift | exact Hrest]).
    destruct (ui_only_ui _ (add_uis (score_head z) w) Hui) as (evs & _ & ->).
    exists evs. rewrite ui_add_uis, <- app_assoc. reflexivity.
  - unfold score_banner. repeat split.
    + intros H. rewrite (proj2 (Z.leb_le 80 z)) by lia. reflexivity.
    + intros H. rewrite (proj2 (Z.leb_gt 80 z)) by lia.
      rewrite (proj2 (Z.leb_le 60 z)) by lia. reflexivity.
    + intros H. rewrite (proj2 (Z.leb_gt 80 z)) by lia.
      rewrite (proj2 (Z.leb_gt 60 z)) by lia. reflexivity.
Qed.

Lemma display_feedback_banner_witness :
  score_banner 79
  = st_info [Lit (u "良い調子です！ スコア: "); Fmt (PInt 79) []; Lit (u "/100")].
Proof.
  apply (proj1 (proj2 (proj2 (display_feedback_banner empty_libs [(u "score", PInt 79)] 79
                                (u "parrot") empty_world eq_refl
                                ltac:(vm_compute; reflexivity))))).
  lia.
Defined.

(** X20. When [st.progress] rejects the quotient by 100 of an integer
    score that has a text, [display_feedback] raises the exception of
    [st.progress] after it has drawn the score and its banner, and
    draws nothing more. *)
Theorem display_feedback_score_rejected (L : Libs) (d : list (pystr * pyval)) (z : Z)
    (f : float) (e : Exception) (training_type : pystr) (w : World) :
  assoc_get (u "score") d = Some (PInt z) ->
  py_str_check (PInt z) = None ->
  int_truediv z 100 = inr f ->
  st_progress_check L f = Some e ->
  display_feedback L (PDict d) training_type w = (Raise e, add_uis (score_head z) w).
Proof.
  intros Hscore Hstr Hf He. unfold display_feedback.
  rewrite !py_get_field, (field_present d (u "score") (PInt 0) (PInt z) Hscore).
  unfold score_head, score_metric. rewrite add_uis_app.
  unfold mbind at 1 2 3 4 5 6 7, M_bind at 1 2 3 4 5 6 7, bind at 1 2 3 4 5 6 7.
  unfold show at 1, lift at 1, ret at 1.
  rewrite (runs_to_fstring [Fmt (PInt z) []; Lit (u "/100")]);
    [|rewrite <- Hstr; apply (fstring_check_str [] [u "/100"])].
  unfold show at 1. cbn [py_ge_int py_truediv_int]. unfold lift at 1, ret at 1.
  rewrite (banner_int z Hstr), Hf. unfold lift at 1, ret at 1.
  unfold mbind at 1, M_bind at 1, bind at 1, call_st_progress. rewrite He. reflexivity.
Qed.

Lemma display_feedback_score_rejected_witness :
  display_feedback empty_libs (PDict [(u "score", PInt 150)]) (u "parrot") empty_world
  = (Raise (StreamlitAPIException (u "Progress Value has invalid value [0.0, 1.0]")),
     add_uis (score_head 150) empty_world).
Proof.
  apply (display_feedback_score_rejected empty_libs [(u "score", PInt 150)] 150 1.5%float);
    vm_compute; reflexivity.
Defined.

Lemma py_str_check_cons (x : pyval) (l : list pyval) :
  py_str_check (PList (x :: l)) = first_error (py_str_check x) (py_str_check (PList l)).
Proof. reflexivity. Qed.

Lemma bullet_run (x : pyval) :
  py_str_check x = None ->
  runs_to (line ← fstring [Lit (u "- "); Fmt x []]; show (st_write line)) tt [point_bullet x].
Proof.
  intros Hx. apply (runs_to_bind _ _ [Lit (u "- "); Fmt x []] _ [] [_]).
  - apply runs_to_fstring. rewrite <- Hx. apply (fstring_check_str [u "- "] []).
  - apply runs_to_show.
Qed.

(** The loop over points that all have a text draws their bullets. *)
Lemma for_each_bullets (items : list pyval) :
  py_str_check (PList items) = None ->
  runs_to
    (for_each items (fun point =>
       line ← fstring [Lit (u "- "); Fmt point []];
       show (st_write line)))
    tt (List.map point_bullet items).
Proof.
  induction items as [|x items IH]; intros Hstr; [apply runs_to_ret|].
  rewrite py_str_check_cons in Hstr. apply first_error_is_none in Hstr as [Hx Hl].
  cbn [for_each List.map].
  apply (runs_to_bind _ _ tt _ [_] _ (bullet_run x Hx)). apply IH, Hl.
Qed.

(** The loop stops at the first point that has no text. *)
Lemma for_each_bullets_stop (before after : list pyval) (x : pyval) (e : Exception) :
  py_str_check (PList before) = None ->
  py_str_check x = Some e ->
  raises_after
    (for_each (before ++ x :: after) (fun point =>
       line ← fstring [Lit (u "- "); Fmt point []];
       show (st_write line)))
    e (List.map point_bullet before).
Proof.
  intros Hb Hx. induction before as [|y before IH].
  - cbn [app for_each List.map]. apply raises_after_first. apply raises_after_first.
    assert (H : fstring_check [Lit (u "- "); Fmt x []] = Some e)
      by (rewrite <- Hx; apply (fstring_check_str [u "- "] [])).
    intros w. unfold fstring. rewrite H. reflexivity.
  - rewrite py_str_check_cons in Hb. apply first_error_is_none in Hb as [Hy Hb].
    rewrite <- app_comm_cons. cbn [for_each List.map].
    apply (raises_after_bind _ _ tt e [_] _ (bullet_run y Hy)). apply IH, Hb.
Qed.

(** X21. The two lists of points are drawn by truth value and by
    iteration: a value that is false in Python ([None], an empty list
    or string, 0) gives the line that says there is none; a non-empty
    list gives one bullet per item, and a non-empty string one bullet
    per character; a number that is not 0 raises [TypeError]; an item
    that has no text stops the loop after the bullets of the items
    before it. *)
Theorem write_points_cases (w : World) :
  (forall v, py_truthy v = false ->
             write_points v w = (Ret tt, add_ui (st_write (lit (u "（該当なし）"))) w))
  /\ (forall x l,
        py_str_check (PList (x :: l)) = None ->
        write_points (PList (x :: l)) w
        = (Ret tt, add_uis (List.map point_bullet (x :: l)) w))
  /\ (forall c s,
        write_points (PStr (c :: s)) w
        = (Ret tt, add_uis (List.map (fun ch => point_bullet (PStr [ch])) (c :: s)) w))
  /\ (forall z, z <> 0%Z ->
        write_points (PInt z) w
        = (Raise (TypeError (u "'int' object is not iterable")), w))
  /\ (forall before x after e,
        py_str_check (PList before) = None ->
        py_str_check x = Some e ->
        write_points (PList (before ++ x :: after)) w
        = (Raise e, add_uis (List.map point_bullet before) w)).
Proof.
  repeat apply conj.
  - intros v Hv. unfold write_points. rewrite Hv. reflexivity.
  - intros x l Hstr. unfold write_points. cbn [py_truthy py_iter].
    change (lift (inr (x :: l)) ≫= ?k) with (k (x :: l)).
    apply (for_each_bullets (x :: l) Hstr).
  - intros c s. unfold write_points.
    assert (Ht : py_truthy (PStr (c :: s)) = true)
      by (cbn [py_truthy]; rewrite bool_decide_eq_false_2; [reflexivity | discriminate]).
    rewrite Ht. cbn [py_iter].
    change (lift (inr ?xs) ≫= ?k) with (k xs).
    rewrite <- (List.map_map (fun ch => PStr [ch]) point_bullet).
    apply for_each_bullets.
    generalize (c :: s). intros l. induction l as [|a l IH]; [reflexivity | exact IH].
  - intros z Hz. unfold write_points. cbn [py_truthy].
    rewrite (proj2 (Z.eqb_neq z 0) Hz). cbn [negb py_iter].
    change (lift (inl ?e) ≫= ?k) with (@raise unit e). unfold raise.
    apply (f_equal (fun e => (@Raise unit e, w))). vm_compute. reflexivity.
  - intros before x after e Hb Hx. unfold write_points.
    assert (Ht : py_truthy (PList (before ++ x :: after)) = true).
    { cbn [py_truthy]. destruct before; cbn [app]; rewrite bool_decide_eq_false_2;
        [reflexivity | discriminate | reflexivity | discriminate]. }
    rewrite Ht. cbn [py_iter].
    change (lift (inr ?xs) ≫= ?k) with (k xs).
    apply (for_each_bullets_stop before after x e Hb Hx).
Qed.

Lemma write_points_cases_witness :
  write_points (PInt 3) empty_world
  = (Raise (TypeError (u "'int' object is not iterable")), empty_world)
  /\ write_points (PList [PStr (u "声が大きい"); PInt 2]) empty_world
     = (Ret tt, add_uis [point_bullet (PStr (u "声が大きい")); point_bullet (PInt 2)]
                  empty_world).
Proof.
  split.
  - apply (proj1 (proj2 (proj2 (proj2 (write_points_cases empty_world)))) 3%Z). discriminate.
  - apply (proj1 (proj2 (write_points_cases empty_world))). vm_compute. reflexivity.
Defined.

(** ** Numbers out of range *)

(** X27. [float] converts the [int]s below [2^1024 - 2^970] in
    absolute value (the last one rounds to the largest double) and
    rejects that one and its opposite with [OverflowError]; an [int]
    that is no double is rounded to the nearest even. *)
Example int_to_float_range :
  int_to_float (2 ^ 1024 - 2 ^ 970 - 1) = inr 0x1.fffffffffffffp+1023%float
  /\ int_to_float (2 ^ 1024 - 2 ^ 970)
     = inl (OverflowError (u "int too large to convert to float"))
  /\ int_to_float (- (2 ^ 1024 - 2 ^ 970))
     = inl (OverflowError (u "int too large to convert to float"))
  /\ int_to_float (2 ^ 53 + 1) = inr 9007199254740992%float.
Proof. repeat apply conj; vm_compute; reflexivity. Qed.

(** X22. In the commentary drill, a record whose other fields are drawn
    without an exception and whose average length is an [int] that
    [float] rejects makes [display_feedback] raise [OverflowError] from
    the format [.1f]. *)
Theorem display_feedback_average_overflow (L : Libs) (d : list (pystr * pyval)) (z : Z)
    (s : bool) (w : World) :
  assoc_get (u "avg_sentence_length") d = Some (PInt z) ->
  binary_normalize prec emax z 0 false = S754_infinity s ->
  display_error L (u "commentary") (without (u "avg_sentence_length") d) = None ->
  (display_feedback L (PDict d) (u "commentary") w).1
  = Raise (OverflowError (u "int too large to convert to float")).
Proof.
  intros Havg Hinf Hrest.
  rewrite display_feedback_outcome.
  unfold display_error, details_error in *. rewrite !field_without in Hrest.
  repeat match goal with
         | |- context [pystr_eqb (u ?a) (u ?b)] =>
             let r := eval vm_compute in (pystr_eqb (u a) (u b)) in
             change (pystr_eqb (u a) (u b)) with r
         | H : context [pystr_eqb (u ?a) (u ?b)] |- _ =>
             let r := eval vm_compute in (pystr_eqb (u a) (u b)) in
             change (pystr_eqb (u a) (u b)) with r in H
         end.
  cbv iota in Hrest. cbv iota.
  apply first_error_is_none in Hrest as (-> & Hrest).
  apply first_error_is_none in Hrest as (-> & Hrest).
  apply first_error_is_none in Hrest as (-> & Hrest).
  apply first_error_is_none in Hrest as (-> & _).
  cbn [first_error].
  rewrite (field_present d (u "avg_sentence_length") (PInt 0) (PInt z) Havg).
  unfold py_format_1f_check, int_to_float. rewrite Hinf. reflexivity.
Qed.

Lemma display_feedback_average_overflow_witness :
  (display_feedback empty_libs (PDict [(u "avg_sentence_length", PInt (10 ^ 400))])
     (u "commentary") empty_world).1
  = Raise (OverflowError (u "int too large to convert to float")).
Proof.
  apply (display_feedback_average_overflow empty_libs
           [(u "avg_sentence_length", PInt (10 ^ 400))] (10 ^ 400) false empty_world);
    vm_compute; reflexivity.
Defined.

(** X23. A score with more digits than CPython converts to text makes
    [display_feedback] raise [ValueError] from the f-string of the
    metric, right after the heading of the results. *)
Theorem display_feedback_score_too_long (L : Libs) (d : list (pystr * pyval)) (z : Z)
    (training_type : pystr) (w : World) :
  assoc_get (u "score") d = Some (PInt z) ->
  (int_max_str_digits < int_digits z)%nat ->
  display_feedback L (PDict d) training_type w
  = (Raise digits_limit_error, add_ui (st_subheader (lit (u "📊 評価結果"))) w).
Proof.
  intros Hscore Hlong. unfold display_feedback.
  rewrite !py_get_field, (field_present d (u "score") (PInt 0) (PInt z) Hscore).
  unfold mbind at 1 2 3, M_bind at 1 2 3, bind at 1 2 3.
  unfold show at 1, lift at 1, ret at 1.
  assert (H : fstring_check [Fmt (PInt z) []; Lit (u "/100")] = Some digits_limit_error).
  { etransitivity; [apply (fstring_check_str [] [u "/100"] (PInt z))|].
    cbn [py_str_check]. rewrite (proj2 (Nat.ltb_lt _ _) Hlong). reflexivity. }
  unfold fstring. rewrite H. reflexivity.
Qed.

Lemma display_feedback_score_too_long_witness :
  (display_feedback empty_libs (PDict [(u "score", PInt ten_pow_4300)]) (u "parrot")
     empty_world).1
  = Raise digits_limit_error.
Proof.
  rewrite (display_feedback_score_too_long empty_libs [(u "score", PInt ten_pow_4300)]
             ten_pow_4300 (u "parrot") empty_world eq_refl).
  - reflexivity.
  - unfold int_digits, digits_of_N, ten_pow_4300.
    rewrite Zabs2N.id, DecimalN.Unsigned.to_of.
    apply Nat.ltb_lt. vm_compute. reflexivity.
Defined.

(** ** The handler of a recording, again *)

(** The run of the handler once the analysis has returned [fb]. *)
Lemma submit_recording_after_analysis (L : Libs) (d : drill) (audio : pybytes)
    (w w1 w2 : World) (path text : pystr) (ai : SpeechTrainingAI) (q : option pystr)
    (fb : pyval) :
  save_audio_file audio default_filename w = (Ret path, w1) ->
  ai_client (session_state w) = Some ai ->
  current_question (session_state w) = Some q ->
  transcribe_audio ai path w1 = (Ret text, w2) ->
  decoded_completion L
    (chat_completions_create (client ai) (api_log w2)
       (analysis_request (analysis_prompt d (py_str_opt q) text))) = inr fb ->
  submit_recording L (analyze L d) (drill_tag d) audio w =
  match display_feedback L fb (drill_tag d) (before_display d q text fb w2) with
  | (Ret _, w6) => (Ret tt, with_fs (fs_dirs w6) (delete path (fs_files w6)) w6)
  | (Raise e, w6) => (Ret tt, add_ui (submit_error e) w6)
  | (Control c, w6) => (Control c, w6)
  end.
Proof.
  intros Hsave Hai Hq Htr Hfb.
  destruct (save_audio_file_ok _ _ _ _ Hsave) as (Hpath & Hread & _).
  destruct (transcribe_audio_effect _ _ _ _ _ Htr) as (_ & _ & Hf2 & Hd2 & _).
  rewrite (submit_recording_until_analysis L _ _ _ _ _ _ _ _ _ _ Hsave Hai Hq Htr).
  rewrite analyze_run. cbv zeta.
  change (api_log (before_analysis text w2)) with (api_log w2).
  rewrite Hfb. cbn [relabel].
  unfold mbind, M_bind, bind.
  change (set_feedback fb ?w0) with
    (Ret tt, with_session_state
               (mkSessionState (ai_client (session_state w0))
                  (current_question (session_state w0))
                  (transcribed_text (session_state w0)) (Some fb)) w0).
  fold (before_display d q text fb w2).
  destruct (display_feedback_ui_only L fb (drill_tag d) (before_display d q text fb w2))
    as [evs Hevs].
  destruct (display_feedback L fb (drill_tag d) (before_display d q text fb w2))
    as [[[]|e|c] w6]; cbn [snd] in Hevs; try reflexivity.
  destruct (add_uis_fs evs (before_display d q text fb w2)) as (Hf6 & Hd6 & _).
  assert (Hread6 : read_file w6 path = inr audio).
  { unfold read_file in *. rewrite Hevs, Hf6, Hd6.
    cbn [before_display fs_files fs_dirs with_session_state add_call before_analysis add_ui].
    rewrite Hf2, Hd2. exact Hread. }
  unfold os_remove, mbind, M_bind, bind, get_world, set_fs, raise.
  unfold read_file in Hread6.
  destruct (bool_decide (path ∈ fs_dirs w6)); [discriminate Hread6|].
  destruct (fs_files w6 !! path); [reflexivity | discriminate Hread6].
Qed.

Lemma transcribe_after_save (audio : pybytes) (w w1 : World) (path : pystr)
    (ai : SpeechTrainingAI) (t : Transcription) :
  save_audio_file audio default_filename w = (Ret path, w1) ->
  audio_transcriptions_create (client ai) (api_log w) (transcription_request audio)
    = inr t ->
  transcribe_audio ai path w1
  = (Ret (transcription_text t),
     add_call (AudioTranscriptionsCreate (transcription_request audio)) w1).
Proof.
  intros Hsave Ht.
  destruct (save_audio_file_ok _ _ _ _ Hsave) as (_ & Hread & _ & _ & Hl1).
  rewrite transcribe_audio_run, Hread. cbv zeta.
  fold (transcription_request audio). rewrite Hl1, Ht. reflexivity.
Qed.

(** X24. A run of the handler in which the transcription, the analysis
    and the drawing succeed sends two requests, the transcription of the
    recording and then the analysis of the session's question with the
    recognised text, stores the text and the Feedback in the session,
    keeps the question, and removes the recording while every other file
    is as before. *)
Theorem submit_recording_success (L : Libs) (d : drill) (audio : pybytes)
    (w w1 : World) (path : pystr) (ai : SpeechTrainingAI) (q : option pystr)
    (t : Transcription) (fb : pyval) :
  save_audio_file audio default_filename w = (Ret path, w1) ->
  ai_client (session_state w) = Some ai ->
  current_question (session_state w) = Some q ->
  audio_transcriptions_create (client ai) (api_log w) (transcription_request audio)
    = inr t ->
  decoded_completion L
    (chat_completions_create (client ai)
       (api_log w ++ [AudioTranscriptionsCreate (transcription_request audio)])
       (analysis_request (analysis_prompt d (py_str_opt q) (transcription_text t))))
    = inr fb ->
  (forall w0, (display_feedback L fb (drill_tag d) w0).1 = Ret tt) ->
  let r := submit_recording L (analyze L d) (drill_tag d) audio w in
  r.1 = Ret tt
  /\ api_log r.2
     = api_log w
       ++ [ AudioTranscriptionsCreate (transcription_request audio);
            ChatCompletionsCreate
              (analysis_request
                 (analysis_prompt d (py_str_opt q) (transcription_text t))) ]
  /\ session_state r.2
     = mkSessionState (Some ai) (Some q) (Some (Some (transcription_text t))) (Some fb)
  /\ fs_files r.2 !! path = None
  /\ (forall other, other <> path -> fs_files r.2 !! other = fs_files w !! other).
Proof.
  intros Hsave Hai Hq Ht Hfb Hshow r. subst r.
  pose proof (transcribe_after_save audio w w1 path ai t Hsave Ht) as Htr.
  destruct (save_audio_file_round_trip_frame audio w w1 path Hsave) as (Hother & Hs1 & Hl1).
  assert (Hfb' : decoded_completion L
                   (chat_completions_create (client ai)
                      (api_log (add_call (AudioTranscriptionsCreate
                                            (transcription_request audio)) w1))
                      (analysis_request
                         (analysis_prompt d (py_str_opt q) (transcription_text t))))
                 = inr fb).
  { cbn [api_log add_call]. rewrite Hl1. exact Hfb. }
  rewrite (submit_recording_after_analysis L d audio w w1 _ path _ ai q fb
             Hsave Hai Hq Htr Hfb').
  set (w5 := before_display _ _ _ _ _).
  specialize (Hshow w5).
  destruct (display_feedback_ui_only L fb (drill_tag d) w5) as [evs Hevs].
  destruct (display_feedback L fb (drill_tag d) w5) as [o w6].
  cbn [fst snd] in Hshow, Hevs. subst o w6.
  destruct (add_uis_fs evs w5) as (Hf6 & Hd6 & Hs6).
  pose proof (add_uis_api_log evs w5) as Hl6.
  cbn [fst snd api_log session_state fs_files with_fs].
  rewrite Hl6, Hs6, Hf6. subst w5.
  cbn [before_display before_analysis api_log session_state fs_files add_call add_ui
         with_session_state ai_client current_question transcribed_text].
  rewrite Hs1, Hl1, Hai, Hq.
  repeat apply conj.
  - reflexivity.
  - rewrite <- app_assoc. reflexivity.
  - reflexivity.
  - apply lookup_delete_eq.
  - intros other Hne. rewrite lookup_delete_ne by congruence. apply Hother, Hne.
Qed.

Lemma submit_recording_success_witness :
  api_log (submit_recording scenario_libs (analyze scenario_libs ParrotRepeat)
             (drill_tag ParrotRepeat) demo_audio scenario_world).2
  = [ AudioTranscriptionsCreate (transcription_request demo_audio);
      ChatCompletionsCreate
        (analysis_request (analysis_prompt ParrotRepeat demo_question demo_transcript)) ].
Proof.
  assert (Hshow : forall w0,
             (display_feedback scenario_libs scenario_feedback (drill_tag ParrotRepeat)
                w0).1 = Ret tt).
  { intros w0. unfold scenario_feedback. rewrite display_feedback_outcome.
    vm_compute. reflexivity. }
  destruct (submit_recording_success scenario_libs ParrotRepeat demo_audio scenario_world
              (save_audio_file demo_audio default_filename scenario_world).2
              recorded_audio_path scenario_ai (Some demo_question)
              (mkTranscription demo_transcript) scenario_feedback
              ltac:(vm_compute; reflexivity) eq_refl eq_refl eq_refl
              ltac:(vm_compute; reflexivity) Hshow) as (_ & Hlog & _).
  exact Hlog.
Defined.

(** X25. When [display_feedback] raises in a run of the handler, the
    Feedback is already stored in the session and stays there, the
    message of the exception is the last thing on the page, and the
    recording is still in the file system. *)
Theorem submit_recording_display_fails (L : Libs) (d : drill) (audio : pybytes)
    (w w1 : World) (path : pystr) (ai : SpeechTrainingAI) (q : option pystr)
    (t : Transcription) (fb : pyval) (e : Exception) :
  save_audio_file audio default_filename w = (Ret path, w1) ->
  ai_client (session_state w) = Some ai ->
  current_question (session_state w) = Some q ->
  audio_transcriptions_create (client ai) (api_log w) (transcription_request audio)
    = inr t ->
  decoded_completion L
    (chat_completions_create (client ai)
       (api_log w ++ [AudioTranscriptionsCreate (transcription_request audio)])
       (analysis_request (analysis_prompt d (py_str_opt q) (transcription_text t))))
    = inr fb ->
  (forall w0, (display_feedback L fb (drill_tag d) w0).1 = Raise e) ->
  let r := submit_recording L (analyze L d) (drill_tag d) audio w in
  r.1 = Ret tt
  /\ feedback (session_state r.2) = Some fb
  /\ (exists evs, ui r.2 = ui w ++ evs ++ [submit_error e])
  /\ read_file r.2 path = inr audio.
Proof.
  intros Hsave Hai Hq Ht Hfb Hshow r. subst r.
  pose proof (transcribe_after_save audio w w1 path ai t Hsave Ht) as Htr.
  destruct (save_audio_file_ok _ _ _ _ Hsave) as (_ & Hread & Hs1 & Hu1 & Hl1).
  assert (Hfb' : decoded_completion L
                   (chat_completions_create (client ai)
                      (api_log (add_call (AudioTranscriptionsCreate
                                            (transcription_request audio)) w1))
                      (analysis_request
                         (analysis_prompt d (py_str_opt q) (transcription_text t))))
                 = inr fb).
  { cbn [api_log add_call]. rewrite Hl1. exact Hfb. }
  rewrite (submit_recording_after_analysis L d audio w w1 _ path _ ai q fb
             Hsave Hai Hq Htr Hfb').
  set (w5 := before_display _ _ _ _ _).
  specialize (Hshow w5).
  destruct (display_feedback_ui_only L fb (drill_tag d) w5) as [evs Hevs].
  destruct (display_feedback L fb (drill_tag d) w5) as [o w6].
  cbn [fst snd] in Hshow, Hevs. subst o w6.
  destruct (add_uis_fs evs w5) as (Hf6 & Hd6 & Hs6).
  cbn [fst snd session_state ui add_ui].
  rewrite Hs6, ui_add_uis. unfold read_file in *.
  cbn [fs_files fs_dirs add_ui]. rewrite Hf6, Hd6. subst w5.
  cbn [before_display before_analysis session_state ui fs_files fs_dirs add_call add_ui
         with_session_state feedback].
  rewrite Hu1.
  repeat apply conj; [reflexivity | reflexivity | | exact Hread].
  exists ([ st_success (lit (u "✅ 音声認識完了"));
            st_markdown (lit (u "### 📝 認識されたテキスト"));
            st_write (lit (transcription_text t)) ] ++ evs).
  rewrite <- !app_assoc. reflexivity.
Qed.

Lemma submit_recording_display_fails_witness :
  feedback
    (session_state
       (submit_recording (listy_libs (client_answering (u "[]")))
          (analyze (listy_libs (client_answering (u "[]"))) ParrotRepeat)
          (drill_tag ParrotRepeat) demo_audio
          (world_of ∅ (session_with (demo_ai (client_answering (u "[]")))
                         demo_question))).2)
  = Some (PList []).
Proof.
  assert (Hshow : forall w0,
             (display_feedback (listy_libs (client_answering (u "[]"))) (PList [])
                (drill_tag ParrotRepeat) w0).1
             = Raise (AttributeError (u "'" ++ py_type_name (PList [])
                                      ++ u "' object has no attribute 'get'"))).
  { intros w0. unfold display_feedback, mbind, M_bind, bind, show. reflexivity. }
  destruct (submit_recording_display_fails (listy_libs (client_answering (u "[]")))
              ParrotRepeat demo_audio
              (world_of ∅ (session_with (demo_ai (client_answering (u "[]")))
                             demo_question))
              (save_audio_file demo_audio default_filename
                 (world_of ∅ (session_with (demo_ai (client_answering (u "[]")))
                                demo_question))).2
              recorded_audio_path (demo_ai (client_answering (u "[]")))
              (Some demo_question) (mkTranscription demo_transcript) (PList []) _
              ltac:(vm_compute; reflexivity) eq_refl eq_refl eq_refl eq_refl Hshow)
    as (_ & Hfb & _).
  exact Hfb.
Defined.

(** X26. When the recording cannot be saved, the handler shows the
    error and does nothing else: no request is sent and the session is
    as before. *)
Theorem submit_recording_save_fails (L : Libs)
    (analyze : SpeechTrainingAI -> pystr -> pystr -> M pyval) (training_type : pystr)
    (audio : pybytes) (w w1 : World) (e : Exception) :
  save_audio_file audio default_filename w = (Raise e, w1) ->
  submit_recording L analyze training_type audio w = (Ret tt, add_ui (submit_error e) w1)
  /\ api_log w1 = api_log w
  /\ session_state w1 = session_state w
  /\ fs_files w1 = fs_files w.
Proof.
  intros Hsave. split.
  - unfold submit_recording, try_except, mbind at 1, M_bind at 1, bind at 1.
    rewrite Hsave. reflexivity.
  - rewrite save_audio_file_run in Hsave.
    destruct (fs_files w !! audio_dir).
    + injection Hsave as _ <-. auto.
    + destruct (bool_decide _); [|discriminate Hsave].
      injection Hsave as _ <-. auto.
Qed.

Lemma submit_recording_save_fails_witness :
  submit_recording deaf_libs (analyze deaf_libs ParrotRepeat) (u "parrot") demo_audio
    blocked_world
  = (Ret tt, add_ui (submit_error (FileExistsError audio_dir)) blocked_world).
Proof.
  apply (submit_recording_save_fails deaf_libs (analyze deaf_libs ParrotRepeat) (u "parrot")
           demo_audio blocked_world blocked_world (FileExistsError audio_dir)).
  vm_compute. reflexivity.
Defined.
